(** * Jersey order backend: order admission and status workflow

    A shallow embedding of [src/server.js].  The file holds two servers
    one after the other:

    - the admin server (lines 1-810): JWT-protected admin routes, the
      orders table without a uniqueness constraint, emails awaited inside
      the request;
    - the intake server (lines 810-1632): public routes only, the orders
      table with [jersey_number INTEGER NOT NULL UNIQUE], a pre-insert
      duplicate check, emails dispatched without being awaited.

    Both register [POST /api/orders]; they are embedded as [Module Admin]
    and [Module Intake].  What the JavaScript runtime provides (ToBoolean,
    ToString, [parseInt], [String.prototype.trim], regular expressions) is
    embedded first. *)

From Stdlib Require Import ZArith String Ascii List Bool Lia.
From Stdlib Require Import DecimalString DecimalZ.
From stdpp Require Import base option gmap strings.
Import ListNotations.

Local Open Scope string_scope.
Local Open Scope list_scope.
Local Open Scope Z_scope.

(* ===================================================================== *)
(** ** JavaScript values and the runtime operations the handlers use     *)
(* ===================================================================== *)

(** A field of [req.body] as [express.json()] delivers it: a JSON scalar,
    or [undefined] when the key is absent.  [VNum n] is the Number
    nearest to the integer [n] (the Number [n] itself below 2^53);
    [VReal text] is a Number that is not an integer, a fraction or an
    infinity, given by the text Number::toString prints for it ("0.5",
    "1e-7", "Infinity").  Strings are sequences of code units below
    256. *)
Inductive Val : Type :=
| VUndef
| VNull
| VBool (b : bool)
| VNum (n : Z)
| VReal (text : string)
| VStr (s : string).

(** [req.body]: a JavaScript object used as a map from key to value. *)
Abbreviation Body := (gmap string Val).

(** [req.body[k]] and destructuring: an absent key reads as [undefined]. *)
Definition field (b : Body) (k : string) : Val := default VUndef (b !! k).

(** ToBoolean: what [!x], [x || y], [x && y] and [x ? a : b] test. *)
Definition truthy (v : Val) : bool :=
  match v with
  | VUndef | VNull => false
  | VBool b => b
  | VNum n => negb (n =? 0)
  | VReal _ => true
  | VStr s => negb (String.eqb s "")
  end.

(** The decimal text of an integer.  Number::toString prints this for
    the integers the servers print themselves, which stay far below
    10^21: row ids (int4), validated jersey numbers, [Date.now()]. *)
Definition num_to_string (n : Z) : string := NilZero.string_of_int (Z.to_int n).

(** The Number nearest to the integer [v]: 53 significant bits, ties to
    even; [None] when it is an infinity. *)
Definition nearest_double (v : Z) : option Z :=
  let a := Z.abs v in
  if a <? 9007199254740992 then Some v
  else
    let e := Z.log2 a - 52 in
    let q := a / 2 ^ e in
    let r := a mod 2 ^ e in
    let q' := if 2 * r <? 2 ^ e then q
              else if 2 ^ e <? 2 * r then q + 1
              else q + q mod 2 in
    if 2 ^ 1024 <=? q' * 2 ^ e then None else Some (Z.sgn v * (q' * 2 ^ e)).

(** Number::toString chooses the fewest significant digits that still
    read back as the Number [x], and among those the value closest to
    [x]: [p] is the weight of the last digit kept. *)
Fixpoint shortest (fuel : nat) (x p : Z) : Z :=
  match fuel with
  | O => x
  | S fuel' =>
      let lo := x / p * p in
      let hi := lo + p in
      let reads c := match nearest_double c with
                     | Some y => y =? x
                     | None => false
                     end in
      if reads lo && reads hi
      then (if x - lo <? hi - x then lo
            else if hi - x <? x - lo then hi
            else if Z.even (lo / p) then lo else hi)
      else if reads lo then lo
      else if reads hi then hi
      else shortest fuel' x (p / 10)
  end.

Fixpoint drop_trailing_zeros (s : string) : string :=
  match s with
  | EmptyString => EmptyString
  | String c r =>
      match drop_trailing_zeros r with
      | EmptyString => if Ascii.eqb c "0" then EmptyString else String c EmptyString
      | r' => String c r'
      end
  end.

(** The exponent form of a positive integer: its digits without the
    trailing zeros, a point after the first, and the power of ten. *)
Definition exponent_text (c : Z) : string :=
  let digits := num_to_string c in
  let power := num_to_string (Z.of_nat (String.length digits) - 1) in
  match drop_trailing_zeros digits with
  | EmptyString => digits
  | String d EmptyString => String d ("e+" +:+ power)
  | String d more => String d ("." +:+ more +:+ "e+" +:+ power)
  end.

(** Number::toString of the Number nearest to an integer.  Below 2^53
    the digits are those of the integer; from there on they are the
    fewest that read back as the Number, followed by zeros below 10^21
    and in the exponent form from 10^21 on. *)
Definition number_to_string (n : Z) : string :=
  match nearest_double n with
  | None => if n <? 0 then "-Infinity" else "Infinity"
  | Some x =>
      if Z.abs x <? 9007199254740992 then num_to_string x
      else
        let len := String.length (num_to_string (Z.abs x)) in
        let c := shortest len (Z.abs x) (10 ^ (Z.of_nat len - 1)) in
        (if x <? 0 then "-" else "")
        +:+ (if Z.abs x <? 1000000000000000000000
             then num_to_string c else exponent_text c)
  end.

(** ToString, as template literals and [parseInt] apply it. *)
Definition to_string (v : Val) : string :=
  match v with
  | VUndef => "undefined"
  | VNull => "null"
  | VBool true => "true"
  | VBool false => "false"
  | VNum n => number_to_string n
  | VReal text => text
  | VStr s => s
  end.

(** WhiteSpace and LineTerminator code units below 256: TAB, LF, VT, FF,
    CR, SP and NBSP.  [trim], [parseInt] and the regex class [\s] share
    this set. *)
Definition is_ws (c : ascii) : bool :=
  let n := N_of_ascii c in
  ((9 <=? n) && (n <=? 13) || (n =? 32) || (n =? 160))%N.

Fixpoint trim_start (s : string) : string :=
  match s with
  | String c r => if is_ws c then trim_start r else s
  | EmptyString => EmptyString
  end.

(** [trim_end s] drops the trailing white space: a character stays when
    it is not white space or when something after it stays. *)
Fixpoint trim_end (s : string) : string :=
  match s with
  | EmptyString => EmptyString
  | String c r =>
      match trim_end r with
      | EmptyString => if is_ws c then EmptyString else String c EmptyString
      | r' => String c r'
      end
  end.

(** [String.prototype.trim]. *)
Definition trim (s : string) : string := trim_end (trim_start s).

(** *** parseInt (no radix argument) *)

Definition digit_value (radix : Z) (c : ascii) : option Z :=
  let n := Z.of_N (N_of_ascii c) in
  let d :=
    if (48 <=? n) && (n <=? 57) then Some (n - 48)
    else if (97 <=? n) && (n <=? 122) then Some (n - 87)
    else if (65 <=? n) && (n <=? 90) then Some (n - 55)
    else None in
  match d with
  | Some v => if v <? radix then Some v else None
  | None => None
  end.

(** The value of the longest prefix of digits of the radix; [acc] is
    [None] until a digit has been read. *)
Fixpoint read_digits (radix : Z) (s : string) (acc : option Z) : option Z :=
  match s with
  | EmptyString => acc
  | String c r =>
      match digit_value radix c with
      | Some d => read_digits radix r (Some (default 0 acc * radix + d))
      | None => acc
      end
  end.

(** [parseInt(s)] on a string; [None] is NaN. *)
Definition parseInt_string (s : string) : option Z :=
  let s1 := trim_start s in
  let '(neg, s2) :=
    match s1 with
    | String "-" r => (true, r)
    | String "+" r => (false, r)
    | _ => (false, s1)
    end in
  let '(radix, s3) :=
    match s2 with
    | String "0" (String "x" r) => (16, r)
    | String "0" (String "X" r) => (16, r)
    | _ => (10, s2)
    end in
  match read_digits radix s3 None with
  | Some n => Some (if neg : bool then - n else n)
  | None => None
  end.

(** [parseInt(v)]: the argument goes through ToString first. *)
Definition parseInt (v : Val) : option Z := parseInt_string (to_string v).

(** *** Regular expressions

    Enough of the regex language for the pattern both servers test the
    email against; matching is by derivatives, so a pattern anchored with
    [^] and [$] matches when the derivative by the whole input is
    nullable. *)
Inductive Re : Type :=
| ReNone
| ReEps
| ReChar (p : ascii -> bool)
| ReCat (r1 r2 : Re)
| ReAlt (r1 r2 : Re)
| ReStar (r : Re).

(** [r+] *)
Definition RePlus (r : Re) : Re := ReCat r (ReStar r).

Fixpoint nullable (r : Re) : bool :=
  match r with
  | ReNone => false
  | ReEps => true
  | ReChar _ => false
  | ReCat r1 r2 => nullable r1 && nullable r2
  | ReAlt r1 r2 => nullable r1 || nullable r2
  | ReStar _ => true
  end.

Fixpoint deriv (c : ascii) (r : Re) : Re :=
  match r with
  | ReNone | ReEps => ReNone
  | ReChar p => if p c then ReEps else ReNone
  | ReCat r1 r2 =>
      if nullable r1
      then ReAlt (ReCat (deriv c r1) r2) (deriv c r2)
      else ReCat (deriv c r1) r2
  | ReAlt r1 r2 => ReAlt (deriv c r1) (deriv c r2)
  | ReStar r1 => ReCat (deriv c r1) (ReStar r1)
  end.

Fixpoint re_match (r : Re) (s : string) : bool :=
  match s with
  | EmptyString => nullable r
  | String c s' => re_match (deriv c r) s'
  end.

(** The class [[^\s@]]. *)
Definition not_space_at (c : ascii) : bool :=
  negb (is_ws c) && negb (Ascii.eqb c "@").

Definition lit (a : ascii) : ascii -> bool := Ascii.eqb a.

(** [/^[^\s@]+@[^\s@]+\.[^\s@]+$/] *)
Definition emailRegex : Re :=
  ReCat (RePlus (ReChar not_space_at))
   (ReCat (ReChar (lit "@"))
     (ReCat (RePlus (ReChar not_space_at))
       (ReCat (ReChar (lit "."))
              (RePlus (ReChar not_space_at))))).

(** [regex.test(v)]: the argument goes through ToString. *)
Definition regex_test (r : Re) (v : Val) : bool := re_match r (to_string v).

(** [String.prototype.padStart(n, "0")]. *)
Definition padStart0 (n : nat) (s : string) : string :=
  String.concat "" (repeat "0" (n - String.length s)%nat) +:+ s.

(** [String.prototype.slice(-n)]: the last [n] characters. *)
Definition slice_last (n : nat) (s : string) : string :=
  let len := String.length s in
  substring (len - n) (Nat.min n len) s.

(** *** Response bodies *)

(** What [res.json(...)] serialises. *)
#[warnings="-register-all"] Inductive Json : Type :=
| JNull
| JBool (b : bool)
| JNum (n : Z)
| JReal (text : string)
| JStr (s : string)
| JArr (l : list Json)
| JObj (fields : list (string * Json)).

(** A request value in a response body: a number is written as the
    Number it is, an infinity as [null]. *)
Definition json_of_val (v : Val) : Json :=
  match v with
  | VUndef | VNull => JNull
  | VBool b => JBool b
  | VNum n => match nearest_double n with Some x => JNum x | None => JNull end
  | VReal text =>
      if String.eqb text "Infinity" || String.eqb text "-Infinity"
      then JNull else JReal text
  | VStr s => JStr s
  end.

Definition json_of_opt (o : option string) : Json :=
  match o with Some s => JStr s | None => JNull end.

(** [res.status(code).json(body)] *)
Record Response : Type := mkResponse { code : Z; payload : Json }.

(** The keys of a JSON object, in order. *)
Definition json_keys (j : Json) : list string :=
  match j with
  | JObj fs => map fst fs
  | _ => []
  end.

(** Property access on a response body. *)
Fixpoint assoc (k : string) (fs : list (string * Json)) : option Json :=
  match fs with
  | [] => None
  | (k', v) :: r => if String.eqb k k' then Some v else assoc k r
  end.

Definition json_get (k : string) (j : Json) : option Json :=
  match j with
  | JObj fs => assoc k fs
  | _ => None
  end.

(* ===================================================================== *)
(** ** Effects: what a request does besides computing                    *)
(* ===================================================================== *)

(** What a [throw] carries: a JavaScript error ([TypeError] when [.trim]
    is called on something that has none, [RangeError] when an invalid
    date is formatted) or an error of the PostgreSQL driver, whose [code]
    is the SQLSTATE. *)
Inductive Exn : Type :=
| JsError (name : string) (message : string)
| PgError (sqlstate : string) (message : string).

Definition TypeError (message : string) : Exn := JsError "TypeError" message.
Definition RangeError (message : string) : Exn := JsError "RangeError" message.

(** [error.code]: only driver errors have one. *)
Definition exn_code (e : Exn) : option string :=
  match e with
  | JsError _ _ => None
  | PgError c _ => Some c
  end.

(** [error.message] *)
Definition exn_message (e : Exn) : string :=
  match e with
  | JsError _ m => m
  | PgError _ m => m
  end.

(** The three messages the servers compose. *)
Inductive MailKind : Type := OrderReceived | AdminAlert | PaymentConfirmed.

(** The arguments of one call of the email capability.  [htmlContent] and
    [textContent] are renderings of a fixed template, named by [kind]. *)
Record Mail : Type := mkMail {
  mail_to : string;
  mail_subject : string;
  mail_kind : MailKind
}.

(** How [fetch] to the Brevo endpoint ends: the promise rejects (network
    failure), or an HTTP response arrives, with [response.ok] and what
    [response.json()] gives ([None]: it rejects). *)
Inductive FetchResult : Type :=
| FetchRejects (reason : string)
| FetchResponds (ok : bool) (body : option string).

(** [process.env], the network and the wall clock. *)
Record Env : Type := mkEnv {
  BREVO_API_KEY : option string;
  ADMIN_EMAIL : option string;
  fetch : Mail -> FetchResult;
  Date_now : Z
}.

(** A configuration variable is a string or absent; [!process.env.X] is
    true when it is absent or empty. *)
Definition env_truthy (o : option string) : bool :=
  match o with
  | Some s => negb (String.eqb s "")
  | None => false
  end.

Inductive Level : Type := LWarn | LError.

(** The observable steps of a request, in the order they happen.
    [console.warn] and [console.error] are recorded; [console.log]
    progress lines are not. *)
Inductive Event : Type :=
| EvLog (lvl : Level) (text : string)
| EvSendEmail (m : Mail)
| EvFetch (m : Mail)
| EvFetchSettled (m : Mail) (r : FetchResult)
| EvRespond (r : Response).

(** The first response written on the trace. *)
Fixpoint response_of (t : list Event) : option Response :=
  match t with
  | [] => None
  | EvRespond r :: _ => Some r
  | _ :: t' => response_of t'
  end.

(** Calls of the email capability, in order. *)
Fixpoint mails_of (t : list Event) : list Mail :=
  match t with
  | [] => []
  | EvSendEmail m :: t' => m :: mails_of t'
  | _ :: t' => mails_of t'
  end.

(** HTTP requests issued to the transport, in order. *)
Fixpoint fetches_of (t : list Event) : list Mail :=
  match t with
  | [] => []
  | EvFetch m :: t' => m :: fetches_of t'
  | _ :: t' => fetches_of t'
  end.

Definition is_settle (e : Event) : bool :=
  match e with EvFetchSettled _ _ => true | _ => false end.

Definition is_respond (e : Event) : bool :=
  match e with EvRespond _ => true | _ => false end.

Definition is_log (e : Event) : bool :=
  match e with EvLog _ _ => true | _ => false end.

(** *** A monad for awaited code

    An [async] handler whose every call is awaited runs as sequential
    code: it reads and writes the store, appends to the trace, and either
    returns or throws. *)
Inductive Result (A : Type) : Type :=
| Value (a : A)
| Throw (e : Exn).
Arguments Value {A} a.
Arguments Throw {A} e.

Record Run (S A : Type) : Type := mkRun {
  trace : list Event;
  store : S;
  result : Result A
}.
Arguments mkRun {S A} trace store result.
Arguments trace {S A} r.
Arguments store {S A} r.
Arguments result {S A} r.

Definition M (S A : Type) : Type := S -> Run S A.

Definition ret {S A} (a : A) : M S A := fun s => mkRun [] s (Value a).

Definition throw {S A} (e : Exn) : M S A := fun s => mkRun [] s (Throw e).

Definition bind {S A B} (m : M S A) (k : A -> M S B) : M S B :=
  fun s =>
    match m s with
    | mkRun t s' (Value a) =>
        match k a s' with
        | mkRun t' s'' r => mkRun (t ++ t') s'' r
        end
    | mkRun t s' (Throw e) => mkRun t s' (Throw e)
    end.

(** [try { m } catch (error) { h error }] *)
Definition try_catch {S A} (m : M S A) (h : Exn -> M S A) : M S A :=
  fun s =>
    match m s with
    | mkRun t s' (Value a) => mkRun t s' (Value a)
    | mkRun t s' (Throw e) =>
        match h e s' with
        | mkRun t' s'' r => mkRun (t ++ t') s'' r
        end
    end.

(** [try { m } finally { f }] *)
Definition try_finally {S A} (m : M S A) (f : M S unit) : M S A :=
  fun s =>
    match m s with
    | mkRun t s' r =>
        match f s' with
        | mkRun t' s'' (Value _) => mkRun (t ++ t') s'' r
        | mkRun t' s'' (Throw e) => mkRun (t ++ t') s'' (Throw e)
        end
    end.

Definition emit {S} (evs : list Event) : M S unit :=
  fun s => mkRun evs s (Value tt).

Definition get {S} : M S S := fun s => mkRun [] s (Value s).

Definition put {S} (s' : S) : M S unit := fun _ => mkRun [] s' (Value tt).

(** Lifting a store statement that fails or returns with a new store. *)
Definition query {S A} (q : S -> Result (A * S)) : M S A :=
  fun s =>
    match q s with
    | Value (a, s') => mkRun [] s' (Value a)
    | Throw e => mkRun [] s (Throw e)
    end.

Declare Scope js_scope.
Delimit Scope js_scope with js.
Notation "x <- m ;; k" := (bind m (fun x => k))
  (at level 100, m at next level, right associativity) : js_scope.
Notation "m ;;; k" := (bind m (fun _ => k))
  (at level 100, right associativity) : js_scope.
Local Open Scope js_scope.

(** [res.status(c).json(j)] *)
Definition respond {S} (c : Z) (j : Json) : M S unit :=
  emit [EvRespond (mkResponse c j)].

Definition log {S} (lvl : Level) (text : string) : M S unit :=
  emit [EvLog lvl text].

(** [v.trim()]: a string has the method, any other scalar that reaches
    the call has not. *)
Definition call_trim {S} (what : string) (v : Val) : M S string :=
  match v with
  | VStr s => ret (trim s)
  | _ => throw (TypeError (what +:+ ".trim is not a function"))
  end.

(** An empty string counts as absent: [x || null]. *)
Definition or_null (s : string) : option string :=
  if String.eqb s "" then None else Some s.

(** A value of [req.query] or of a request header: a string, or absent. *)
Definition present (q : option string) : bool :=
  match q with
  | Some s => negb (String.eqb s "")
  | None => false
  end.

(** The double-quote character, code 34. *)
Definition dquote : string := String "034"%char EmptyString.

(** What the driver binds for [parseInt(number)]: the text of the
    Number, or the text of NaN. *)
Definition jersey_param (number : string) : string :=
  match parseInt_string number with
  | Some n => number_to_string n
  | None => "NaN"
  end.

(* ===================================================================== *)
(** ** The admin server ([src/server.js], lines 1-810)                   *)
(* ===================================================================== *)

Module Admin.

(** A row of [orders] as [initDB] creates the table: [jersey_number] is
    [VARCHAR(8)] and carries no uniqueness constraint; [final_price] holds
    the text bound to the [DECIMAL(10, 2)] column. *)
Record Order : Type := mkOrder {
  id : Z;
  name : string;
  student_id : string;
  jersey_number : string;
  batch : option string;
  size : string;
  collar_type : string;
  sleeve_type : string;
  email : string;
  transaction_id : option string;
  notes : option string;
  final_price : string;
  status : string;
  created_at : Z;
  updated_at : Z
}.

(** The table in row order, the [SERIAL] counter behind [id], and the
    store's [CURRENT_TIMESTAMP]. *)
Record Store : Type := mkStore {
  orders : list Order;
  next_id : Z;
  clock : Z
}.

(** [sendEmail] (lines 159-190): the result is [{ success }]. *)
Definition sendEmail (env : Env) (m : Mail) : list Event * bool :=
  if negb (env_truthy (BREVO_API_KEY env)) then
    ([EvSendEmail m; EvLog LWarn "Email service not configured"], false)
  else
    match fetch env m with
    | FetchRejects reason =>
        ([EvSendEmail m; EvFetch m; EvFetchSettled m (FetchRejects reason);
          EvLog LError ("Email error: " +:+ reason)], false)
    | FetchResponds ok body =>
        ([EvSendEmail m; EvFetch m; EvFetchSettled m (FetchResponds ok body)], ok)
    end.

(** [await sendEmail(...)] *)
Definition await_sendEmail (env : Env) (m : Mail) : M Store bool :=
  fun s => mkRun (fst (sendEmail env m)) s (Value (snd (sendEmail env m))).

(** Lines 314-329: the three checks in order; [inl] is the 400 response
    of the first one that fails, [inr] is [jerseyNum]. *)
Definition validate (b : Body) : Response + Z :=
  if negb (truthy (field b "name")) || negb (truthy (field b "studentId"))
     || negb (truthy (field b "jerseyNumber")) || negb (truthy (field b "size"))
     || negb (truthy (field b "collarType")) || negb (truthy (field b "sleeveType"))
     || negb (truthy (field b "email")) || negb (truthy (field b "finalPrice"))
  then inl (mkResponse 400 (JObj [("error", JStr "Missing required fields")]))
  else if negb (regex_test emailRegex (field b "email"))
  then inl (mkResponse 400 (JObj [("error", JStr "Invalid email format")]))
  else
    match parseInt (field b "jerseyNumber") with
    | None => inl (mkResponse 400 (JObj [("error", JStr "Jersey number must be 0-500")]))
    | Some jerseyNum =>
        if (jerseyNum <? 0) || (jerseyNum >? 500)
        then inl (mkResponse 400 (JObj [("error", JStr "Jersey number must be 0-500")]))
        else inr jerseyNum
    end.

(** [v?.trim() || null] *)
Definition opt_trim (what : string) (v : Val) : M Store (option string) :=
  match v with
  | VUndef | VNull => ret None
  | VStr s => ret (or_null (trim s))
  | _ => throw (TypeError (what +:+ "?.trim is not a function"))
  end.

(** [`ICE-${order.id.toString().padStart(3, '0')}`] *)
Definition orderId (o : Order) : string :=
  "ICE-" +:+ padStart0 3 (num_to_string (id o)).

Definition confirmation_mail (b : Body) : Mail :=
  mkMail (to_string (field b "email"))
         "ICE Jersey Order Confirmation - Order Received" OrderReceived.

Definition admin_mail (env : Env) (order : Order) : Mail :=
  mkMail (default "" (ADMIN_EMAIL env))
         ("New Jersey Order - " +:+ name order +:+ " (#"
          +:+ jersey_number order +:+ ")")
         AdminAlert.

(** Lines 365-534: the confirmation to [email], as the request gave it,
    then the alert to [ADMIN_EMAIL] when that is set; both awaited. *)
Definition notify_created (env : Env) (b : Body) (order : Order) : M Store unit :=
  _ <- await_sendEmail env (confirmation_mail b);;
  if env_truthy (ADMIN_EMAIL env)
  then _ <- await_sendEmail env (admin_mail env order);; ret tt
  else ret tt.

Section Server.

(** What the PostgreSQL server decides and the repository does not
    define: how a text parameter compared with the integer column [id]
    is read ([None]: the statement fails), and whether it refuses a row
    (column type, length or constraint) with an error. *)
Variable int4in : string -> option Z.
Variable rejects : Order -> option Exn.

(** How the store and the driver give back what a row holds: the text
    of the [DECIMAL(10, 2)] column that was bound to a text (bound to
    "450" it comes back as "450.00"), and the ISO string [res.json]
    writes for the [Date] the driver builds from a [TIMESTAMP] column. *)
Variable decimal_out : string -> string.
Variable timestamp_json : Z -> string.

Definition bad_integer : Exn :=
  PgError "22P02" "invalid input syntax for type integer".

(** A row of [SELECT *] as [res.json] writes it. *)
Definition json_of_order (o : Order) : Json :=
  JObj [("id", JNum (id o)); ("name", JStr (name o));
        ("student_id", JStr (student_id o));
        ("jersey_number", JStr (jersey_number o));
        ("batch", json_of_opt (batch o)); ("size", JStr (size o));
        ("collar_type", JStr (collar_type o));
        ("sleeve_type", JStr (sleeve_type o)); ("email", JStr (email o));
        ("transaction_id", json_of_opt (transaction_id o));
        ("notes", json_of_opt (notes o));
        ("final_price", JStr (decimal_out (final_price o)));
        ("status", JStr (status o));
        ("created_at", JStr (timestamp_json (created_at o)));
        ("updated_at", JStr (timestamp_json (updated_at o)))].

(** [INSERT INTO orders (...) VALUES (...) RETURNING *]: [row] gives the
    bound columns; the store supplies [id] and both timestamps. *)
Definition insert_order (row : Z -> Z -> Order) (st : Store)
  : Result (Order * Store) :=
  let o := row (next_id st) (clock st) in
  match rejects o with
  | Some e => Throw e
  | None => Value (o, mkStore (orders st ++ [o]) (next_id st + 1) (clock st))
  end.

(** [SELECT * FROM orders WHERE id = $1] *)
Definition select_by_id (idtxt : string) (st : Store)
  : Result (list Order * Store) :=
  match int4in idtxt with
  | None => Throw bad_integer
  | Some i => Value (List.filter (fun o => id o =? i) (orders st), st)
  end.

Definition set_status (s : string) (now : Z) (o : Order) : Order :=
  mkOrder (id o) (name o) (student_id o) (jersey_number o) (batch o) (size o)
          (collar_type o) (sleeve_type o) (email o) (transaction_id o)
          (notes o) (final_price o) s (created_at o) now.

(** [UPDATE orders SET status = $1, updated_at = CURRENT_TIMESTAMP
    WHERE id = $2] *)
Definition update_status (s : string) (idtxt : string) (st : Store)
  : Result (unit * Store) :=
  match int4in idtxt with
  | None => Throw bad_integer
  | Some i =>
      Value (tt, mkStore
                   (map (fun o => if id o =? i then set_status s (clock st) o else o)
                        (orders st))
                   (next_id st) (clock st))
  end.

(** [DELETE FROM orders WHERE id = $1 RETURNING *] *)
Definition delete_by_id (idtxt : string) (st : Store)
  : Result (list Order * Store) :=
  match int4in idtxt with
  | None => Throw bad_integer
  | Some i =>
      Value (List.filter (fun o => id o =? i) (orders st),
             mkStore (List.filter (fun o => negb (id o =? i)) (orders st))
                     (next_id st) (clock st))
  end.

(** [client.end()] in the [finally] blocks. *)
Definition client_end : M Store unit := ret tt.

(** Lines 348-363: the parameters of the insert, evaluated in order, and
    the insert; the result is [result.rows[0]]. *)
Definition insert_new (b : Body) (jerseyNum : Z) : M Store Order :=
  name' <- call_trim "name" (field b "name");;
  studentId' <- call_trim "studentId" (field b "studentId");;
  batch' <- opt_trim "batch" (field b "batch");;
  email' <- call_trim "email" (field b "email");;
  transactionId' <- opt_trim "transactionId" (field b "transactionId");;
  notes' <- opt_trim "notes" (field b "notes");;
  query (insert_order (fun i now =>
           mkOrder i name' studentId' (number_to_string jerseyNum) batch'
                   (to_string (field b "size"))
                   (to_string (field b "collarType"))
                   (to_string (field b "sleeveType"))
                   email' transactionId' notes'
                   (to_string (field b "finalPrice"))
                   "pending" now now)).

Definition created : Order -> Json := fun order =>
  JObj [("success", JBool true);
        ("message", JStr "Order placed successfully");
        ("orderId", JStr (orderId order));
        ("status", JStr "pending")].

(** [POST /api/orders] (lines 306-550). *)
Definition postOrders (env : Env) (b : Body) : M Store unit :=
  try_catch
    (match validate b with
     | inl r => emit [EvRespond r]
     | inr jerseyNum =>
         try_finally
           (order <- insert_new b jerseyNum;;
            notify_created env b order;;;
            respond 201 (created order))
           client_end
     end)
    (fun error =>
       log LError "Order submission error:";;;
       respond 500 (JObj [("error", JStr "Order submission failed")])).

(** [GET /api/admin/orders/:id] (lines 643-664), past the token check. *)
Definition getOrder (idtxt : string) : M Store unit :=
  try_catch
    (try_finally
       (rows <- query (select_by_id idtxt);;
        match rows with
        | [] => respond 404 (JObj [("error", JStr "Order not found")])
        | order :: _ =>
            respond 200 (JObj [("success", JBool true); ("order", json_of_order order)])
        end)
       client_end)
    (fun error =>
       log LError "Get order error:";;;
       respond 500 (JObj [("error", JStr "Failed to fetch order")])).

(** [['pending', 'done'].includes(status)] *)
Definition allowed_status (v : Val) : option string :=
  match v with
  | VStr s => if String.eqb s "pending" || String.eqb s "done" then Some s else None
  | _ => None
  end.

(** [PATCH /api/admin/orders/:id/status] (lines 667-740), past the token
    check. *)
Definition patchStatus (env : Env) (idtxt : string) (b : Body) : M Store unit :=
  try_catch
    (match allowed_status (field b "status") with
     | None =>
         respond 400 (JObj [("error", JStr "Invalid status. Only pending/done allowed.")])
     | Some status' =>
         try_finally
           (rows <- query (select_by_id idtxt);;
            match rows with
            | [] => respond 404 (JObj [("error", JStr "Order not found")])
            | order :: _ =>
                query (update_status status' idtxt);;;
                (if String.eqb status' "done" && negb (String.eqb (status order) "done")
                 then _ <- await_sendEmail env
                             (mkMail (email order)
                                     "Payment Confirmed - ICE Jersey Order"
                                     PaymentConfirmed);; ret tt
                 else ret tt);;;
                respond 200 (JObj [("success", JBool true);
                                   ("message", JStr "Order status updated successfully");
                                   ("newStatus", JStr status')])
            end)
           client_end
     end)
    (fun error =>
       log LError "Update status error:";;;
       respond 500 (JObj [("error", JStr "Failed to update status")])).

(** [DELETE /api/admin/orders/:id] (lines 743-764), past the token
    check. *)
Definition deleteOrder (idtxt : string) : M Store unit :=
  try_catch
    (try_finally
       (rows <- query (delete_by_id idtxt);;
        match rows with
        | [] => respond 404 (JObj [("error", JStr "Order not found")])
        | _ :: _ =>
            respond 200 (JObj [("success", JBool true);
                               ("message", JStr "Order deleted successfully")])
        end)
       client_end)
    (fun error =>
       log LError "Delete order error:";;;
       respond 500 (JObj [("error", JStr "Failed to delete order")])).

End Server.

(** *** The public checks, the admin session and the statistics *)

(** [SELECT name FROM orders WHERE jersey_number = $1]: the column is
    text, so the comparison is on text. *)
Definition select_by_jersey (p : string) (st : Store) : Result (list Order * Store) :=
  Value (List.filter (fun o => String.eqb (jersey_number o) p) (orders st), st).

(** [GET /api/orders/check-jersey] (lines 250-275). *)
Definition checkJersey (number : option string) : M Store unit :=
  try_catch
    (if negb (present number)
     then respond 400 (JObj [("error", JStr "Jersey number required")])
     else
       let number' := default "" number in
       try_finally
         (rows <- query (select_by_jersey (jersey_param number'));;
          respond 200
            (JObj [("available", JBool (match rows with [] => true | _ => false end));
                   ("message",
                    JStr (match rows with
                          | holder :: _ =>
                              "Jersey #" +:+ number' +:+ " is taken by " +:+ name holder
                          | [] => "Jersey #" +:+ number' +:+ " is available"
                          end))]))
         client_end)
    (fun error =>
       log LError "Jersey check error:";;;
       respond 500 (JObj [("error", JStr "Check failed")])).

Section Names.

(** SQL [LOWER], which the server computes by its locale. *)
Variable lower : string -> string.

(** [SELECT id FROM orders WHERE LOWER(name) = LOWER($1)] *)
Definition select_by_name (p : string) (st : Store) : Result (list Order * Store) :=
  Value (List.filter (fun o => String.eqb (lower (name o)) (lower p)) (orders st), st).

(** [GET /api/orders/check-name] (lines 278-303). *)
Definition checkName (name : option string) : M Store unit :=
  try_catch
    (if negb (present name)
     then respond 400 (JObj [("error", JStr "Name required")])
     else
       let name' := default "" name in
       try_finally
         (rows <- query (select_by_name (trim name'));;
          respond 200
            (JObj [("exists", JBool (match rows with [] => false | _ => true end));
                   ("message",
                    JStr (match rows with
                          | _ :: _ => "Name " +:+ dquote +:+ name' +:+ dquote
                                      +:+ " already exists"
                          | [] => "Name " +:+ dquote +:+ name' +:+ dquote
                                  +:+ " is available"
                          end))]))
         client_end)
    (fun error =>
       log LError "Name check error:";;;
       respond 500 (JObj [("error", JStr "Check failed")])).

End Names.

(** [String.prototype.split(' ')]: the pieces between single spaces. *)
Fixpoint split_space (s : string) : list string :=
  match s with
  | EmptyString => [EmptyString]
  | String c r =>
      if Ascii.eqb c " " then EmptyString :: split_space r
      else match split_space r with
           | piece :: pieces => String c piece :: pieces
           | [] => [String c EmptyString]
           end
  end.

(** [authHeader && authHeader.split(' ')[1]], as [!token] then reads it:
    [None] when the header is absent or empty or has no second piece. *)
Definition bearer (authorization : option string) : option string :=
  if present authorization
  then nth_error (split_space (default "" authorization)) 1
  else None.

Section Session.

(** [jwt.verify(token, secret)]: the decoded payload, or [None] when it
    throws. *)
Variable jwt_verify : string -> string -> option Json.

(** [process.env.JWT_SECRET || 'fallback-secret'] *)
Definition secret (JWT_SECRET : option string) : string :=
  if present JWT_SECRET then default "" JWT_SECRET else "fallback-secret".

(** [authenticateToken] (lines 141-156) in front of a handler: [next]
    runs with [req.user]. *)
Definition authenticateToken (JWT_SECRET : option string)
    (authorization : option string) (next : Json -> M Store unit) : M Store unit :=
  if negb (present (bearer authorization))
  then respond 401 (JObj [("error", JStr "Access token required")])
  else
    match jwt_verify (default "" (bearer authorization)) (secret JWT_SECRET) with
    | Some decoded => next decoded
    | None => respond 403 (JObj [("error", JStr "Invalid token")])
    end.

End Session.

Section Statistics.

(** [SUM(final_price)] over a non-empty set of rows, as the text the
    driver returns, and [parseFloat] of such a text. *)
Variable sum_decimal : list string -> string.
Variable parseFloat : string -> Json.

Definition count (s : string) (st : Store) : Z :=
  Z.of_nat (length (List.filter (fun o => String.eqb (status o) s) (orders st))).

(** [parseFloat(revenueResult.rows[0].sum || 0)]: the sum over no row is
    NULL, and [parseFloat(0)] is 0. *)
Definition totalRevenue (st : Store) : Json :=
  match List.filter (fun o => String.eqb (status o) "done") (orders st) with
  | [] => JNum 0
  | rows =>
      let sum := sum_decimal (List.map final_price rows) in
      if String.eqb sum "" then JNum 0 else parseFloat sum
  end.

(** [GET /api/admin/stats] (lines 611-640), past the token check. *)
Definition getStats : M Store unit :=
  try_catch
    (try_finally
       (st <- get;;
        respond 200
          (JObj [("success", JBool true);
                 ("stats",
                  JObj [("totalOrders", JNum (Z.of_nat (length (orders st))));
                        ("ordersByStatus",
                         JObj [("pending", JNum (count "pending" st));
                               ("done", JNum (count "done" st))]);
                        ("totalRevenue", totalRevenue st)])]))
       client_end)
    (fun error =>
       log LError "Stats error:";;;
       respond 500 (JObj [("error", JStr "Failed to fetch stats")])).

End Statistics.

(** *** The admin login *)

(** A row of [admin_users]. *)
Record AdminUser : Type := mkAdminUser {
  user_id : Z;
  username : string;
  password_hash : string
}.

(** [GET /api/admin/verify] (lines 243-248), past the token check:
    [req.user.username] is a property of the decoded payload, and a
    property that is undefined is left out of the JSON. *)
Definition verify {S} (decoded : Json) : M S unit :=
  respond 200
    (JObj [("success", JBool true);
           ("admin",
            JObj (match json_get "username" decoded with
                  | Some u => [("username", u)]
                  | None => []
                  end))]).

Section Login.

(** What the libraries decide: [bcrypt.compare(password, hash)], which
    rejects when an argument is not a string, and [jwt.sign(payload,
    secret, { expiresIn: '24h' })]. *)
Variable bcrypt_compare : Val -> string -> Result bool.
Variable jwt_sign : Json -> string -> string.

(** [SELECT * FROM admin_users WHERE username = $1]; the driver binds the
    text of the parameter. *)
Definition select_user (p : string) (users : list AdminUser)
  : Result (list AdminUser * list AdminUser) :=
  Value (List.filter (fun u => String.eqb (username u) p) users, users).

Definition invalid_credentials : Json := JObj [("error", JStr "Invalid credentials")].

(** [POST /api/admin/login] (lines 204-239). *)
Definition login (JWT_SECRET : option string) (b : Body) : M (list AdminUser) unit :=
  try_catch
    (let username' := field b "username" in
     let password := field b "password" in
     if negb (truthy username') || negb (truthy password)
     then respond 400 (JObj [("error", JStr "Username and password required")])
     else
       try_finally
         (rows <- query (select_user (to_string username'));;
          match rows with
          | [] => respond 401 invalid_credentials
          | user :: _ =>
              ok <- (fun s => mkRun [] s (bcrypt_compare password (password_hash user)));;
              if negb ok
              then respond 401 invalid_credentials
              else
                let token :=
                  jwt_sign (JObj [("id", JNum (user_id user));
                                  ("username", JStr (username user))])
                           (secret JWT_SECRET) in
                respond 200
                  (JObj [("success", JBool true);
                         ("token", JStr token);
                         ("admin", JObj [("username", JStr (username user))])])
          end)
         (ret tt))
    (fun error =>
       log LError "Login error:";;;
       respond 500 (JObj [("error", JStr "Login failed")])).

End Login.

End Admin.

(* ===================================================================== *)
(** ** The intake server ([src/server.js], lines 810-1632)               *)
(* ===================================================================== *)

Module Intake.

(** A row of [orders] as [initializeDatabase] creates the table:
    [jersey_number INTEGER NOT NULL UNIQUE]. *)
Record Order : Type := mkOrder {
  id : Z;
  name : string;
  student_id : string;
  jersey_number : Z;
  batch : option string;
  size : string;
  collar_type : string;
  sleeve_type : string;
  email : string;
  transaction_id : option string;
  notes : option string;
  final_price : string;
  order_date : string;
  department : string;
  status : string;
  created_at : Z;
  updated_at : Z
}.

Record Store : Type := mkStore {
  orders : list Order;
  next_id : Z;
  clock : Z
}.

(** What [sendEmailViaBrevo] resolves to: [{ success, ... }]. *)
Record SendResult : Type := mkSendResult {
  success : bool;
  error : option string
}.

(** A call of an [async] function that the caller does not await: the
    part that runs inside the call ([sync]), the part that runs once the
    caller has gone on ([deferred]), and how its promise settles. *)
Record Task (A : Type) : Type := mkTask {
  sync : list Event;
  deferred : list Event;
  settles : Result A
}.
Arguments mkTask {A} sync deferred settles.
Arguments sync {A} t.
Arguments deferred {A} t.
Arguments settles {A} t.

(** [sendEmailViaBrevo] (lines 947-989).  Everything after [await fetch]
    is deferred; every failure inside the [try] ends in the [catch]. *)
Definition sendEmailViaBrevo (env : Env) (m : Mail) : Task SendResult :=
  if negb (env_truthy (BREVO_API_KEY env)) then
    mkTask [EvSendEmail m; EvLog LWarn "Brevo API key not configured, skipping email"]
           [] (Value (mkSendResult false None))
  else
    match fetch env m with
    | FetchRejects reason =>
        mkTask [EvSendEmail m; EvFetch m]
               [EvFetchSettled m (FetchRejects reason);
                EvLog LError "Error sending email via Brevo:"]
               (Value (mkSendResult false (Some reason)))
    | FetchResponds true (Some messageId) =>
        mkTask [EvSendEmail m; EvFetch m]
               [EvFetchSettled m (FetchResponds true (Some messageId))]
               (Value (mkSendResult true None))
    | FetchResponds true None =>
        mkTask [EvSendEmail m; EvFetch m]
               [EvFetchSettled m (FetchResponds true None);
                EvLog LError "Error sending email via Brevo:"]
               (Value (mkSendResult false (Some "invalid json response body")))
    | FetchResponds false (Some message) =>
        mkTask [EvSendEmail m; EvFetch m]
               [EvFetchSettled m (FetchResponds false (Some message));
                EvLog LError "Error sending email via Brevo:"]
               (Value (mkSendResult false (Some ("Brevo API Error: " +:+ message))))
    | FetchResponds false None =>
        mkTask [EvSendEmail m; EvFetch m]
               [EvFetchSettled m (FetchResponds false None);
                EvLog LError "Error sending email via Brevo:"]
               (Value (mkSendResult false (Some "invalid json response body")))
    end.

(** The [try]/[catch] shared by [sendConfirmationEmail] and
    [sendAdminNotification]: await the send, warn when it did not
    succeed, return the result; a rejection is logged and turned into a
    result. *)
Definition await_and_report (failed crashed : string) (t : Task SendResult)
  : Task SendResult :=
  match settles t with
  | Value r =>
      mkTask (sync t)
             (deferred t ++ (if success r then [] else [EvLog LWarn failed]))
             (Value r)
  | Throw e =>
      mkTask (sync t) (deferred t ++ [EvLog LError crashed])
             (Value (mkSendResult false (Some (exn_message e))))
  end.

(** [sendConfirmationEmail(orderData)] (lines 991-1091): [orderData] is
    [req.body]. *)
Definition sendConfirmationEmail (env : Env) (b : Body) : Task SendResult :=
  await_and_report "Failed to send confirmation email:"
                   "Error sending confirmation email:"
    (sendEmailViaBrevo env
       (mkMail (to_string (field b "email"))
               "ICE Jersey Order Confirmation - Order Received"
               OrderReceived)).

(** [sendAdminNotification(orderData)] (lines 1093-1181). *)
Definition sendAdminNotification (env : Env) (b : Body) : Task SendResult :=
  await_and_report "Failed to send admin notification:"
                   "Error sending admin notification:"
    (sendEmailViaBrevo env
       (mkMail (if env_truthy (ADMIN_EMAIL env)
                then default "" (ADMIN_EMAIL env)
                else "sheikhnoorabdullah02@gmail.com")
               ("New Jersey Order - " +:+ to_string (field b "name") +:+ " (#"
                +:+ to_string (field b "jerseyNumber") +:+ ")")
               AdminAlert)).

(** The callback after [Promise.allSettled]: one warning per rejected
    promise. *)
Definition report_rejected (t1 t2 : Task SendResult) : list Event :=
  (match settles t1 with
   | Throw _ => [EvLog LWarn "Email confirmation failed:"]
   | Value _ => []
   end) ++
  (match settles t2 with
   | Throw _ => [EvLog LWarn "Email admin notification failed:"]
   | Value _ => []
   end).

(** What is left running when the handler has returned: the deferred
    parts of the two sends, and the callback that follows both. *)
Record Background : Type := mkBackground {
  first : list Event;
  second : list Event;
  after_both : list Event
}.

Definition nothing_pending : Background := mkBackground [] [] [].

(** The two deferred parts run interleaved; [sched] picks, step by step,
    which one advances. *)
Fixpoint merge (sched : list bool) (l1 l2 : list Event) : list Event :=
  match sched with
  | [] => l1 ++ l2
  | true :: sched' =>
      match l1 with
      | [] => l2
      | x :: l1' => x :: merge sched' l1' l2
      end
  | false :: sched' =>
      match l2 with
      | [] => l1
      | y :: l2' => y :: merge sched' l1 l2'
      end
  end.

Definition requiredFields : list string :=
  ["name"; "studentId"; "jerseyNumber"; "size"; "collarType"; "sleeveType";
   "email"; "finalPrice"].

(** [!req.body[field] || req.body[field].toString().trim() === ''] *)
Definition is_missing (b : Body) (k : string) : bool :=
  negb (truthy (field b k)) || String.eqb (trim (to_string (field b k))) "".

Definition missingFields (b : Body) : list string :=
  List.filter (is_missing b) requiredFields.

(** [x && x.trim() ? x.trim() : null] (lines 1315-1317) *)
Definition clean (what : string) (v : Val) : M Store (option string) :=
  if truthy v
  then s <- call_trim what v;; ret (or_null s)
  else ret None.

(** [String.prototype.replace] of the first ["T"] by a space. *)
Fixpoint replace_T (s : string) : string :=
  match s with
  | EmptyString => EmptyString
  | String c r => if Ascii.eqb c "T" then String " " r else String c (replace_T r)
  end.

Section Server.

(** What PostgreSQL and the [Date] object decide and the repository does
    not define: how a text parameter bound to an integer column is read
    ([None]: the statement fails), whether the server refuses a row
    (column type or length) with an error, the time value of
    [new Date(v)] ([None]: Invalid Date), and [Date.prototype.toISOString]. *)
Variable int4in : string -> option Z.
Variable rejects : Order -> option Exn.
Variable Date_parse : Val -> option Z.
Variable toISOString : Z -> string.

Definition bad_integer : Exn :=
  PgError "22P02" "invalid input syntax for type integer".

Definition unique_violation : Exn :=
  PgError "23505" "duplicate key value violates unique constraint".

(** [executeQuery] (lines 928-944): a failing statement is logged and
    thrown again. *)
Definition executeQuery {A} (q : Store -> Result (A * Store)) : M Store A :=
  try_catch (query q)
    (fun e =>
       log LError "PostgreSQL Query Error:";;;
       log LError "Query:";;;
       log LError "Params:";;;
       throw e).

(** [SELECT id, name FROM orders WHERE jersey_number = $1] *)
Definition select_by_jersey (jtxt : string) (st : Store)
  : Result (list Order * Store) :=
  match int4in jtxt with
  | None => Throw bad_integer
  | Some n => Value (List.filter (fun o => jersey_number o =? n) (orders st), st)
  end.

(** [INSERT INTO orders (...) VALUES (...) RETURNING id]: the store reads
    the jersey number, checks the row, then the unique index. *)
Definition insert_order (jtxt : string) (row : Z -> Z -> Z -> Order) (st : Store)
  : Result (Order * Store) :=
  match int4in jtxt with
  | None => Throw bad_integer
  | Some n =>
      let o := row (next_id st) n (clock st) in
      match rejects o with
      | Some e => Throw e
      | None =>
          if existsb (fun o' => jersey_number o' =? n) (orders st)
          then Throw unique_violation
          else Value (o, mkStore (orders st ++ [o]) (next_id st + 1) (clock st))
      end
  end.

(** [formatDateForSQL(orderDate ? new Date(orderDate) : new Date())];
    [now] is the time [new Date()] reads. *)
Definition formatDateForSQL (now : Z) (orderDate : Val) : M Store string :=
  let date := if truthy orderDate then Date_parse orderDate else Some now in
  match date with
  | Some t => ret (replace_T (substring 0 19 (toISOString t)))
  | None => throw (RangeError "Invalid time value")
  end.

Inductive Validated : Type :=
| Rejected (r : Response)
| Accepted.

(** Lines 1277-1302, in order: required fields, jersey number, email. *)
Definition validate (b : Body) : M Store Validated :=
  match missingFields b with
  | _ :: _ =>
      ret (Rejected (mkResponse 400
             (JObj [("error", JStr "Missing required fields");
                    ("missingFields", JArr (List.map JStr (missingFields b)))])))
  | [] =>
      let bad_number :=
        Rejected (mkResponse 400
          (JObj [("error", JStr "Jersey number must be between 1 and 99")])) in
      match parseInt (field b "jerseyNumber") with
      | None => ret bad_number
      | Some jerseyNum =>
          if (jerseyNum <? 1) || (jerseyNum >? 99) then ret bad_number
          else
            email' <- call_trim "email" (field b "email");;
            if negb (re_match emailRegex email')
            then ret (Rejected (mkResponse 400
                        (JObj [("error", JStr "Please provide a valid email address")])))
            else ret Accepted
      end
  end.

(** [`ICE-${orderId.toString().padStart(6, '0')}`] with
    [orderId = result[0]?.id || Date.now().toString().slice(-6)]; [now]
    is what [Date.now()] reads. *)
Definition orderIdFormatted (now : Z) (o : Order) : string :=
  "ICE-" +:+ padStart0 6 (if id o =? 0
                          then slice_last 6 (num_to_string now)
                          else num_to_string (id o)).

(** Lines 1314-1335: the cleaned optional fields and the parameters of
    the insert, evaluated in order.  The result is the row, given what
    the store supplies: [id], the jersey number as it reads it, and the
    timestamp. *)
Definition insertParams (now : Z) (b : Body) : M Store (Z -> Z -> Z -> Order) :=
  cleanBatch <- clean "batch" (field b "batch");;
  cleanTransactionId <- clean "transactionId" (field b "transactionId");;
  cleanNotes <- clean "notes" (field b "notes");;
  name' <- call_trim "name" (field b "name");;
  studentId' <- call_trim "studentId" (field b "studentId");;
  email' <- call_trim "email" (field b "email");;
  orderDate' <- formatDateForSQL now (field b "orderDate");;
  ret (fun i n now =>
         mkOrder i name' studentId' n cleanBatch
                 (to_string (field b "size"))
                 (to_string (field b "collarType"))
                 (to_string (field b "sleeveType"))
                 email' cleanTransactionId cleanNotes
                 (to_string (field b "finalPrice"))
                 orderDate'
                 (if truthy (field b "department")
                  then to_string (field b "department")
                  else "ICE")
                 "pending" now now).

(** The 201 body (lines 1355-1366); [name.trim()], [cleanBatch] and
    [email.trim()] are read back from the row they were bound to. *)
Definition created (now : Z) (b : Body) (order : Order) : Json :=
  JObj [("success", JBool true);
        ("message", JStr "Order placed successfully");
        ("orderId", JStr (orderIdFormatted now order));
        ("details",
         JObj [("name", JStr (name order));
               ("jerseyNumber", json_of_val (field b "jerseyNumber"));
               ("batch", json_of_opt (batch order));
               ("email", JStr (email order));
               ("finalPrice", json_of_val (field b "finalPrice"))])].

(** The [catch] of the handler (lines 1368-1382). *)
Definition on_error (error : Exn) : M Store Background :=
  log LError "Error creating order:";;;
  (if bool_decide (exn_code error = Some "23505")
   then respond 409 (JObj [("error", JStr "Jersey number is already taken")])
   else respond 500 (JObj [("error", JStr "Internal server error");
                           ("message", JStr (exn_message error))]));;;
  ret nothing_pending.

Definition taken (b : Body) (holder : Order) : Response :=
  mkResponse 409
    (JObj [("error", JStr ("Jersey number " +:+ to_string (field b "jerseyNumber")
                           +:+ " is already taken by " +:+ name holder))]).

(** Lines 1277-1337: validation, the duplicate check and the insert.
    [inl] is the response of an early [return res.status(...).json(...)];
    [inr] is the inserted row.  [between] is what other requests do to
    the store after the duplicate check has answered and before the
    insert runs. *)
Definition admission (now : Z) (between : Store -> Store) (b : Body)
  : M Store (Response + Order) :=
  v <- validate b;;
  match v with
  | Rejected r => ret (inl r)
  | Accepted =>
      let jerseyNumber := field b "jerseyNumber" in
      existing <- executeQuery (select_by_jersey (to_string jerseyNumber));;
      match existing with
      | holder :: _ => ret (inl (taken b holder))
      | [] =>
          query (fun st => Value (tt, between st));;;
          row <- insertParams now b;;
          order <- executeQuery (insert_order (to_string jerseyNumber) row);;
          ret (inr order)
      end
  end.

(** [POST /api/orders] (lines 1269-1383): after the insert the two sends
    are started and not awaited, and the 201 is written. *)
Definition postOrders (env : Env) (between : Store -> Store) (b : Body)
  : M Store Background :=
  try_catch
    (a <- admission (Date_now env) between b;;
     match a with
     | inl r => emit [EvRespond r];;; ret nothing_pending
     | inr order =>
         let t1 := sendConfirmationEmail env b in
         let t2 := sendAdminNotification env b in
         emit (sync t1);;;
         emit (sync t2);;;
         respond 201 (created (Date_now env) b order);;;
         ret (mkBackground (deferred t1) (deferred t2) (report_rejected t1 t2))
     end)
    on_error.

(** Everything a request to [POST /api/orders] does, the background work
    included. *)
Definition postOrders_trace (env : Env) (between : Store -> Store)
    (sched : list bool) (b : Body) (st : Store) : list Event :=
  let r := postOrders env between b st in
  trace r ++
  match result r with
  | Value bg => merge sched (first bg) (second bg) ++ after_both bg
  | Throw _ => []
  end.

End Server.

(** *** The public checks *)

Section Checks.

Variable int4in : string -> option Z.

(** SQL [LOWER], which the server computes by its locale. *)
Variable lower : string -> string.

(** The [catch] of both checks. *)
Definition check_failed (what : string) (error : Exn) : M Store unit :=
  log LError what;;;
  respond 500 (JObj [("error", JStr "Internal server error");
                     ("details", JStr (exn_message error))]).

(** [SELECT id FROM orders WHERE LOWER(name) = LOWER($1)] *)
Definition select_by_name (p : string) (st : Store) : Result (list Order * Store) :=
  Value (List.filter (fun o => String.eqb (lower (name o)) (lower p)) (orders st), st).

(** [GET /api/orders/check-name] (lines 1217-1239). *)
Definition checkName (name : option string) : M Store unit :=
  try_catch
    (if negb (present name)
     then respond 400 (JObj [("error", JStr "Name is required")])
     else
       let name' := default "" name in
       results <- executeQuery (select_by_name (trim name'));;
       respond 200
         (JObj [("exists", JBool (match results with [] => false | _ => true end));
                ("conflictingOrders", JNum (Z.of_nat (length results)));
                ("message",
                 JStr (match results with
                       | _ :: _ => "Name " +:+ dquote +:+ name' +:+ dquote
                                   +:+ " already exists in the database"
                       | [] => "Name " +:+ dquote +:+ name' +:+ dquote
                               +:+ " is available"
                       end))]))
    (check_failed "Error checking name existence:").

(** [GET /api/orders/check-jersey] (lines 1242-1266): the parameter is
    [parseInt(number)] and the column is an integer, so the store reads
    the bound text as one. *)
Definition checkJersey (number : option string) : M Store unit :=
  try_catch
    (if negb (present number)
     then respond 400 (JObj [("error", JStr "Jersey number is required")])
     else
       let number' := default "" number in
       results <- executeQuery (select_by_jersey int4in (jersey_param number'));;
       respond 200
         (JObj [("available", JBool (match results with [] => true | _ => false end));
                ("conflictingOrders", JNum (Z.of_nat (length results)));
                ("conflictDetails",
                 match results with
                 | holder :: _ =>
                     JObj [("id", JNum (id holder)); ("name", JStr (name holder));
                           ("batch", json_of_opt (batch holder))]
                 | [] => JNull
                 end);
                ("message",
                 JStr (match results with
                       | _ :: _ => "Jersey number " +:+ number' +:+ " is already taken"
                       | [] => "Jersey number " +:+ number' +:+ " is available"
                       end))]))
    (check_failed "Error checking jersey availability:").

End Checks.

End Intake.

(* ===================================================================== *)
(** ** The runtime operations on sample inputs                           *)
(* ===================================================================== *)

Example parseInt_ex1 : parseInt (VStr "  42px") = Some 42.
Proof. reflexivity. Qed.
Example parseInt_ex2 : parseInt (VStr "0x1f") = Some 31.
Proof. reflexivity. Qed.
Example parseInt_ex3 : parseInt (VNum (-7)) = Some (-7).
Proof. reflexivity. Qed.
Example parseInt_ex4 : parseInt (VBool true) = None.
Proof. reflexivity. Qed.
Example trim_ex : trim "  a b  " = "a b".
Proof. reflexivity. Qed.
Example email_ex1 : regex_test emailRegex (VStr "a@b.co") = true.
Proof. reflexivity. Qed.
Example email_ex2 : regex_test emailRegex (VStr "a@b") = false.
Proof. reflexivity. Qed.
Example email_ex3 : regex_test emailRegex (VStr "a@b.c.d") = true.
Proof. reflexivity. Qed.
Example email_ex4 : regex_test emailRegex (VStr "a@@b.c") = false.
Proof. reflexivity. Qed.
Example pad_ex : padStart0 3 (num_to_string 7) = "007".
Proof. reflexivity. Qed.
Example slice_ex : slice_last 6 "1700000123456" = "123456".
Proof. reflexivity. Qed.

(* ===================================================================== *)
(** ** Validation                                                        *)
(* ===================================================================== *)

Definition missing_required : Response :=
  mkResponse 400 (JObj [("error", JStr "Missing required fields")]).


(** A complete submission; the examples below vary single fields of it. *)
Definition alice : Body :=
  list_to_map
    [("name", VStr " Alice "); ("studentId", VStr "ICE-21-007");
     ("jerseyNumber", VStr "7"); ("size", VStr "M");
     ("collarType", VStr "round"); ("sleeveType", VStr "short");
     ("email", VStr "alice@example.com"); ("finalPrice", VNum 450)].

Section ValidationFacts.

Variable b : Body.


Lemma missing_in_list (k : string) :
  In k Intake.requiredFields -> Intake.is_missing b k = true ->
  In k (Intake.missingFields b).
Proof.
  intros Hin Hm. unfold Intake.missingFields. apply List.filter_In. split; assumption.
Qed.

Lemma present_not_missing (k : string) :
  Intake.missingFields b = [] -> In k Intake.requiredFields ->
  Intake.is_missing b k = false.
Proof.
  intros Hnil Hin. destruct (Intake.is_missing b k) eqn:Hm; [| reflexivity].
  pose proof (missing_in_list k Hin Hm) as Habs. rewrite Hnil in Habs. destruct Habs.
Qed.

Lemma present_truthy (k : string) :
  Intake.missingFields b = [] -> In k Intake.requiredFields ->
  truthy (field b k) = true.
Proof.
  intros Hnil Hin. pose proof (present_not_missing k Hnil Hin) as Hm.
  unfold Intake.is_missing in Hm. apply orb_false_iff in Hm as [Hm _].
  now apply negb_false_iff in Hm.
Qed.

(** With nothing missing, the admin server's presence test passes. *)
Lemma admin_presence_passes :
  Intake.missingFields b = [] ->
  Admin.validate b =
    if negb (regex_test emailRegex (field b "email"))
    then inl (mkResponse 400 (JObj [("error", JStr "Invalid email format")]))
    else
      match parseInt (field b "jerseyNumber") with
      | None => inl (mkResponse 400 (JObj [("error", JStr "Jersey number must be 0-500")]))
      | Some jerseyNum =>
          if (jerseyNum <? 0) || (jerseyNum >? 500)
          then inl (mkResponse 400 (JObj [("error", JStr "Jersey number must be 0-500")]))
          else inr jerseyNum
      end.
Proof.
  intros Hnil. unfold Admin.validate.
  rewrite !(present_truthy _ Hnil) by (cbn; tauto).
  reflexivity.
Qed.


End ValidationFacts.





Definition admin_bad_number : Response :=
  mkResponse 400 (JObj [("error", JStr "Jersey number must be 0-500")]).

Definition intake_bad_number : Response :=
  mkResponse 400 (JObj [("error", JStr "Jersey number must be between 1 and 99")]).


(** C6, as stated, fails: the bounds are literals of each handler and the
    two handlers disagree (100 passes the admin server and not the intake
    server), and the admin server's own lower bound 0 is turned down when
    it arrives as a number. *)
Lemma jersey_bound_is_not_one_value :
  Admin.validate (<["jerseyNumber" := VStr "100"]> alice) = inr 100
  /\ (forall st, Intake.validate (<["jerseyNumber" := VStr "100"]> alice) st
                 = mkRun [] st (Value (Intake.Rejected intake_bad_number)))
  /\ Admin.validate (<["jerseyNumber" := VStr "0"]> alice) = inr 0
  /\ Admin.validate (<["jerseyNumber" := VNum 0]> alice) = inl missing_required.
Proof.
  repeat split; intros; vm_compute; reflexivity.
Qed.

(** C6, amended: each server has its own inclusive range, written as
    literals in its handler: 0-500 in the admin server, 1-99 in the intake
    server.  For a submission whose required fields are all present and
    whose email passes, a jersey number that [parseInt] reads as [n] is
    accepted when [n] is inside the server's range, the two bounds
    included, and answered with 400 when it is outside. *)
Theorem jersey_range_of_each_server (b : Body) (e : string) (n : Z)
  (Hnil : Intake.missingFields b = [])
  (Hn : parseInt (field b "jerseyNumber") = Some n)
  (He : field b "email" = VStr e)
  (Hre : re_match emailRegex e = true)
  (Htrim : trim e = e) :
  (0 <= n <= 500 -> Admin.validate b = inr n)
  /\ (n < 0 \/ 500 < n -> Admin.validate b = inl admin_bad_number)
  /\ (forall st, 1 <= n <= 99 ->
        Intake.validate b st = mkRun [] st (Value Intake.Accepted))
  /\ (forall st, n < 1 \/ 99 < n ->
        Intake.validate b st = mkRun [] st (Value (Intake.Rejected intake_bad_number))).
Proof.
  assert (Hadmin : Admin.validate b =
            if (n <? 0) || (n >? 500) then inl admin_bad_number else inr n).
  { rewrite (admin_presence_passes b Hnil). unfold regex_test.
    rewrite He. cbn [to_string]. rewrite Hre. cbn [negb]. rewrite Hn. reflexivity. }
  assert (Hintake : forall st, Intake.validate b st =
            if (n <? 1) || (n >? 99)
            then mkRun [] st (Value (Intake.Rejected intake_bad_number))
            else mkRun [] st (Value Intake.Accepted)).
  { intros st. unfold Intake.validate. rewrite Hnil, Hn.
    destruct ((n <? 1) || (n >? 99)); [reflexivity |].
    rewrite He. unfold bind, call_trim, ret. cbn. rewrite Htrim, Hre. reflexivity. }
  split; [| split; [| split]].
  - intros [H0 H500]. rewrite Hadmin.
    replace (n <? 0) with false by (symmetry; apply Z.ltb_ge; lia).
    replace (n >? 500) with false by (symmetry; rewrite Z.gtb_ltb; apply Z.ltb_ge; lia).
    reflexivity.
  - intros Hout. rewrite Hadmin.
    destruct Hout as [Hlo | Hhi].
    + replace (n <? 0) with true by (symmetry; apply Z.ltb_lt; lia). reflexivity.
    + replace (n >? 500) with true by (symmetry; rewrite Z.gtb_ltb; apply Z.ltb_lt; lia).
      rewrite orb_true_r. reflexivity.
  - intros st [H1 H99]. rewrite Hintake.
    replace (n <? 1) with false by (symmetry; apply Z.ltb_ge; lia).
    replace (n >? 99) with false by (symmetry; rewrite Z.gtb_ltb; apply Z.ltb_ge; lia).
    reflexivity.
  - intros st Hout. rewrite Hintake.
    destruct Hout as [Hlo | Hhi].
    + replace (n <? 1) with true by (symmetry; apply Z.ltb_lt; lia). reflexivity.
    + replace (n >? 99) with true by (symmetry; rewrite Z.gtb_ltb; apply Z.ltb_lt; lia).
      rewrite orb_true_r. reflexivity.
Qed.

Lemma jersey_range_of_each_server_witness :
  Admin.validate (<["jerseyNumber" := VStr "500"]> alice) = inr 500
  /\ Admin.validate (<["jerseyNumber" := VStr "501"]> alice) = inl admin_bad_number
  /\ Admin.validate (<["jerseyNumber" := VStr "-1"]> alice) = inl admin_bad_number
  /\ (forall st, Intake.validate (<["jerseyNumber" := VNum 1]> alice) st
                 = mkRun [] st (Value Intake.Accepted))
  /\ (forall st, Intake.validate (<["jerseyNumber" := VNum 99]> alice) st
                 = mkRun [] st (Value Intake.Accepted))
  /\ (forall st, Intake.validate (<["jerseyNumber" := VStr "0"]> alice) st
                 = mkRun [] st (Value (Intake.Rejected intake_bad_number)))
  /\ (forall st, Intake.validate (<["jerseyNumber" := VNum 100]> alice) st
                 = mkRun [] st (Value (Intake.Rejected intake_bad_number))).
Proof.
  split; [| split; [| split; [| split; [| split; [| split]]]]].
  - apply (jersey_range_of_each_server (<["jerseyNumber" := VStr "500"]> alice)
             "alice@example.com" 500); try (vm_compute; reflexivity); lia.
  - apply (jersey_range_of_each_server (<["jerseyNumber" := VStr "501"]> alice)
             "alice@example.com" 501); try (vm_compute; reflexivity); lia.
  - apply (jersey_range_of_each_server (<["jerseyNumber" := VStr "-1"]> alice)
             "alice@example.com" (-1)); try (vm_compute; reflexivity); lia.
  - intros st.
    apply (jersey_range_of_each_server (<["jerseyNumber" := VNum 1]> alice)
             "alice@example.com" 1); try (vm_compute; reflexivity); lia.
  - intros st.
    apply (jersey_range_of_each_server (<["jerseyNumber" := VNum 99]> alice)
             "alice@example.com" 99); try (vm_compute; reflexivity); lia.
  - intros st.
    apply (jersey_range_of_each_server (<["jerseyNumber" := VStr "0"]> alice)
             "alice@example.com" 0); try (vm_compute; reflexivity); lia.
  - intros st.
    apply (jersey_range_of_each_server (<["jerseyNumber" := VNum 100]> alice)
             "alice@example.com" 100); try (vm_compute; reflexivity); lia.
Defined.














(* ===================================================================== *)
(** ** Status updates and deletion (admin server)                        *)
(* ===================================================================== *)

(** A reading of integer parameters for the examples: plain decimal
    digits and nothing else. *)
Fixpoint all_digits (s : string) : bool :=
  match s with
  | EmptyString => true
  | String c r =>
      (match digit_value 10 c with Some _ => true | None => false end) && all_digits r
  end.

Definition int4in_plain (s : string) : option Z :=
  if all_digits s then read_digits 10 s None else None.

Definition status_mail (o : Admin.Order) : Mail :=
  mkMail (Admin.email o) "Payment Confirmed - ICE Jersey Order" PaymentConfirmed.

Definition status_updated (s : string) : Response :=
  mkResponse 200 (JObj [("success", JBool true);
                        ("message", JStr "Order status updated successfully");
                        ("newStatus", JStr s)]).

Definition not_found : Response :=
  mkResponse 404 (JObj [("error", JStr "Order not found")]).

Definition deleted : Response :=
  mkResponse 200 (JObj [("success", JBool true);
                        ("message", JStr "Order deleted successfully")]).

(** The edge on which the handler notifies. *)
Definition turns_done (s : string) (o : Admin.Order) : bool :=
  String.eqb s "done" && negb (String.eqb (Admin.status o) "done").

Lemma mails_of_app t1 t2 : mails_of (t1 ++ t2) = mails_of t1 ++ mails_of t2.
Proof.
  induction t1 as [| e t1 IH]; [reflexivity |].
  destruct e; cbn; rewrite IH; reflexivity.
Qed.

Lemma fetches_of_app t1 t2 : fetches_of (t1 ++ t2) = fetches_of t1 ++ fetches_of t2.
Proof.
  induction t1 as [| e t1 IH]; [reflexivity |].
  destruct e; cbn; rewrite IH; reflexivity.
Qed.

(** One call of [sendEmail] is one message handed over; it reaches the
    transport when the API key is set. *)
Lemma sendEmail_mails env m : mails_of (fst (Admin.sendEmail env m)) = [m].
Proof.
  unfold Admin.sendEmail.
  destruct (env_truthy (BREVO_API_KEY env)); cbn; [| reflexivity].
  destruct (fetch env m); reflexivity.
Qed.


Section AdminRuns.

Variable int4in : string -> option Z.
Variable env : Env.
Variable idtxt : string.
Variable i : Z.
Hypothesis Hid : int4in idtxt = Some i.

Definition has_id (o : Admin.Order) : bool := Admin.id o =? i.

Definition touch (s : string) (st : Admin.Store) (o : Admin.Order) : Admin.Order :=
  if Admin.id o =? i then Admin.set_status s (Admin.clock st) o else o.

(** What [PATCH .../status] does to an order that exists. *)
Lemma patchStatus_run (b : Body) (st : Admin.Store) (s : string)
      (order : Admin.Order) (rest : list Admin.Order) :
  Admin.allowed_status (field b "status") = Some s ->
  List.filter has_id (Admin.orders st) = order :: rest ->
  Admin.patchStatus int4in env idtxt b st
  = mkRun ((if turns_done s order
            then fst (Admin.sendEmail env (status_mail order)) else [])
           ++ [EvRespond (status_updated s)])
          (Admin.mkStore (map (touch s st) (Admin.orders st))
                         (Admin.next_id st) (Admin.clock st))
          (Value tt).
Proof.
  intros Hs Hrows.
  unfold Admin.patchStatus, try_catch, try_finally, bind, query,
    Admin.select_by_id, Admin.update_status, Admin.client_end, ret.
  rewrite Hs, Hid. cbn.
  unfold has_id in Hrows. rewrite Hrows. cbn.
  unfold turns_done, touch.
  destruct (String.eqb s "done" && negb (String.eqb (Admin.status order) "done"));
    cbn; rewrite ?app_nil_r; reflexivity.
Qed.

Lemma patchStatus_absent (b : Body) (st : Admin.Store) (s : string) :
  Admin.allowed_status (field b "status") = Some s ->
  List.filter has_id (Admin.orders st) = [] ->
  Admin.patchStatus int4in env idtxt b st = mkRun [EvRespond not_found] st (Value tt).
Proof.
  intros Hs Hrows.
  unfold Admin.patchStatus, try_catch, try_finally, bind, query,
    Admin.select_by_id, Admin.client_end, ret.
  rewrite Hs, Hid. cbn.
  unfold has_id in Hrows. rewrite Hrows. reflexivity.
Qed.



End AdminRuns.

Lemma response_of_app t1 t2 :
  forallb (fun e => negb (is_respond e)) t1 = true ->
  response_of (t1 ++ t2) = response_of t2.
Proof.
  induction t1 as [| e t1 IH]; [reflexivity |].
  cbn. intros H. apply andb_true_iff in H as [He Ht].
  destruct e; cbn in He; try discriminate; now apply IH.
Qed.

Lemma sendEmail_no_response env m :
  forallb (fun e => negb (is_respond e)) (fst (Admin.sendEmail env m)) = true.
Proof.
  unfold Admin.sendEmail.
  destruct (env_truthy (BREVO_API_KEY env)); cbn; [| reflexivity].
  destruct (fetch env m); reflexivity.
Qed.


(** Two orders for the examples. *)
Definition order_of_bob (status : string) : Admin.Order :=
  Admin.mkOrder 1 "Bob" "ICE-21-010" "10" None "L" "polo" "long"
                "bob@example.com" None None "500" status 5 5.

Definition order_of_eve : Admin.Order :=
  Admin.mkOrder 1 "Eve" "ICE-21-011" "11" (Some "21") "S" "round" "short"
                "eve@example.com" None None "450" "pending" 6 6.

Definition table (rows : list Admin.Order) : Admin.Store := Admin.mkStore rows 2 9.

Definition set_done : Body := {[ "status" := VStr "done" ]}.

Definition quiet : Env := mkEnv None None (fun _ => FetchRejects "offline") 0.

Definition online : Env :=
  mkEnv (Some "xkeysib-1") (Some "staff@example.com")
        (fun _ => FetchResponds true (Some "<1@brevo>")) 1700000000000.



(** C5, as stated, fails: nothing computed from the response tells the
    previous status, since an order that was pending and one that was
    done get the same response to the same request. *)
Lemma status_response_hides_previous_status :
  ~ exists previous : Response -> string,
      forall (st : Admin.Store) (order : Admin.Order) (r : Response),
        List.filter (has_id 1) (Admin.orders st) = [order] ->
        response_of (trace (Admin.patchStatus int4in_plain quiet "1" set_done st)) = Some r ->
        previous r = Admin.status order.
Proof.
  intros [previous H].
  pose proof (H (table [order_of_bob "pending"]) (order_of_bob "pending")
                (status_updated "done") eq_refl eq_refl) as Hp.
  pose proof (H (table [order_of_bob "done"]) (order_of_bob "done")
                (status_updated "done") eq_refl eq_refl) as Hd.
  rewrite Hp in Hd. discriminate Hd.
Qed.

(** C5, amended: for an order that exists and a new status among
    'pending' and 'done', the status update answers 200 with [success],
    [message] and [newStatus], the status it was asked for; the body does
    not depend on the order read. *)
Theorem status_response_is_new_status_only
  (int4in : string -> option Z) (env : Env) (idtxt : string) (i : Z)
  (b : Body) (st : Admin.Store) (order : Admin.Order) (rest : list Admin.Order)
  (s : string)
  (Hid : int4in idtxt = Some i)
  (Hs : field b "status" = VStr s)
  (Hallowed : s = "pending" \/ s = "done")
  (Hrow : List.filter (has_id i) (Admin.orders st) = order :: rest) :
  response_of (trace (Admin.patchStatus int4in env idtxt b st))
  = Some (status_updated s)
  /\ json_keys (payload (status_updated s)) = ["success"; "message"; "newStatus"]
  /\ json_get "newStatus" (payload (status_updated s)) = Some (JStr s).
Proof.
  assert (Ha : Admin.allowed_status (field b "status") = Some s).
  { rewrite Hs. destruct Hallowed as [-> | ->]; reflexivity. }
  rewrite (patchStatus_run int4in env idtxt i Hid b st s order rest Ha Hrow).
  cbn [trace]. split; [| split; reflexivity].
  destruct (turns_done s order); [| reflexivity].
  rewrite response_of_app by apply sendEmail_no_response. reflexivity.
Qed.

Lemma status_response_is_new_status_only_witness :
  response_of (trace (Admin.patchStatus int4in_plain online "1" set_done
                        (table [order_of_bob "pending"])))
  = Some (status_updated "done")
  /\ response_of (trace (Admin.patchStatus int4in_plain online "1" set_done
                           (table [order_of_bob "done"])))
     = Some (status_updated "done").
Proof.
  split.
  - apply (status_response_is_new_status_only int4in_plain online "1" 1 set_done
             (table [order_of_bob "pending"]) (order_of_bob "pending") [] "done"
             eq_refl eq_refl (or_intror eq_refl) eq_refl).
  - apply (status_response_is_new_status_only int4in_plain online "1" 1 set_done
             (table [order_of_bob "done"]) (order_of_bob "done") [] "done"
             eq_refl eq_refl (or_intror eq_refl) eq_refl).
Defined.

(** Every column but [status] and [updated_at]. *)
Definition same_other_columns (o o' : Admin.Order) : Prop :=
  Admin.id o' = Admin.id o /\ Admin.name o' = Admin.name o
  /\ Admin.student_id o' = Admin.student_id o
  /\ Admin.jersey_number o' = Admin.jersey_number o
  /\ Admin.batch o' = Admin.batch o /\ Admin.size o' = Admin.size o
  /\ Admin.collar_type o' = Admin.collar_type o
  /\ Admin.sleeve_type o' = Admin.sleeve_type o
  /\ Admin.email o' = Admin.email o
  /\ Admin.transaction_id o' = Admin.transaction_id o
  /\ Admin.notes o' = Admin.notes o
  /\ Admin.final_price o' = Admin.final_price o
  /\ Admin.created_at o' = Admin.created_at o.

(** C10: for an order that exists and a new status among 'pending' and
    'done', the UPDATE runs whatever the current status: each row with the
    id ends with the new status and [updated_at] at the store's current
    time, its other columns as they were; rows with another id are
    untouched, and no row is added or removed. *)
Theorem status_update_is_unconditional
  (int4in : string -> option Z) (env : Env) (idtxt : string) (i : Z)
  (b : Body) (st : Admin.Store) (order : Admin.Order) (rest : list Admin.Order)
  (s : string)
  (Hid : int4in idtxt = Some i)
  (Hs : field b "status" = VStr s)
  (Hallowed : s = "pending" \/ s = "done")
  (Hrow : List.filter (has_id i) (Admin.orders st) = order :: rest) :
  let st' := store (Admin.patchStatus int4in env idtxt b st) in
  length (Admin.orders st') = length (Admin.orders st)
  /\ forall (k : nat) (o : Admin.Order),
       nth_error (Admin.orders st) k = Some o ->
       exists o', nth_error (Admin.orders st') k = Some o'
         /\ if Admin.id o =? i
            then Admin.status o' = s /\ Admin.updated_at o' = Admin.clock st
                 /\ same_other_columns o o'
            else o' = o.
Proof.
  assert (Ha : Admin.allowed_status (field b "status") = Some s).
  { rewrite Hs. destruct Hallowed as [-> | ->]; reflexivity. }
  rewrite (patchStatus_run int4in env idtxt i Hid b st s order rest Ha Hrow).
  cbn [store Admin.orders]. split.
  - apply List.length_map.
  - intros k o Hk. exists (touch i s st o). split.
    + rewrite List.nth_error_map, Hk. reflexivity.
    + unfold touch. destruct (Admin.id o =? i); [| reflexivity].
      unfold same_other_columns. cbn. repeat split; reflexivity.
Qed.

Lemma status_update_is_unconditional_witness :
  exists o',
    nth_error (Admin.orders (store (Admin.patchStatus int4in_plain quiet "1" set_done
                                      (table [order_of_bob "done"])))) 0
    = Some o'
    /\ Admin.status o' = "done" /\ Admin.updated_at o' = 9
    /\ same_other_columns (order_of_bob "done") o'.
Proof.
  pose proof (status_update_is_unconditional int4in_plain quiet "1" 1 set_done
                (table [order_of_bob "done"]) (order_of_bob "done") [] "done"
                eq_refl eq_refl (or_intror eq_refl) eq_refl) as H.
  cbv zeta in H. destruct H as [_ H].
  destruct (H 0%nat (order_of_bob "done") eq_refl) as (o' & Hn & Hrest).
  exists o'. split; [exact Hn | exact Hrest].
Defined.

Section DeleteRuns.

Variable int4in : string -> option Z.
Variable decimal_out : string -> string.
Variable timestamp_json : Z -> string.
Variable idtxt : string.
Variable i : Z.
Hypothesis Hid : int4in idtxt = Some i.

Definition without (st : Admin.Store) : Admin.Store :=
  Admin.mkStore (List.filter (fun o => negb (Admin.id o =? i)) (Admin.orders st))
                (Admin.next_id st) (Admin.clock st).

Lemma deleteOrder_run (st : Admin.Store) :
  Admin.deleteOrder int4in idtxt st
  = mkRun [EvRespond (match List.filter (has_id i) (Admin.orders st) with
                      | [] => not_found
                      | _ :: _ => deleted
                      end)]
          (without st) (Value tt).
Proof.
  unfold Admin.deleteOrder, try_catch, try_finally, bind, query,
    Admin.delete_by_id, Admin.client_end, ret.
  rewrite Hid. cbn. unfold has_id.
  destruct (List.filter (fun o => Admin.id o =? i) (Admin.orders st)); reflexivity.
Qed.

Lemma getOrder_run (st : Admin.Store) :
  Admin.getOrder int4in decimal_out timestamp_json idtxt st
  = mkRun [EvRespond (match List.filter (has_id i) (Admin.orders st) with
                      | [] => not_found
                      | order :: _ =>
                          mkResponse 200
                            (JObj [("success", JBool true);
                                   ("order",
                                    Admin.json_of_order decimal_out timestamp_json
                                                        order)])
                      end)]
          st (Value tt).
Proof.
  unfold Admin.getOrder, try_catch, try_finally, bind, query,
    Admin.select_by_id, Admin.client_end, ret.
  rewrite Hid. cbn. unfold has_id.
  destruct (List.filter (fun o => Admin.id o =? i) (Admin.orders st)); reflexivity.
Qed.

Lemma none_left (l : list Admin.Order) :
  List.filter (has_id i) (List.filter (fun o => negb (Admin.id o =? i)) l) = [].
Proof.
  induction l as [| o l IH]; [reflexivity |].
  cbn. destruct (Admin.id o =? i) eqn:E; cbn; [exact IH |].
  unfold has_id at 1. rewrite E. exact IH.
Qed.

Lemma nothing_to_drop (l : list Admin.Order) :
  List.filter (has_id i) l = [] -> List.filter (fun o => negb (Admin.id o =? i)) l = l.
Proof.
  induction l as [| o l IH]; [reflexivity |].
  cbn. unfold has_id at 1. destruct (Admin.id o =? i); cbn; [discriminate |].
  intros H. rewrite (IH H). reflexivity.
Qed.

End DeleteRuns.

(** C8, as stated, fails on the snapshot: the response to a delete is the
    same whatever row was deleted, so no row can be read from it. *)
Lemma delete_response_has_no_snapshot :
  ~ exists snapshot : Response -> Admin.Order,
      forall (st : Admin.Store) (order : Admin.Order) (r : Response),
        List.filter (has_id 1) (Admin.orders st) = [order] ->
        response_of (trace (Admin.deleteOrder int4in_plain "1" st)) = Some r ->
        snapshot r = order.
Proof.
  intros [snapshot H].
  pose proof (H (table [order_of_bob "pending"]) (order_of_bob "pending")
                deleted eq_refl eq_refl) as Hb.
  pose proof (H (table [order_of_eve]) order_of_eve deleted eq_refl eq_refl) as He.
  rewrite Hb in He. discriminate He.
Qed.

(** C8, amended: for an id the store reads as [i], when a row has that id
    the delete removes every such row and leaves the others, answers 200
    with [success] and [message] only (the row that RETURNING gives back
    is not put in the response), and a following read of the id answers
    404; when no row has the id the delete answers 404 and the table is
    as before. *)
Theorem delete_removes_the_order
  (int4in : string -> option Z)
  (decimal_out : string -> string) (timestamp_json : Z -> string)
  (idtxt : string) (i : Z) (st : Admin.Store)
  (Hid : int4in idtxt = Some i) :
  let r := Admin.deleteOrder int4in idtxt st in
  (forall o, In o (Admin.orders (store r)) <-> In o (Admin.orders st) /\ Admin.id o <> i)
  /\ response_of (trace (Admin.getOrder int4in decimal_out timestamp_json idtxt (store r)))
     = Some not_found
  /\ ((exists o, In o (Admin.orders st) /\ Admin.id o = i) ->
        response_of (trace r) = Some deleted
        /\ json_keys (payload deleted) = ["success"; "message"])
  /\ ((forall o, In o (Admin.orders st) -> Admin.id o <> i) ->
        response_of (trace r) = Some not_found /\ store r = st).
Proof.
  intros r. unfold r. rewrite (deleteOrder_run int4in idtxt i Hid st).
  cbn [store trace]. split; [| split; [| split]].
  - intros o. unfold without. cbn [Admin.orders]. rewrite List.filter_In.
    rewrite negb_true_iff, Z.eqb_neq. tauto.
  - rewrite (getOrder_run int4in decimal_out timestamp_json idtxt i Hid). cbn [trace].
    unfold without. cbn [Admin.orders]. rewrite none_left. reflexivity.
  - intros (o & Hin & Ho).
    destruct (List.filter (has_id i) (Admin.orders st)) eqn:E.
    + assert (Habs : In o (List.filter (has_id i) (Admin.orders st))).
      { apply List.filter_In. split; [exact Hin |]. unfold has_id. now apply Z.eqb_eq. }
      rewrite E in Habs. destruct Habs.
    + split; reflexivity.
  - intros Hnone.
    assert (E : List.filter (has_id i) (Admin.orders st) = []).
    { destruct (List.filter (has_id i) (Admin.orders st)) as [| o l] eqn:E; [reflexivity |].
      assert (Hin : In o (List.filter (has_id i) (Admin.orders st))) by (rewrite E; left; reflexivity).
      apply List.filter_In in Hin as [Hin Ho]. unfold has_id in Ho.
      apply Z.eqb_eq in Ho. destruct (Hnone o Hin Ho). }
    rewrite E. split; [reflexivity |].
    unfold without. rewrite (nothing_to_drop i _ E). destruct st; reflexivity.
Qed.

Lemma delete_removes_the_order_witness :
  response_of (trace (Admin.deleteOrder int4in_plain "1" (table [order_of_eve])))
  = Some deleted
  /\ Admin.orders (store (Admin.deleteOrder int4in_plain "1" (table [order_of_eve]))) = []
  /\ response_of (trace (Admin.deleteOrder int4in_plain "7" (table [order_of_eve])))
     = Some not_found.
Proof.
  pose proof (delete_removes_the_order int4in_plain (fun s => s +:+ ".00")
                (fun _ => "2025-03-01T10:00:00.000Z") "1" 1 (table [order_of_eve]) eq_refl)
    as H1.
  pose proof (delete_removes_the_order int4in_plain (fun s => s +:+ ".00")
                (fun _ => "2025-03-01T10:00:00.000Z") "7" 7 (table [order_of_eve]) eq_refl)
    as H7.
  cbv zeta in H1, H7.
  destruct H1 as (_ & _ & Hdel & _). destruct H7 as (_ & _ & _ & Hnf).
  split; [| split].
  - apply Hdel. exists order_of_eve. split; [left; reflexivity | reflexivity].
  - vm_compute; reflexivity.
  - apply Hnf. intros o [<- | []]. discriminate.
Defined.

(* ===================================================================== *)
(** ** Order creation                                                    *)
(* ===================================================================== *)

(** *** What a piece of handler code can leave on the trace *)

(** Code that only logs: it writes no response and touches no mail. *)
Definition logs_only {S A} (m : M S A) : Prop :=
  forall s, forallb is_log (trace (m s)) = true.

Lemma logs_only_ret {S A} (a : A) : logs_only (@ret S A a).
Proof. intros s. reflexivity. Qed.

Lemma logs_only_throw {S A} (e : Exn) : logs_only (@throw S A e).
Proof. intros s. reflexivity. Qed.

Lemma logs_only_log {S} lvl text : logs_only (@log S lvl text).
Proof. intros s. reflexivity. Qed.

Lemma logs_only_query {S A} (q : S -> Result (A * S)) : logs_only (query q).
Proof. intros s. unfold query. destruct (q s) as [[a s'] | e]; reflexivity. Qed.

Lemma logs_only_bind {S A B} (m : M S A) (k : A -> M S B) :
  logs_only m -> (forall a, logs_only (k a)) -> logs_only (bind m k).
Proof.
  intros Hm Hk s. unfold bind. specialize (Hm s).
  destruct (m s) as [t s' [a | e]]; cbn in *; [| exact Hm].
  specialize (Hk a s'). destruct (k a s') as [t' s'' r]; cbn in *.
  rewrite forallb_app, Hm. exact Hk.
Qed.

Lemma logs_only_try_catch {S A} (m : M S A) (h : Exn -> M S A) :
  logs_only m -> (forall e, logs_only (h e)) -> logs_only (try_catch m h).
Proof.
  intros Hm Hh s. unfold try_catch. specialize (Hm s).
  destruct (m s) as [t s' [a | e]]; cbn in *; [exact Hm |].
  specialize (Hh e s'). destruct (h e s') as [t' s'' r]; cbn in *.
  rewrite forallb_app, Hm. exact Hh.
Qed.

Lemma logs_only_call_trim {S} what v : logs_only (@call_trim S what v).
Proof. destruct v; intros st; reflexivity. Qed.

Create HintDb logs discriminated.
#[local] Hint Resolve logs_only_ret logs_only_throw logs_only_log logs_only_query
  logs_only_call_trim : logs.
#[local] Hint Extern 2 (logs_only (bind _ _)) =>
  apply logs_only_bind; [| intros ?] : logs.
#[local] Hint Extern 2 (logs_only (try_catch _ _)) =>
  apply logs_only_try_catch; [| intros ?] : logs.

Lemma logs_no_response (t : list Event) :
  forallb is_log t = true -> forallb (fun e => negb (is_respond e)) t = true.
Proof.
  induction t as [| e t IH]; [reflexivity |]. cbn.
  intros H. apply andb_true_iff in H as [He Ht].
  rewrite (IH Ht). destruct e; cbn in *; try discriminate; reflexivity.
Qed.


Lemma logs_no_mail (t : list Event) :
  forallb is_log t = true -> mails_of t = [] /\ fetches_of t = [].
Proof.
  induction t as [| e t IH]; [split; reflexivity |]. cbn.
  intros H. apply andb_true_iff in H as [He Ht].
  destruct e; cbn in *; try discriminate. exact (IH Ht).
Qed.

Section IntakeRuns.

Variable int4in : string -> option Z.
Variable rejects : Intake.Order -> option Exn.
Variable Date_parse : Val -> option Z.
Variable toISOString : Z -> string.

Abbreviation admission := (Intake.admission int4in rejects Date_parse toISOString).
Abbreviation postOrders := (Intake.postOrders int4in rejects Date_parse toISOString).

Lemma logs_only_clean what v : logs_only (Intake.clean what v).
Proof.
  unfold Intake.clean. destruct (truthy v); auto with logs.
Qed.

Lemma logs_only_formatDate now v :
  logs_only (Intake.formatDateForSQL Date_parse toISOString now v).
Proof.
  unfold Intake.formatDateForSQL.
  destruct (if truthy v then Date_parse v else Some now); auto with logs.
Qed.

Lemma logs_only_executeQuery {A} (q : Intake.Store -> Result (A * Intake.Store)) :
  logs_only (Intake.executeQuery q).
Proof. unfold Intake.executeQuery. auto 10 with logs. Qed.

Lemma logs_only_validate b : logs_only (Intake.validate b).
Proof.
  unfold Intake.validate.
  destruct (Intake.missingFields b); [| auto with logs].
  destruct (parseInt (field b "jerseyNumber")) as [n |]; [| auto with logs].
  destruct ((n <? 1) || (n >? 99)); [auto with logs |].
  apply logs_only_bind; [auto with logs | intros e].
  destruct (negb (re_match emailRegex e)); auto with logs.
Qed.

Lemma logs_only_insertParams now b :
  logs_only (Intake.insertParams Date_parse toISOString now b).
Proof.
  unfold Intake.insertParams.
  repeat (apply logs_only_bind;
          [first [apply logs_only_clean | apply logs_only_call_trim
                 | apply logs_only_formatDate] | intros ?]).
  apply logs_only_ret.
Qed.

Lemma logs_only_admission now between b : logs_only (admission now between b).
Proof.
  unfold Intake.admission.
  apply logs_only_bind; [apply logs_only_validate | intros [r |]]; [auto with logs |].
  apply logs_only_bind; [apply logs_only_executeQuery | intros [| holder rest]];
    [| auto with logs].
  apply logs_only_bind; [apply logs_only_query | intros _].
  apply logs_only_bind; [apply logs_only_insertParams | intros row].
  apply logs_only_bind; [apply logs_only_executeQuery | intros order].
  apply logs_only_ret.
Qed.

(** The response of the [catch] block. *)
Definition failure (e : Exn) : Response :=
  if bool_decide (exn_code e = Some "23505")
  then mkResponse 409 (JObj [("error", JStr "Jersey number is already taken")])
  else mkResponse 500 (JObj [("error", JStr "Internal server error");
                             ("message", JStr (exn_message e))]).

(** The handler, by the three ways [admission] can end. *)
Lemma postOrders_run env between b st :
  postOrders env between b st =
  let r := admission (Date_now env) between b st in
  match result r with
  | Value (inl resp) =>
      mkRun (trace r ++ [EvRespond resp]) (store r) (Value Intake.nothing_pending)
  | Value (inr order) =>
      let t1 := Intake.sendConfirmationEmail env b in
      let t2 := Intake.sendAdminNotification env b in
      mkRun (trace r ++ Intake.sync t1 ++ Intake.sync t2
             ++ [EvRespond (mkResponse 201 (Intake.created (Date_now env) b order))])
            (store r)
            (Value (Intake.mkBackground (Intake.deferred t1) (Intake.deferred t2)
                                        (Intake.report_rejected t1 t2)))
  | Throw e =>
      mkRun (trace r ++ [EvLog LError "Error creating order:"; EvRespond (failure e)])
            (store r) (Value Intake.nothing_pending)
  end.
Proof.
  unfold Intake.postOrders, try_catch, bind.
  destruct (admission (Date_now env) between b st) as [t s' [[resp | order] | e]]; cbn.
  - reflexivity.
  - rewrite ?app_nil_r, <- ?app_assoc. reflexivity.
  - unfold failure. destruct (bool_decide (exn_code e = Some "23505")); reflexivity.
Qed.

End IntakeRuns.

(** *** The admin server's handler, by cases *)

Definition notify_events (env : Env) (b : Body) (order : Admin.Order) : list Event :=
  fst (Admin.sendEmail env (Admin.confirmation_mail b))
  ++ (if env_truthy (ADMIN_EMAIL env)
      then fst (Admin.sendEmail env (Admin.admin_mail env order))
      else []).

Lemma notify_created_run env b order st :
  Admin.notify_created env b order st = mkRun (notify_events env b order) st (Value tt).
Proof.
  unfold Admin.notify_created, notify_events, bind, Admin.await_sendEmail.
  cbn. destruct (env_truthy (ADMIN_EMAIL env)); cbn; rewrite ?app_nil_r; reflexivity.
Qed.

Definition submission_failed : Response :=
  mkResponse 500 (JObj [("error", JStr "Order submission failed")]).

Lemma admin_postOrders_run rejects env b st :
  Admin.postOrders rejects env b st =
  match Admin.validate b with
  | inl r => mkRun [EvRespond r] st (Value tt)
  | inr jerseyNum =>
      let r := Admin.insert_new rejects b jerseyNum st in
      match result r with
      | Value order =>
          mkRun (trace r ++ notify_events env b order
                 ++ [EvRespond (mkResponse 201 (Admin.created order))])
                (store r) (Value tt)
      | Throw e =>
          mkRun (trace r ++ [EvLog LError "Order submission error:";
                             EvRespond submission_failed])
                (store r) (Value tt)
      end
  end.
Proof.
  unfold Admin.postOrders, try_catch.
  destruct (Admin.validate b) as [r | jerseyNum]; [reflexivity |].
  unfold try_finally, bind.
  destruct (Admin.insert_new rejects b jerseyNum st) as [t s' [order | e]];
    cbn [result store trace].
  - rewrite notify_created_run. cbn. rewrite ?app_nil_r, <- ?app_assoc. reflexivity.
  - cbn. rewrite ?app_nil_r. reflexivity.
Qed.

Lemma logs_only_opt_trim what v : logs_only (Admin.opt_trim what v).
Proof. destruct v; intros st; reflexivity. Qed.

Lemma logs_only_insert_new rejects b jerseyNum :
  logs_only (Admin.insert_new rejects b jerseyNum).
Proof.
  unfold Admin.insert_new.
  repeat (apply logs_only_bind;
          [first [apply logs_only_call_trim | apply logs_only_opt_trim] | intros ?]).
  apply logs_only_query.
Qed.

(** *** C1 *)

Definition empty_table : Admin.Store := Admin.mkStore [] 1 0.

(** A table that carries the unique index of the other schema refuses a
    row whose jersey number is taken. *)
Definition unique_index (rows : list Admin.Order) (o : Admin.Order) : option Exn :=
  if existsb (fun o' => String.eqb (Admin.jersey_number o') (Admin.jersey_number o)) rows
  then Some (PgError "23505" "duplicate key value violates unique constraint")
  else None.

(** C1, as stated, fails in the admin server: its pre-insert check is
    commented out and its table has no unique constraint, so a second
    submission with the same jersey number is answered 201 and stored;
    and were the store to refuse the row with 23505, the answer would be
    the generic 500. *)
Lemma admin_admits_duplicate_jersey :
  let once := Admin.postOrders (fun _ => None) quiet alice empty_table in
  let twice := Admin.postOrders (fun _ => None) quiet alice (store once) in
  option_map code (response_of (trace twice)) = Some 201
  /\ List.map Admin.jersey_number (Admin.orders (store twice)) = ["7"; "7"]
  /\ response_of (trace (Admin.postOrders (unique_index (Admin.orders (store once)))
                           quiet alice (store once)))
     = Some submission_failed.
Proof.
  cbv zeta. split; [| split]; vm_compute; reflexivity.
Qed.

Definition taken_generic : Response :=
  mkResponse 409 (JObj [("error", JStr "Jersey number is already taken")]).

Section Duplicate.

Variable int4in : string -> option Z.
Variable rejects : Intake.Order -> option Exn.
Variable Date_parse : Val -> option Z.
Variable toISOString : Z -> string.
Variable env : Env.
Variable between : Intake.Store -> Intake.Store.
Variable b : Body.
Variable st : Intake.Store.
Variable n : Z.

Hypothesis Hv : Intake.validate b st = mkRun [] st (Value Intake.Accepted).
Hypothesis Hn : int4in (to_string (field b "jerseyNumber")) = Some n.

Definition wears (o : Intake.Order) : bool := Intake.jersey_number o =? n.

Lemma admission_finds_holder holder rest :
  List.filter wears (Intake.orders st) = holder :: rest ->
  Intake.admission int4in rejects Date_parse toISOString (Date_now env) between b st
  = mkRun [] st (Value (inl (Intake.taken b holder))).
Proof.
  intros Hdup. unfold Intake.admission, bind. rewrite Hv. cbn.
  unfold Intake.executeQuery, try_catch, query, Intake.select_by_jersey.
  rewrite Hn. cbn. unfold wears in Hdup. rewrite Hdup. reflexivity.
Qed.

Lemma admission_hits_constraint row e :
  List.filter wears (Intake.orders st) = [] ->
  Intake.insertParams Date_parse toISOString (Date_now env) b (between st)
  = mkRun [] (between st) (Value row) ->
  Intake.insert_order int4in rejects (to_string (field b "jerseyNumber")) row (between st)
  = Throw e ->
  Intake.admission int4in rejects Date_parse toISOString (Date_now env) between b st
  = mkRun [EvLog LError "PostgreSQL Query Error:"; EvLog LError "Query:";
           EvLog LError "Params:"]
          (between st) (Throw e).
Proof.
  intros Hfree Hrow Hins. unfold Intake.admission, bind. rewrite Hv. cbn.
  unfold Intake.executeQuery, try_catch, query, Intake.select_by_jersey.
  rewrite Hn. cbn. unfold wears in Hfree. rewrite Hfree. cbn.
  rewrite Hrow. cbn. rewrite Hins. cbn. reflexivity.
Qed.

End Duplicate.

(** C1, amended: in the intake server, a submission that passes
    validation and whose jersey number the store reads as the number of
    an order it holds is answered 409 by the pre-insert check, the
    message naming the number as submitted and the holder, and the table
    is unchanged.  When the check finds nothing and the insert is refused
    with SQLSTATE 23505, as the unique index does once a row with the
    number has appeared in between, the answer is 409 with the message
    "Jersey number is already taken", which does not name the number;
    no row is added and no email is handed over. *)
Theorem duplicate_jersey_is_conflict
  (int4in : string -> option Z) (rejects : Intake.Order -> option Exn)
  (Date_parse : Val -> option Z) (toISOString : Z -> string)
  (env : Env) (between : Intake.Store -> Intake.Store)
  (b : Body) (st : Intake.Store) (n : Z)
  (Hv : Intake.validate b st = mkRun [] st (Value Intake.Accepted))
  (Hn : int4in (to_string (field b "jerseyNumber")) = Some n) :
  let r := Intake.postOrders int4in rejects Date_parse toISOString env between b st in
  (forall holder rest,
     List.filter (wears n) (Intake.orders st) = holder :: rest ->
     r = mkRun [EvRespond
                  (mkResponse 409
                     (JObj [("error",
                             JStr ("Jersey number " +:+ to_string (field b "jerseyNumber")
                                   +:+ " is already taken by " +:+ Intake.name holder))]))]
               st (Value Intake.nothing_pending))
  /\ (forall row e,
        List.filter (wears n) (Intake.orders st) = [] ->
        Intake.insertParams Date_parse toISOString (Date_now env) b (between st)
        = mkRun [] (between st) (Value row) ->
        Intake.insert_order int4in rejects (to_string (field b "jerseyNumber")) row
                            (between st) = Throw e ->
        exn_code e = Some "23505" ->
        response_of (trace r) = Some taken_generic
        /\ store r = between st
        /\ mails_of (trace r) = [])
  /\ (forall row,
        rejects (row (Intake.next_id (between st)) n (Intake.clock (between st))) = None ->
        existsb (wears n) (Intake.orders (between st)) = true ->
        Intake.insert_order int4in rejects (to_string (field b "jerseyNumber")) row
                            (between st) = Throw Intake.unique_violation).
Proof.
  intros r. unfold r. rewrite postOrders_run. cbv zeta.
  split; [| split].
  - intros holder rest Hdup.
    rewrite (admission_finds_holder int4in rejects Date_parse toISOString env between b st n
               Hv Hn holder rest Hdup).
    reflexivity.
  - intros row e Hfree Hrow Hins Hcode.
    rewrite (admission_hits_constraint int4in rejects Date_parse toISOString env between b st n
               Hv Hn row e Hfree Hrow Hins).
    cbn [result trace store]. unfold failure. rewrite Hcode.
    rewrite bool_decide_eq_true_2 by reflexivity.
    split; [reflexivity | split; reflexivity].
  - intros row Hok Hdup. unfold Intake.insert_order. rewrite Hn. cbv zeta.
    rewrite Hok. unfold wears in Hdup. rewrite Hdup. reflexivity.
Qed.

(** Alice's order as the intake server stores it, and the table holding
    it. *)
Definition alice_row : Intake.Order :=
  Intake.mkOrder 1 "Alice" "ICE-21-007" 7 None "M" "round" "short"
                 "alice@example.com" None None "450" "2025-03-01 10:00:00" "ICE"
                 "pending" 3 3.

Definition alice_admitted : Intake.Store := Intake.mkStore [alice_row] 2 4.

Definition iso_sample (t : Z) : string := "2025-03-01T10:00:00.000Z".

Lemma duplicate_jersey_is_conflict_witness :
  Intake.postOrders int4in_plain (fun _ => None) (fun _ => None) iso_sample
                    quiet (fun s => s) alice alice_admitted
  = mkRun [EvRespond (mkResponse 409
                        (JObj [("error", JStr "Jersey number 7 is already taken by Alice")]))]
          alice_admitted (Value Intake.nothing_pending)
  /\ (let r := Intake.postOrders int4in_plain (fun _ => None) (fun _ => None) iso_sample
                 quiet (fun _ => alice_admitted) alice (Intake.mkStore [] 1 0) in
      response_of (trace r) = Some taken_generic
      /\ store r = alice_admitted
      /\ mails_of (trace r) = []).
Proof.
  split.
  - pose proof (duplicate_jersey_is_conflict int4in_plain (fun _ => None) (fun _ => None)
                  iso_sample quiet (fun s => s) alice alice_admitted 7
                  eq_refl eq_refl) as H.
    cbv zeta in H. destruct H as (H & _).
    apply (H alice_row []). reflexivity.
  - pose proof (duplicate_jersey_is_conflict int4in_plain (fun _ => None) (fun _ => None)
                  iso_sample quiet (fun _ => alice_admitted) alice (Intake.mkStore [] 1 0) 7
                  eq_refl eq_refl) as H.
    cbv zeta in H. destruct H as (_ & H & _).
    apply (H (fun i n now =>
                Intake.mkOrder i "Alice" "ICE-21-007" n None "M" "round" "short"
                               "alice@example.com" None None "450"
                               "2025-03-01 10:00:00" "ICE" "pending" now now)
             Intake.unique_violation); reflexivity.
Defined.

(* ===================================================================== *)
(** ** Email dispatch and the response                                   *)
(* ===================================================================== *)




Lemma response_after_quiet t r post :
  forallb (fun e => negb (is_respond e)) t = true ->
  response_of (t ++ EvRespond r :: post) = Some r.
Proof.
  intros H. rewrite response_of_app by exact H. reflexivity.
Qed.

Lemma merge_keeps (x : Event) sched : forall l1 l2,
  In x l1 \/ In x l2 -> In x (Intake.merge sched l1 l2).
Proof.
  induction sched as [| [|] sched IH]; intros l1 l2 H; cbn.
  - apply in_or_app. exact H.
  - destruct l1 as [| y l1]; [destruct H as [[] | H]; exact H |].
    destruct H as [[-> | H] | H]; [left; reflexivity | |]; right; apply IH; tauto.
  - destruct l2 as [| y l2]; [destruct H as [H | []]; exact H |].
    destruct H as [H | [-> | H]]; [| left; reflexivity |]; right; apply IH; tauto.
Qed.

Lemma merge_mails sched : forall l1 l2,
  mails_of l1 = [] -> mails_of l2 = [] -> mails_of (Intake.merge sched l1 l2) = [].
Proof.
  induction sched as [| [|] sched IH]; intros l1 l2 H1 H2; cbn.
  - rewrite mails_of_app, H1, H2. reflexivity.
  - destruct l1 as [| y l1]; [exact H2 |].
    destruct y; cbn in *; try discriminate; apply IH; assumption.
  - destruct l2 as [| y l2]; [exact H1 |].
    destruct y; cbn in *; try discriminate; apply IH; assumption.
Qed.

(** *** The two background sends of the intake server *)

Lemma sendEmailViaBrevo_sync env m :
  Intake.sync (Intake.sendEmailViaBrevo env m)
  = EvSendEmail m ::
    (if env_truthy (BREVO_API_KEY env) then [EvFetch m]
     else [EvLog LWarn "Brevo API key not configured, skipping email"]).
Proof.
  unfold Intake.sendEmailViaBrevo.
  destruct (env_truthy (BREVO_API_KEY env)); cbn; [| reflexivity].
  destruct (fetch env m) as [reason | [|] [body |]]; reflexivity.
Qed.

(** The promise of [sendEmailViaBrevo] never rejects. *)
Lemma sendEmailViaBrevo_settles env m :
  exists res, Intake.settles (Intake.sendEmailViaBrevo env m) = Value res.
Proof.
  unfold Intake.sendEmailViaBrevo.
  destruct (env_truthy (BREVO_API_KEY env)); cbn; [| eexists; reflexivity].
  destruct (fetch env m) as [reason | [|] [body |]]; eexists; reflexivity.
Qed.


Lemma sendEmailViaBrevo_deferred_no_mail env m :
  mails_of (Intake.deferred (Intake.sendEmailViaBrevo env m)) = [].
Proof.
  unfold Intake.sendEmailViaBrevo.
  destruct (env_truthy (BREVO_API_KEY env)); cbn; [| reflexivity].
  destruct (fetch env m) as [reason | [|] [body |]]; reflexivity.
Qed.

Section Reported.

Variables failed crashed : string.
Variable t : Intake.Task Intake.SendResult.

Lemma report_sync : Intake.sync (Intake.await_and_report failed crashed t) = Intake.sync t.
Proof. unfold Intake.await_and_report. destruct (Intake.settles t); reflexivity. Qed.

Lemma report_settles :
  exists res, Intake.settles (Intake.await_and_report failed crashed t) = Value res.
Proof.
  unfold Intake.await_and_report. destruct (Intake.settles t); eexists; reflexivity.
Qed.

Lemma report_deferred :
  exists logs,
    Intake.deferred (Intake.await_and_report failed crashed t) = Intake.deferred t ++ logs
    /\ forallb is_log logs = true.
Proof.
  unfold Intake.await_and_report.
  destruct (Intake.settles t) as [res | e]; cbn.
  - destruct (Intake.success res); eexists; split; reflexivity.
  - eexists; split; reflexivity.
Qed.

End Reported.

Definition intake_confirmation (b : Body) : Mail :=
  mkMail (to_string (field b "email"))
         "ICE Jersey Order Confirmation - Order Received" OrderReceived.

Definition intake_alert (env : Env) (b : Body) : Mail :=
  mkMail (if env_truthy (ADMIN_EMAIL env)
          then default "" (ADMIN_EMAIL env)
          else "sheikhnoorabdullah02@gmail.com")
         ("New Jersey Order - " +:+ to_string (field b "name") +:+ " (#"
          +:+ to_string (field b "jerseyNumber") +:+ ")")
         AdminAlert.

(** What the handler has put on the trace when it writes the 201: both
    messages handed over, none settled. *)
Lemma dispatch_sync env b :
  let started := Intake.sync (Intake.sendConfirmationEmail env b)
                 ++ Intake.sync (Intake.sendAdminNotification env b) in
  mails_of started = [intake_confirmation b; intake_alert env b]
  /\ forallb (fun e => negb (is_settle e)) started = true
  /\ forallb (fun e => negb (is_respond e)) started = true.
Proof.
  unfold Intake.sendConfirmationEmail, Intake.sendAdminNotification.
  cbv zeta. rewrite !report_sync, !sendEmailViaBrevo_sync.
  fold (intake_confirmation b). fold (intake_alert env b).
  destruct (env_truthy (BREVO_API_KEY env)); cbn; repeat split; reflexivity.
Qed.

Lemma nothing_rejected env b :
  Intake.report_rejected (Intake.sendConfirmationEmail env b)
                         (Intake.sendAdminNotification env b) = [].
Proof.
  unfold Intake.report_rejected, Intake.sendConfirmationEmail,
    Intake.sendAdminNotification.
  destruct (report_settles "Failed to send confirmation email:"
              "Error sending confirmation email:"
              (Intake.sendEmailViaBrevo env (intake_confirmation b))) as [r1 H1].
  destruct (report_settles "Failed to send admin notification:"
              "Error sending admin notification:"
              (Intake.sendEmailViaBrevo env (intake_alert env b))) as [r2 H2].
  unfold intake_confirmation in H1. unfold intake_alert in H2.
  rewrite H1, H2. reflexivity.
Qed.

Lemma admin_rejection_code b r : Admin.validate b = inl r -> code r = 400.
Proof.
  unfold Admin.validate.
  repeat match goal with
         | |- context [if ?c then _ else _] => destruct c
         | |- context [match ?c with Some _ => _ | None => _ end] => destruct c
         end; intros H; inversion H; reflexivity.
Qed.

Lemma intake_rejection_code b st r :
  result (Intake.validate b st) = Value (Intake.Rejected r) -> code r = 400.
Proof.
  unfold Intake.validate.
  destruct (Intake.missingFields b).
  - destruct (parseInt (field b "jerseyNumber")) as [jerseyNum |].
    + destruct ((jerseyNum <? 1) || (jerseyNum >? 99)).
      * cbn. intros H; inversion H; reflexivity.
      * unfold bind, call_trim. destruct (field b "email") as [| | | | | e]; cbn;
          try discriminate.
        destruct (re_match emailRegex (trim e)); cbn; intros H; inversion H; reflexivity.
    + cbn. intros H; inversion H; reflexivity.
  - cbn. intros H; inversion H; reflexivity.
Qed.

Section IntakeAnswers.

Variable int4in : string -> option Z.
Variable rejects : Intake.Order -> option Exn.
Variable Date_parse : Val -> option Z.
Variable toISOString : Z -> string.

Abbreviation admission' := (Intake.admission int4in rejects Date_parse toISOString).
Abbreviation postOrders' := (Intake.postOrders int4in rejects Date_parse toISOString).
Abbreviation postOrders_trace' :=
  (Intake.postOrders_trace int4in rejects Date_parse toISOString).

(** An early return of [admission] is a 400 or the 409 of the duplicate
    check. *)
Lemma early_return_code now between b st resp :
  result (admission' now between b st) = Value (inl resp) ->
  code resp = 400 \/ code resp = 409.
Proof.
  unfold Intake.admission. unfold bind at 1.
  destruct (Intake.validate b st) as [t0 s0 [[r |] | e]] eqn:Ev; cbn [result trace store].
  - cbn. intros H; inversion H; subst. left.
    apply (intake_rejection_code b st). rewrite Ev. reflexivity.
  - unfold bind at 1.
    destruct (Intake.executeQuery _ s0) as [t1 s1 [[| holder rest] | e]];
      cbn [result trace store].
    + unfold bind at 1.
      destruct (query _ s1) as [t2 s2 [[] | e]]; cbn [result trace store];
        [| discriminate].
      unfold bind at 1.
      destruct (Intake.insertParams _ _ _ _ s2) as [t3 s3 [row | e]];
        cbn [result trace store]; [| discriminate].
      unfold bind at 1.
      destruct (Intake.executeQuery _ s3) as [t4 s4 [order | e]];
        cbn; discriminate.
    + cbn. intros H; inversion H. right. reflexivity.
    + discriminate.
  - discriminate.
Qed.

(** What the handler answers, by the way [admission] ended. *)
Definition answer (now : Z) (b : Body) (a : Result (Response + Intake.Order)) : Response :=
  match a with
  | Value (inl resp) => resp
  | Value (inr order) => mkResponse 201 (Intake.created now b order)
  | Throw e => failure e
  end.

Lemma intake_response env between b st :
  let r := postOrders' env between b st in
  let a := admission' (Date_now env) between b st in
  response_of (trace r) = Some (answer (Date_now env) b (result a))
  /\ store r = store a.
Proof.
  cbv zeta. rewrite postOrders_run. cbv zeta.
  pose proof (logs_only_admission int4in rejects Date_parse toISOString
                (Date_now env) between b st) as Hlogs.
  destruct (admission' (Date_now env) between b st) as [t s' [[resp | order] | e]];
    cbn [result trace store answer] in *.
  - split; [| reflexivity]. apply response_after_quiet, logs_no_response, Hlogs.
  - split; [| reflexivity].
    rewrite !app_assoc, <- (app_assoc t).
    apply response_after_quiet. rewrite forallb_app.
    rewrite (logs_no_response _ Hlogs). apply dispatch_sync.
  - split; [| reflexivity].
    change (t ++ [EvLog LError "Error creating order:"; EvRespond (failure e)])
      with (t ++ [EvLog LError "Error creating order:"] ++ [EvRespond (failure e)]).
    rewrite app_assoc. apply response_after_quiet. rewrite forallb_app.
    rewrite (logs_no_response _ Hlogs). reflexivity.
Qed.

Lemma failure_code e : code (failure e) = 409 \/ code (failure e) = 500.
Proof.
  unfold failure. destruct (bool_decide (exn_code e = Some "23505")); cbn; tauto.
Qed.

(** The whole trace of a request, background included. *)
Lemma postOrders_trace_run env between sched b st :
  postOrders_trace' env between sched b st =
  let a := admission' (Date_now env) between b st in
  match result a with
  | Value (inr order) =>
      (trace a ++ Intake.sync (Intake.sendConfirmationEmail env b)
               ++ Intake.sync (Intake.sendAdminNotification env b))
      ++ EvRespond (mkResponse 201 (Intake.created (Date_now env) b order))
      :: Intake.merge sched (Intake.deferred (Intake.sendConfirmationEmail env b))
                            (Intake.deferred (Intake.sendAdminNotification env b))
  | Value (inl resp) => trace a ++ EvRespond resp :: []
  | Throw e =>
      (trace a ++ [EvLog LError "Error creating order:"]) ++ EvRespond (failure e) :: []
  end.
Proof.
  unfold Intake.postOrders_trace. rewrite postOrders_run. cbv zeta.
  destruct (admission' (Date_now env) between b st) as [t s' [[resp | order] | e]];
    cbn [result trace store Intake.first Intake.second Intake.after_both
         Intake.nothing_pending].
  - destruct sched as [| [|] sched]; cbn; rewrite ?app_nil_r; reflexivity.
  - rewrite nothing_rejected, app_nil_r, <- !app_assoc. reflexivity.
  - destruct sched as [| [|] sched]; cbn; rewrite ?app_nil_r, <- ?app_assoc; reflexivity.
Qed.

End IntakeAnswers.


Lemma notify_events_no_response env b order :
  forallb (fun e => negb (is_respond e)) (notify_events env b order) = true.
Proof.
  unfold notify_events. rewrite forallb_app, sendEmail_no_response.
  destruct (env_truthy (ADMIN_EMAIL env)); [apply sendEmail_no_response | reflexivity].
Qed.

Lemma deferred_mails env (failed crashed : string) m :
  mails_of (Intake.deferred (Intake.await_and_report failed crashed
                               (Intake.sendEmailViaBrevo env m))) = [].
Proof.
  destruct (report_deferred failed crashed (Intake.sendEmailViaBrevo env m))
    as (logs & -> & Hlogs).
  rewrite mails_of_app, sendEmailViaBrevo_deferred_no_mail.
  apply (logs_no_mail _ Hlogs).
Qed.






(* ===================================================================== *)
(** ** Email failures and the request                                    *)
(* ===================================================================== *)

(** The same environment with another API key and another network. *)
Definition with_mail (key : option string) (net : Mail -> FetchResult) (env : Env) : Env :=
  mkEnv key (ADMIN_EMAIL env) net (Date_now env).

Definition invalid_status : Response :=
  mkResponse 400 (JObj [("error", JStr "Invalid status. Only pending/done allowed.")]).

Definition update_failed : Response :=
  mkResponse 500 (JObj [("error", JStr "Failed to update status")]).

(** What a status update answers and leaves in the store; the
    environment has no part in it. *)
Definition patch_outcome (int4in : string -> option Z) (idtxt : string) (b : Body)
    (st : Admin.Store) : Response * Admin.Store :=
  match Admin.allowed_status (field b "status") with
  | None => (invalid_status, st)
  | Some s =>
      match int4in idtxt with
      | None => (update_failed, st)
      | Some i =>
          match List.filter (has_id i) (Admin.orders st) with
          | [] => (not_found, st)
          | _ :: _ =>
              (status_updated s,
               Admin.mkStore (map (touch i s st) (Admin.orders st))
                             (Admin.next_id st) (Admin.clock st))
          end
      end
  end.

Lemma patchStatus_outcome int4in env idtxt b st :
  let r := Admin.patchStatus int4in env idtxt b st in
  response_of (trace r) = Some (fst (patch_outcome int4in idtxt b st))
  /\ store r = snd (patch_outcome int4in idtxt b st)
  /\ result r = Value tt.
Proof.
  cbv zeta. unfold patch_outcome.
  destruct (Admin.allowed_status (field b "status")) as [s |] eqn:Hs.
  - destruct (int4in idtxt) as [i |] eqn:Hid.
    + destruct (List.filter (has_id i) (Admin.orders st)) as [| order rest] eqn:Hrows.
      * rewrite (patchStatus_absent int4in env idtxt i Hid b st s Hs Hrows).
        repeat split; reflexivity.
      * rewrite (patchStatus_run int4in env idtxt i Hid b st s order rest Hs Hrows).
        cbn [trace store result fst snd]. repeat split; try reflexivity.
        destruct (turns_done s order); [| reflexivity].
        rewrite response_of_app by apply sendEmail_no_response. reflexivity.
    + unfold Admin.patchStatus, try_catch, try_finally, bind, query,
        Admin.select_by_id, Admin.client_end, ret.
      rewrite Hs, Hid. cbn. repeat split; reflexivity.
  - unfold Admin.patchStatus, try_catch. rewrite Hs. cbn. repeat split; reflexivity.
Qed.

(** What the admin server answers to a submission and leaves in the
    store. *)
Definition admin_outcome (rejects : Admin.Order -> option Exn) (b : Body)
    (st : Admin.Store) : Response * Admin.Store :=
  match Admin.validate b with
  | inl r => (r, st)
  | inr jerseyNum =>
      let r := Admin.insert_new rejects b jerseyNum st in
      match result r with
      | Value order => (mkResponse 201 (Admin.created order), store r)
      | Throw _ => (submission_failed, store r)
      end
  end.

Lemma admin_postOrders_outcome rejects env b st :
  let r := Admin.postOrders rejects env b st in
  response_of (trace r) = Some (fst (admin_outcome rejects b st))
  /\ store r = snd (admin_outcome rejects b st)
  /\ result r = Value tt.
Proof.
  cbv zeta. rewrite admin_postOrders_run. unfold admin_outcome.
  destruct (Admin.validate b) as [r0 | jerseyNum]; [repeat split; reflexivity |].
  cbv zeta.
  pose proof (logs_only_insert_new rejects b jerseyNum st) as Hins.
  destruct (Admin.insert_new rejects b jerseyNum st) as [ti si [order | e]];
    cbn [result trace store fst snd] in *; repeat split; try reflexivity.
  - rewrite app_assoc. apply response_after_quiet.
    rewrite forallb_app, (logs_no_response _ Hins). apply notify_events_no_response.
  - change (ti ++ [EvLog LError "Order submission error:"; EvRespond submission_failed])
      with (ti ++ [EvLog LError "Order submission error:"] ++ [EvRespond submission_failed]).
    rewrite app_assoc. apply response_after_quiet.
    rewrite forallb_app, (logs_no_response _ Hins). reflexivity.
Qed.

Lemma intake_trace_response int4in rejects Date_parse toISOString env between sched b st :
  response_of (Intake.postOrders_trace int4in rejects Date_parse toISOString
                 env between sched b st)
  = Some (answer (Date_now env) b
            (result (Intake.admission int4in rejects Date_parse toISOString
                       (Date_now env) between b st))).
Proof.
  rewrite postOrders_trace_run. cbv zeta.
  pose proof (logs_only_admission int4in rejects Date_parse toISOString
                (Date_now env) between b st) as Hlogs.
  pose proof (dispatch_sync env b) as Hsync. cbv zeta in Hsync.
  destruct Hsync as (_ & _ & Hnoresp).
  destruct (Intake.admission int4in rejects Date_parse toISOString
              (Date_now env) between b st) as [ta s' [[resp | order] | e]];
    cbn [result trace store answer] in *; apply response_after_quiet.
  - apply logs_no_response, Hlogs.
  - rewrite forallb_app, (logs_no_response _ Hlogs). exact Hnoresp.
  - rewrite forallb_app, (logs_no_response _ Hlogs). reflexivity.
Qed.

(** *** Which failures of a send leave a line in the log *)

Lemma sent_is_mail (m : Mail) (t : list Event) :
  In (EvSendEmail m) t <-> In m (mails_of t).
Proof.
  induction t as [| e t IH]; [tauto |].
  destruct e; cbn; rewrite <- IH; split; intros H;
    try (destruct H as [H | H]; [discriminate H | exact H]);
    try (right; exact H).
  - destruct H as [H | H]; [injection H as ->; left; reflexivity | right; exact H].
  - destruct H as [-> | H]; [left; reflexivity | right; exact H].
Qed.

Lemma logs_send_nothing (t : list Event) (m : Mail) :
  forallb is_log t = true -> ~ In (EvSendEmail m) t.
Proof.
  intros Hlogs Hin. apply sent_is_mail in Hin.
  rewrite (proj1 (logs_no_mail t Hlogs)) in Hin. destruct Hin.
Qed.

(** The messages whose send fails for want of a key or by a rejected
    request have their line in the trace [t] of the request, in the
    words of the admin server. *)
Definition admin_failures_logged (env : Env) (t : list Event) : Prop :=
  forall m, In (EvSendEmail m) t ->
    (env_truthy (BREVO_API_KEY env) = false ->
       In (EvLog LWarn "Email service not configured") t)
    /\ (forall reason,
          env_truthy (BREVO_API_KEY env) = true -> fetch env m = FetchRejects reason ->
          In (EvLog LError ("Email error: " +:+ reason)) t).

(** The same in the words of the intake server, where every send that
    does not end with a message id is a failure. *)
Definition intake_failures_logged (env : Env) (t : list Event) : Prop :=
  forall m, In (EvSendEmail m) t ->
    (env_truthy (BREVO_API_KEY env) = false ->
       In (EvLog LWarn "Brevo API key not configured, skipping email") t)
    /\ (env_truthy (BREVO_API_KEY env) = true ->
        (forall messageId, fetch env m <> FetchResponds true (Some messageId)) ->
        In (EvLog LError "Error sending email via Brevo:") t).

Definition no_log (t : list Event) : bool := forallb (fun e => negb (is_log e)) t.

Lemma no_log_app t1 t2 : no_log (t1 ++ t2) = no_log t1 && no_log t2.
Proof. apply forallb_app. Qed.

Lemma admin_sendEmail_logged env m :
  admin_failures_logged env (fst (Admin.sendEmail env m)).
Proof.
  intros m' Hin. unfold Admin.sendEmail in *.
  destruct (env_truthy (BREVO_API_KEY env)); cbn [negb] in *.
  - destruct (fetch env m) as [reason | ok body] eqn:Ef; cbn [fst] in *.
    + destruct Hin as [[= <-] | [H | [H | [H | []]]]]; try discriminate H.
      split; [intros H; discriminate H |].
      intros reason' _ Hr. rewrite Ef in Hr. injection Hr as <-.
      right. right. right. left. reflexivity.
    + destruct Hin as [[= <-] | [H | [H | []]]]; try discriminate H.
      split; [intros H; discriminate H |].
      intros reason' _ Hr. rewrite Ef in Hr. discriminate Hr.
  - cbn [fst] in *. split; [intros _; right; left; reflexivity |].
    intros reason H; discriminate H.
Qed.

Lemma admin_sendEmail_hands_over env m :
  In (EvSendEmail m) (fst (Admin.sendEmail env m)).
Proof.
  unfold Admin.sendEmail. destruct (negb (env_truthy (BREVO_API_KEY env)));
    [left; reflexivity |].
  destruct (fetch env m); left; reflexivity.
Qed.

(** With a key, a send the transport answers leaves no line, whether
    the answer is a success or an error status. *)
Lemma admin_sendEmail_silent env m ok body :
  env_truthy (BREVO_API_KEY env) = true -> fetch env m = FetchResponds ok body ->
  no_log (fst (Admin.sendEmail env m)) = true /\ snd (Admin.sendEmail env m) = ok.
Proof.
  intros Hkey Hf. unfold Admin.sendEmail. rewrite Hkey, Hf. split; reflexivity.
Qed.

Lemma failures_logged_app env t0 t1 t2 :
  (forall m, ~ In (EvSendEmail m) t0) -> (forall m, ~ In (EvSendEmail m) t2) ->
  admin_failures_logged env t1 -> admin_failures_logged env (t0 ++ t1 ++ t2).
Proof.
  intros H0 H2 H1 m Hin.
  apply in_app_or in Hin as [Hin | Hin]; [destruct (H0 m Hin) |].
  apply in_app_or in Hin as [Hin | Hin]; [| destruct (H2 m Hin)].
  destruct (H1 m Hin) as [Hw He]. split.
  - intros Hk. apply in_or_app. right. apply in_or_app. left. exact (Hw Hk).
  - intros reason Hk Hr. apply in_or_app. right. apply in_or_app. left.
    exact (He reason Hk Hr).
Qed.

Lemma failures_logged_both env t1 t2 :
  admin_failures_logged env t1 -> admin_failures_logged env t2 ->
  admin_failures_logged env (t1 ++ t2).
Proof.
  intros H1 H2 m Hin. apply in_app_or in Hin as [Hin | Hin].
  - destruct (H1 m Hin) as [Hw He]. split.
    + intros Hk. apply in_or_app. left. exact (Hw Hk).
    + intros reason Hk Hr. apply in_or_app. left. exact (He reason Hk Hr).
  - destruct (H2 m Hin) as [Hw He]. split.
    + intros Hk. apply in_or_app. right. exact (Hw Hk).
    + intros reason Hk Hr. apply in_or_app. right. exact (He reason Hk Hr).
Qed.

Lemma nothing_sent_logged env t :
  (forall m, ~ In (EvSendEmail m) t) -> admin_failures_logged env t.
Proof. intros H m Hin. destruct (H m Hin). Qed.

Lemma notify_events_logged env b order :
  admin_failures_logged env (notify_events env b order).
Proof.
  unfold notify_events. apply failures_logged_both; [apply admin_sendEmail_logged |].
  destruct (env_truthy (ADMIN_EMAIL env)); [apply admin_sendEmail_logged |].
  apply nothing_sent_logged. intros m [].
Qed.

(** The insert of the admin server logs nothing itself. *)
Lemma insert_new_silent rejects b jerseyNum st :
  trace (Admin.insert_new rejects b jerseyNum st) = [].
Proof.
  unfold Admin.insert_new, bind, call_trim, Admin.opt_trim, query,
    Admin.insert_order, ret, throw.
  destruct (field b "name") as [| | ? | ? | ? | nm]; cbn [trace]; try reflexivity.
  destruct (field b "studentId") as [| | ? | ? | ? | sid]; cbn [trace]; try reflexivity.
  destruct (field b "batch") as [| | ? | ? | ? | bt]; cbn [trace]; try reflexivity.
  all: destruct (field b "email") as [| | ? | ? | ? | em]; cbn [trace]; try reflexivity.
  all: destruct (field b "transactionId") as [| | ? | ? | ? | tx]; cbn [trace];
    try reflexivity.
  all: destruct (field b "notes") as [| | ? | ? | ? | nt]; cbn [trace]; try reflexivity.
  all: cbv zeta;
    match goal with
    | |- context [match ?x with Some _ => _ | None => _ end] => destruct x
    end; reflexivity.
Qed.

(** The trace of a status update, by cases. *)
Lemma patchStatus_trace int4in env idtxt b st :
  trace (Admin.patchStatus int4in env idtxt b st)
  = match Admin.allowed_status (field b "status") with
    | None => [EvRespond invalid_status]
    | Some s =>
        match int4in idtxt with
        | None => [EvLog LError "Update status error:"; EvRespond update_failed]
        | Some i =>
            match List.filter (has_id i) (Admin.orders st) with
            | [] => [EvRespond not_found]
            | order :: _ =>
                (if turns_done s order
                 then fst (Admin.sendEmail env (status_mail order)) else [])
                ++ [EvRespond (status_updated s)]
            end
        end
    end.
Proof.
  destruct (Admin.allowed_status (field b "status")) as [s |] eqn:Hs.
  - destruct (int4in idtxt) as [i |] eqn:Hid.
    + destruct (List.filter (has_id i) (Admin.orders st)) as [| order rest] eqn:Hrows.
      * rewrite (patchStatus_absent int4in env idtxt i Hid b st s Hs Hrows). reflexivity.
      * rewrite (patchStatus_run int4in env idtxt i Hid b st s order rest Hs Hrows).
        reflexivity.
    + unfold Admin.patchStatus, try_catch, try_finally, bind, query,
        Admin.select_by_id, Admin.client_end, ret.
      rewrite Hs, Hid. reflexivity.
  - unfold Admin.patchStatus, try_catch. rewrite Hs. reflexivity.
Qed.

Section IntakeLogs.

Variable env : Env.
Variables failed crashed : string.
Variable m : Mail.

Abbreviation task := (Intake.await_and_report failed crashed
                        (Intake.sendEmailViaBrevo env m)).

Lemma intake_sync_sends m' : In (EvSendEmail m') (Intake.sync task) -> m' = m.
Proof.
  rewrite report_sync, sendEmailViaBrevo_sync.
  destruct (env_truthy (BREVO_API_KEY env)); intros [[= <-] | [H | []]];
    first [reflexivity | discriminate H].
Qed.

Lemma intake_deferred_sends_nothing m' : ~ In (EvSendEmail m') (Intake.deferred task).
Proof.
  intros Hin. apply sent_is_mail in Hin. rewrite deferred_mails in Hin. destruct Hin.
Qed.

Lemma intake_missing_key_warned :
  env_truthy (BREVO_API_KEY env) = false ->
  In (EvLog LWarn "Brevo API key not configured, skipping email") (Intake.sync task).
Proof.
  intros Hkey. rewrite report_sync, sendEmailViaBrevo_sync, Hkey. right. left. reflexivity.
Qed.

Lemma intake_failure_logged :
  env_truthy (BREVO_API_KEY env) = true ->
  (forall messageId, fetch env m <> FetchResponds true (Some messageId)) ->
  In (EvLog LError "Error sending email via Brevo:") (Intake.deferred task).
Proof.
  intros Hkey Hfail.
  destruct (report_deferred failed crashed (Intake.sendEmailViaBrevo env m))
    as (logs & -> & _).
  apply in_or_app. left.
  unfold Intake.sendEmailViaBrevo. rewrite Hkey. cbn [negb].
  destruct (fetch env m) as [reason | [|] [body |]] eqn:Ef; cbn [Intake.deferred];
    try (right; left; reflexivity).
  destruct (Hfail body eq_refl).
Qed.

End IntakeLogs.

(** An environment whose transport answers every request with an error
    status. *)
Definition refused : Env :=
  mkEnv (Some "xkeysib-1") (Some "staff@example.com")
        (fun _ => FetchResponds false (Some "Key not found")) 1700000000000.

(** C7, as stated, fails in the admin server: when the transport answers
    with an error status, [sendEmail] returns [{ success: false }]
    without a line in the log.  A submission and a status update under
    such a transport are answered 201 and 200, each send has failed, and
    their traces hold no log line at all; the intake server logs the
    same failure. *)
Lemma admin_swallows_a_refusal_unlogged :
  snd (Admin.sendEmail refused (Admin.confirmation_mail alice)) = false
  /\ option_map code
       (response_of (trace (Admin.postOrders (fun _ => None) refused alice empty_table)))
     = Some 201
  /\ mails_of (trace (Admin.postOrders (fun _ => None) refused alice empty_table)) <> []
  /\ no_log (trace (Admin.postOrders (fun _ => None) refused alice empty_table)) = true
  /\ option_map code
       (response_of (trace (Admin.patchStatus int4in_plain refused "1" set_done
                              (table [order_of_bob "pending"]))))
     = Some 200
  /\ mails_of (trace (Admin.patchStatus int4in_plain refused "1" set_done
                        (table [order_of_bob "pending"]))) <> []
  /\ no_log (trace (Admin.patchStatus int4in_plain refused "1" set_done
                      (table [order_of_bob "pending"]))) = true
  /\ In (EvLog LError "Error sending email via Brevo:")
        (Intake.postOrders_trace int4in_plain (fun _ => None) (fun _ => None)
           (fun _ => "2025-03-01T10:00:00.000Z") refused (fun s => s) [] alice
           (Intake.mkStore [] 1 0)).
Proof.
  repeat split; try (vm_compute; reflexivity); try (vm_compute; discriminate).
  vm_compute. tauto.
Qed.

(** C7, amended: whether the email service is configured and whatever
    the transport does, each of the three requests that send email
    answers the same and leaves the same store, and the promises of the
    sends never reject.  What is logged depends on the failure.  For
    every message a request hands over, a missing key is warned about
    and a rejected request to the transport is logged as an error, in the
    trace of that request, on both servers; the intake server logs every
    send that does not end with a message id.  The admin server logs
    nothing when the transport answers, also with an error status: with
    the key set and a transport that answers every request, a submission
    answered 201 and a status update answered 200 leave no log line.
    The messages are there to fail: a submission answered 201 has handed
    over its confirmation (and, on the intake server, the alert), and a
    status update that turns an order 'done' its payment message. *)
Theorem email_outcome_never_reaches_the_request
  (env : Env) (key : option string) (net : Mail -> FetchResult) :
  let env' := with_mail key net env in
  (forall rejects b st,
     response_of (trace (Admin.postOrders rejects env b st))
     = response_of (trace (Admin.postOrders rejects env' b st))
     /\ store (Admin.postOrders rejects env b st)
        = store (Admin.postOrders rejects env' b st)
     /\ result (Admin.postOrders rejects env b st) = Value tt)
  /\ (forall int4in idtxt b st,
        response_of (trace (Admin.patchStatus int4in env idtxt b st))
        = response_of (trace (Admin.patchStatus int4in env' idtxt b st))
        /\ store (Admin.patchStatus int4in env idtxt b st)
           = store (Admin.patchStatus int4in env' idtxt b st)
        /\ result (Admin.patchStatus int4in env idtxt b st) = Value tt)
  /\ (forall int4in rejects Date_parse toISOString between sched sched' b st,
        response_of (Intake.postOrders_trace int4in rejects Date_parse toISOString
                       env between sched b st)
        = response_of (Intake.postOrders_trace int4in rejects Date_parse toISOString
                         env' between sched' b st)
        /\ store (Intake.postOrders int4in rejects Date_parse toISOString env between b st)
           = store (Intake.postOrders int4in rejects Date_parse toISOString env' between b st))
  /\ (forall rejects b st,
        admin_failures_logged env (trace (Admin.postOrders rejects env b st)))
  /\ (forall int4in idtxt b st,
        admin_failures_logged env (trace (Admin.patchStatus int4in env idtxt b st)))
  /\ (forall int4in rejects Date_parse toISOString between sched b st,
        intake_failures_logged env
          (Intake.postOrders_trace int4in rejects Date_parse toISOString
             env between sched b st))
  /\ (env_truthy (BREVO_API_KEY env) = true ->
      (forall m, exists ok body, fetch env m = FetchResponds ok body) ->
      (forall rejects b st r,
         response_of (trace (Admin.postOrders rejects env b st)) = Some r ->
         code r = 201 ->
         no_log (trace (Admin.postOrders rejects env b st)) = true)
      /\ (forall int4in idtxt b st r,
            response_of (trace (Admin.patchStatus int4in env idtxt b st)) = Some r ->
            code r = 200 ->
            no_log (trace (Admin.patchStatus int4in env idtxt b st)) = true))
  /\ ((forall rejects b st r,
         response_of (trace (Admin.postOrders rejects env b st)) = Some r ->
         code r = 201 ->
         In (EvSendEmail (Admin.confirmation_mail b))
            (trace (Admin.postOrders rejects env b st)))
      /\ (forall int4in idtxt i b st order rest,
            int4in idtxt = Some i -> field b "status" = VStr "done" ->
            List.filter (has_id i) (Admin.orders st) = order :: rest ->
            Admin.status order <> "done" ->
            In (EvSendEmail (status_mail order))
               (trace (Admin.patchStatus int4in env idtxt b st)))
      /\ (forall int4in rejects Date_parse toISOString between sched b st r,
            response_of (Intake.postOrders_trace int4in rejects Date_parse toISOString
                           env between sched b st) = Some r ->
            code r = 201 ->
            In (EvSendEmail (intake_confirmation b))
               (Intake.postOrders_trace int4in rejects Date_parse toISOString
                  env between sched b st)
            /\ In (EvSendEmail (intake_alert env b))
                  (Intake.postOrders_trace int4in rejects Date_parse toISOString
                     env between sched b st)))
  /\ (forall b, Intake.report_rejected (Intake.sendConfirmationEmail env b)
                                       (Intake.sendAdminNotification env b) = []).
Proof.
  cbv zeta.
  split; [| split; [| split; [| split; [| split; [| split; [| split; [| split]]]]]]].
  - intros rejects b st.
    destruct (admin_postOrders_outcome rejects env b st) as (R1 & S1 & V1).
    destruct (admin_postOrders_outcome rejects (with_mail key net env) b st) as (R2 & S2 & _).
    rewrite R1, R2, S1, S2. repeat split. exact V1.
  - intros int4in idtxt b st.
    destruct (patchStatus_outcome int4in env idtxt b st) as (R1 & S1 & V1).
    destruct (patchStatus_outcome int4in (with_mail key net env) idtxt b st) as (R2 & S2 & _).
    rewrite R1, R2, S1, S2. repeat split. exact V1.
  - intros int4in rejects Date_parse toISOString between sched sched' b st.
    rewrite !intake_trace_response. split; [reflexivity |].
    destruct (intake_response int4in rejects Date_parse toISOString env between b st)
      as [_ S1].
    destruct (intake_response int4in rejects Date_parse toISOString
                (with_mail key net env) between b st) as [_ S2].
    rewrite S1, S2. reflexivity.
  - intros rejects b st. rewrite admin_postOrders_run.
    destruct (Admin.validate b) as [r0 | n].
    { apply nothing_sent_logged. intros m [H | []]. discriminate H. }
    cbv zeta.
    pose proof (logs_only_insert_new rejects b n st) as Hins.
    destruct (Admin.insert_new rejects b n st) as [ti si [order | e]];
      cbn [result trace store] in *.
    + apply failures_logged_app;
        [intros m; apply logs_send_nothing; exact Hins
        | intros m [H | []]; discriminate H
        | apply notify_events_logged].
    + apply nothing_sent_logged. intros m Hin.
      apply in_app_or in Hin as [Hin | [H | [H | []]]]; try discriminate H.
      exact (logs_send_nothing ti m Hins Hin).
  - intros int4in idtxt b st. rewrite patchStatus_trace.
    destruct (Admin.allowed_status (field b "status")) as [s |].
    2: { apply nothing_sent_logged. intros m [H | []]. discriminate H. }
    destruct (int4in idtxt) as [i |].
    2: { apply nothing_sent_logged. intros m [H | [H | []]]; discriminate H. }
    destruct (List.filter (has_id i) (Admin.orders st)) as [| order rest].
    { apply nothing_sent_logged. intros m [H | []]. discriminate H. }
    apply (failures_logged_app env []);
      [intros m []
      | intros m [H | []]; discriminate H
      | destruct (turns_done s order);
        [apply admin_sendEmail_logged | apply nothing_sent_logged; intros m []]].
  - intros int4in rejects Date_parse toISOString between sched b st m.
    rewrite postOrders_trace_run. cbv zeta.
    pose proof (logs_only_admission int4in rejects Date_parse toISOString
                  (Date_now env) between b st) as Hlogs.
    destruct (Intake.admission int4in rejects Date_parse toISOString
                (Date_now env) between b st) as [ta s' [[resp | order] | e]];
      cbn [result trace store] in *.
    + intros Hin. apply in_app_or in Hin as [Hin | [H | []]]; [| discriminate H].
      destruct (logs_send_nothing ta m Hlogs Hin).
    + unfold Intake.sendConfirmationEmail, Intake.sendAdminNotification.
      fold (intake_confirmation b). fold (intake_alert env b).
      set (t1 := Intake.await_and_report _ _ (Intake.sendEmailViaBrevo env
                                                (intake_confirmation b))).
      set (t2 := Intake.await_and_report _ _ (Intake.sendEmailViaBrevo env
                                                (intake_alert env b))).
      intros Hin.
      assert (Hm : (m = intake_confirmation b /\ In (EvSendEmail m) (Intake.sync t1))
                   \/ (m = intake_alert env b /\ In (EvSendEmail m) (Intake.sync t2))).
      { apply in_app_or in Hin as [Hin | Hin].
        - apply in_app_or in Hin as [Hin | Hin];
            [destruct (logs_send_nothing ta m Hlogs Hin) |].
          apply in_app_or in Hin as [Hin | Hin].
          + left. split; [exact (intake_sync_sends env _ _ _ m Hin) | exact Hin].
          + right. split; [exact (intake_sync_sends env _ _ _ m Hin) | exact Hin].
        - destruct Hin as [H | Hin]; [discriminate H |].
          apply sent_is_mail in Hin.
          rewrite merge_mails in Hin by (apply deferred_mails). destruct Hin. }
      split.
      * intros Hkey. apply in_or_app. left. apply in_or_app. right.
        destruct Hm as [[-> _] | [-> _]]; apply in_or_app;
          [left | right]; apply intake_missing_key_warned; exact Hkey.
      * intros Hkey Hfail. apply in_or_app. right. right. apply merge_keeps.
        destruct Hm as [[-> _] | [-> _]]; [left | right];
          apply intake_failure_logged; assumption.
    + intros Hin. apply in_app_or in Hin as [Hin | [H | []]]; [| discriminate H].
      apply in_app_or in Hin as [Hin | [H | []]]; [| discriminate H].
      destruct (logs_send_nothing ta m Hlogs Hin).
  - intros Hkey Hanswers. split.
    + intros rejects b st r Hr H201. rewrite admin_postOrders_run in Hr |- *.
      destruct (Admin.validate b) as [r0 | n] eqn:Ev.
      { injection Hr as <-. rewrite (admin_rejection_code b r0 Ev) in H201.
        discriminate H201. }
      cbv zeta in Hr |- *.
      pose proof (insert_new_silent rejects b n st) as Hsilent.
      destruct (Admin.insert_new rejects b n st) as [ti si [order | e]];
        cbn [result trace store] in *; subst ti; cbn [app] in Hr |- *;
        [| injection Hr as <-; discriminate H201].
      rewrite no_log_app. unfold notify_events. rewrite no_log_app.
      destruct (Hanswers (Admin.confirmation_mail b)) as (ok & body & Hf).
      rewrite (proj1 (admin_sendEmail_silent env _ ok body Hkey Hf)).
      destruct (env_truthy (ADMIN_EMAIL env)); [| reflexivity].
      destruct (Hanswers (Admin.admin_mail env order)) as (ok' & body' & Hf').
      rewrite (proj1 (admin_sendEmail_silent env _ ok' body' Hkey Hf')). reflexivity.
    + intros int4in idtxt b st r Hr H200. rewrite patchStatus_trace in Hr |- *.
      destruct (Admin.allowed_status (field b "status")) as [s |];
        [| injection Hr as <-; discriminate H200].
      destruct (int4in idtxt) as [i |]; [| injection Hr as <-; discriminate H200].
      destruct (List.filter (has_id i) (Admin.orders st)) as [| order rest];
        [injection Hr as <-; discriminate H200 |].
      rewrite no_log_app.
      destruct (turns_done s order); [| reflexivity].
      destruct (Hanswers (status_mail order)) as (ok & body & Hf).
      rewrite (proj1 (admin_sendEmail_silent env _ ok body Hkey Hf)). reflexivity.
  - split; [| split].
    + intros rejects b st r Hr H201. rewrite admin_postOrders_run in Hr |- *.
      destruct (Admin.validate b) as [r0 | n] eqn:Ev.
      { injection Hr as <-. rewrite (admin_rejection_code b r0 Ev) in H201.
        discriminate H201. }
      cbv zeta in Hr |- *.
      pose proof (insert_new_silent rejects b n st) as Hsilent.
      destruct (Admin.insert_new rejects b n st) as [ti si [order | e]];
        cbn [result trace store] in *; subst ti; cbn [app] in Hr |- *;
        [| injection Hr as <-; discriminate H201].
      apply in_or_app. left. unfold notify_events. apply in_or_app. left.
      apply admin_sendEmail_hands_over.
    + intros int4in idtxt i b st order rest Hid Hb Hrows Hpending.
      assert (Hs : Admin.allowed_status (field b "status") = Some "done")
        by (rewrite Hb; reflexivity).
      rewrite (patchStatus_run int4in env idtxt i Hid b st "done" order rest Hs Hrows).
      cbn [trace]. apply in_or_app. left.
      assert (Ht : turns_done "done" order = true).
      { unfold turns_done. cbn. apply negb_true_iff, String.eqb_neq. exact Hpending. }
      rewrite Ht. apply admin_sendEmail_hands_over.
    + intros int4in rejects Date_parse toISOString between sched b st r Hr H201.
      rewrite intake_trace_response in Hr. injection Hr as <-.
      rewrite postOrders_trace_run. cbv zeta.
      pose proof (early_return_code int4in rejects Date_parse toISOString
                    (Date_now env) between b st) as Hearly.
      destruct (Intake.admission int4in rejects Date_parse toISOString
                  (Date_now env) between b st) as [ta s' [[resp | order] | e]];
        cbn [result trace store answer] in *.
      * destruct (Hearly resp eq_refl) as [H | H]; rewrite H in H201; discriminate H201.
      * unfold Intake.sendConfirmationEmail, Intake.sendAdminNotification.
        fold (intake_confirmation b). fold (intake_alert env b).
        split; apply in_or_app; left; apply in_or_app; right; apply in_or_app;
          [left | right]; rewrite report_sync, sendEmailViaBrevo_sync; left; reflexivity.
      * destruct (failure_code e) as [H | H]; rewrite H in H201; discriminate H201.
  - intros b. apply nothing_rejected.
Qed.

(** An environment whose transport is down. *)
Definition offline : Env :=
  mkEnv (Some "xkeysib-1") (Some "staff@example.com")
        (fun _ => FetchRejects "ECONNRESET") 1700000000000.

Lemma email_outcome_never_reaches_the_request_witness :
  In (EvLog LWarn "Email service not configured")
     (trace (Admin.postOrders (fun _ => None) quiet alice empty_table))
  /\ In (EvLog LError "Error sending email via Brevo:")
        (Intake.postOrders_trace int4in_plain (fun _ => None) (fun _ => None)
           (fun _ => "2025-03-01T10:00:00.000Z") offline (fun s => s) [true] alice
           (Intake.mkStore [] 1 0))
  /\ no_log (trace (Admin.postOrders (fun _ => None) refused alice empty_table)) = true
  /\ response_of (trace (Admin.postOrders (fun _ => None) online alice empty_table))
     = response_of (trace (Admin.postOrders (fun _ => None)
                             (with_mail (Some "xkeysib-1") (fun _ => FetchRejects "ECONNRESET")
                                        online)
                             alice empty_table)).
Proof.
  pose proof (email_outcome_never_reaches_the_request quiet None
                (fun _ => FetchRejects "x")) as Hquiet.
  pose proof (email_outcome_never_reaches_the_request offline None
                (fun _ => FetchRejects "x")) as Hoffline.
  pose proof (email_outcome_never_reaches_the_request refused None
                (fun _ => FetchRejects "x")) as Hrefused.
  pose proof (email_outcome_never_reaches_the_request online (Some "xkeysib-1")
                (fun _ => FetchRejects "ECONNRESET")) as Honline.
  cbv zeta in Hquiet, Hoffline, Hrefused, Honline.
  destruct Hquiet as (_ & _ & _ & Hq & _).
  destruct Hoffline as (_ & _ & _ & _ & _ & Ho & _).
  destruct Hrefused as (_ & _ & _ & _ & _ & _ & Hr & _).
  destruct Honline as (Hsame & _).
  split; [| split; [| split]].
  - assert (Hsent : In (EvSendEmail (Admin.confirmation_mail alice))
                       (trace (Admin.postOrders (fun _ => None) quiet alice empty_table)))
      by (vm_compute; left; reflexivity).
    destruct (Hq (fun _ => None) alice empty_table (Admin.confirmation_mail alice) Hsent)
      as [Hwarned _].
    exact (Hwarned eq_refl).
  - assert (Hsent : In (EvSendEmail (intake_confirmation alice))
                       (Intake.postOrders_trace int4in_plain (fun _ => None) (fun _ => None)
                          (fun _ => "2025-03-01T10:00:00.000Z") offline (fun s => s) [true]
                          alice (Intake.mkStore [] 1 0)))
      by (vm_compute; left; reflexivity).
    destruct (Ho int4in_plain (fun _ => None) (fun _ => None)
                (fun _ => "2025-03-01T10:00:00.000Z") (fun s => s) [true] alice
                (Intake.mkStore [] 1 0) (intake_confirmation alice) Hsent)
      as [_ Hlogged].
    apply Hlogged; [reflexivity | intros messageId H; discriminate H].
  - destruct Hr as [Hcreate _];
      [reflexivity | intros m; eexists; eexists; reflexivity |].
    apply (Hcreate (fun _ => None) alice empty_table
             (mkResponse 201
                (Admin.created
                   (Admin.mkOrder 1 "Alice" "ICE-21-007" "7" None "M" "round" "short"
                      "alice@example.com" None None "450" "pending" 0 0))));
      [vm_compute; reflexivity | reflexivity].
  - apply (Hsame (fun _ => None) alice empty_table).
Defined.

(* ===================================================================== *)
(** ** More of the runtime: trimming and decimal text                    *)
(* ===================================================================== *)

Definition first_char (s : string) : option ascii :=
  match s with
  | EmptyString => None
  | String c _ => Some c
  end.

Fixpoint last_char (s : string) : option ascii :=
  match s with
  | EmptyString => None
  | String c EmptyString => Some c
  | String _ r => last_char r
  end.

(** Neither end of the string is white space. *)
Definition clean_edges (s : string) : Prop :=
  (forall c, first_char s = Some c -> is_ws c = false)
  /\ (forall c, last_char s = Some c -> is_ws c = false).

Lemma trim_start_first s c :
  first_char (trim_start s) = Some c -> is_ws c = false.
Proof.
  induction s as [| a r IH]; cbn; [discriminate |].
  destruct (is_ws a) eqn:Ea; [exact IH |].
  cbn. intros [= <-]. exact Ea.
Qed.

Lemma trim_end_last s c :
  last_char (trim_end s) = Some c -> is_ws c = false.
Proof.
  revert c. induction s as [| a r IH]; intros c; cbn; [discriminate |].
  destruct (trim_end r) as [| a' r'] eqn:Er.
  - destruct (is_ws a) eqn:Ea; cbn; [discriminate |].
    intros [= <-]. exact Ea.
  - cbn. exact (IH c).
Qed.

Lemma trim_end_first s c :
  first_char (trim_end s) = Some c -> first_char s = Some c.
Proof.
  destruct s as [| a r]; cbn; [discriminate |].
  destruct (trim_end r); [destruct (is_ws a) |]; cbn; try discriminate; trivial.
Qed.

Lemma trim_start_fixed s :
  (forall c, first_char s = Some c -> is_ws c = false) -> trim_start s = s.
Proof.
  destruct s as [| a r]; cbn; [reflexivity |].
  intros H. rewrite (H a eq_refl). reflexivity.
Qed.

Lemma trim_end_cons a r :
  trim_end (String a r)
  = match trim_end r with
    | EmptyString => if is_ws a then EmptyString else String a EmptyString
    | String a' r' => String a (String a' r')
    end.
Proof. reflexivity. Qed.

Lemma trim_end_idempotent s : trim_end (trim_end s) = trim_end s.
Proof.
  induction s as [| a r IH]; [reflexivity |].
  rewrite (trim_end_cons a r).
  destruct (trim_end r) as [| a' r'] eqn:Er.
  - destruct (is_ws a) eqn:Ea; [reflexivity |].
    rewrite trim_end_cons. cbn. rewrite Ea. reflexivity.
  - rewrite trim_end_cons, IH. reflexivity.
Qed.

Lemma trim_clean_edges s : clean_edges (trim s).
Proof.
  unfold clean_edges, trim. split; intros c H.
  - apply (trim_start_first s), trim_end_first, H.
  - exact (trim_end_last _ c H).
Qed.

Lemma trim_idempotent s : trim (trim s) = trim s.
Proof.
  unfold trim at 1.
  rewrite trim_start_fixed by apply trim_clean_edges.
  unfold trim. apply trim_end_idempotent.
Qed.

(** *** Decimal text read back by [parseInt] *)

Fixpoint uint_value (d : Decimal.uint) (acc : Z) : Z :=
  match d with
  | Decimal.Nil => acc
  | Decimal.D0 l => uint_value l (acc * 10 + 0)
  | Decimal.D1 l => uint_value l (acc * 10 + 1)
  | Decimal.D2 l => uint_value l (acc * 10 + 2)
  | Decimal.D3 l => uint_value l (acc * 10 + 3)
  | Decimal.D4 l => uint_value l (acc * 10 + 4)
  | Decimal.D5 l => uint_value l (acc * 10 + 5)
  | Decimal.D6 l => uint_value l (acc * 10 + 6)
  | Decimal.D7 l => uint_value l (acc * 10 + 7)
  | Decimal.D8 l => uint_value l (acc * 10 + 8)
  | Decimal.D9 l => uint_value l (acc * 10 + 9)
  end.

Lemma uint_value_pos d : forall p,
  uint_value d (Z.pos p) = Z.pos (Pos.of_uint_acc d p).
Proof.
  induction d; intros p; cbn [uint_value Pos.of_uint_acc]; [reflexivity | ..];
    match goal with
    | |- uint_value _ ?a = Z.pos (Pos.of_uint_acc _ ?q) =>
        replace a with (Z.pos q) by lia; apply IHd
    end.
Qed.

Lemma uint_value_zero d : uint_value d 0 = Z.of_uint d.
Proof.
  unfold Z.of_uint.
  induction d; cbn [uint_value Pos.of_uint]; [reflexivity | exact IHd | ..];
    match goal with
    | |- uint_value _ ?a = _ =>
        let v := eval cbv in a in change a with v
    end; rewrite uint_value_pos; reflexivity.
Qed.

Lemma read_digits_uint d : forall acc,
  read_digits 10 (NilEmpty.string_of_uint d) (Some acc) = Some (uint_value d acc).
Proof.
  induction d; intros acc; cbn [NilEmpty.string_of_uint read_digits uint_value];
    [reflexivity | ..]; cbn; apply IHd.
Qed.

Lemma read_digits_start d :
  d <> Decimal.Nil ->
  read_digits 10 (NilEmpty.string_of_uint d) None = Some (uint_value d 0).
Proof.
  destruct d; intros H; [congruence | ..];
    cbn [NilEmpty.string_of_uint read_digits uint_value]; cbn;
    apply read_digits_uint.
Qed.

(** Decimal text has no white space, no sign and no [x] in it, so
    [parseInt] goes straight to its digits. *)
Lemma parseInt_decimal d :
  parseInt_string (NilZero.string_of_uint d) = Some (Z.of_uint d).
Proof.
  rewrite <- uint_value_zero.
  assert (Hgo : forall d', d' <> Decimal.Nil ->
            match read_digits 10 (NilEmpty.string_of_uint d') None with
            | Some n => Some n
            | None => None
            end = Some (uint_value d' 0)).
  { intros d' Hd. rewrite (read_digits_start d' Hd). reflexivity. }
  destruct d as [| d | d | d | d | d | d | d | d | d | d]; [reflexivity | | ..].
  2-10: match goal with
        | |- parseInt_string (NilZero.string_of_uint ?d') = _ =>
            apply (Hgo d' ltac:(discriminate))
        end.
  (* a leading 0: the next character is a digit or the end, never x *)
  destruct d; [reflexivity | ..];
    match goal with
    | |- parseInt_string (NilZero.string_of_uint ?d') = _ =>
        apply (Hgo d' ltac:(discriminate))
    end.
Qed.

Lemma parseInt_minus d :
  parseInt_string (String "-" (NilZero.string_of_uint d))
  = option_map Z.opp (parseInt_string (NilZero.string_of_uint d)).
Proof.
  assert (Hgo : forall d', d' <> Decimal.Nil ->
            match read_digits 10 (NilEmpty.string_of_uint d') None with
            | Some n => Some (- n)
            | None => None
            end
            = option_map Z.opp
                (match read_digits 10 (NilEmpty.string_of_uint d') None with
                 | Some n => Some n
                 | None => None
                 end)).
  { intros d' _. destruct (read_digits 10 (NilEmpty.string_of_uint d') None); reflexivity. }
  destruct d as [| d | d | d | d | d | d | d | d | d | d]; [reflexivity | | ..].
  2-10: match goal with
        | |- parseInt_string (String "-" (NilZero.string_of_uint ?d')) = _ =>
            apply (Hgo d' ltac:(discriminate))
        end.
  destruct d; [reflexivity | ..];
    match goal with
    | |- parseInt_string (String "-" (NilZero.string_of_uint ?d')) = _ =>
        apply (Hgo d' ltac:(discriminate))
    end.
Qed.

(** The decimal text of an integer is read back by [parseInt]. *)
Lemma parseInt_num_to_string n : parseInt_string (num_to_string n) = Some n.
Proof.
  unfold num_to_string.
  rewrite <- (DecimalZ.of_to n) at 2.
  destruct (Z.to_int n) as [d | d]; cbn [NilZero.string_of_int Z.of_int].
  - apply parseInt_decimal.
  - rewrite parseInt_minus, parseInt_decimal. reflexivity.
Qed.

(** Below 2^53 an integer is a Number and is printed in full. *)
Lemma number_to_string_small n :
  Z.abs n < 9007199254740992 -> number_to_string n = num_to_string n.
Proof.
  intros Hn. unfold number_to_string, nearest_double.
  apply Z.ltb_lt in Hn. cbv zeta. rewrite Hn, Hn. reflexivity.
Qed.


(* ===================================================================== *)
(** ** What the admin server keeps true of its table                     *)
(* ===================================================================== *)

(** An optional column is NULL or a non-empty text with clean edges. *)
Definition optional_ok (x : option string) : Prop :=
  forall s, x = Some s -> s <> "" /\ clean_edges s.

(** A row as the admin server writes rows. *)
Definition admin_row_ok (o : Admin.Order) : Prop :=
  (Admin.status o = "pending" \/ Admin.status o = "done")
  /\ (exists n, 0 <= n <= 500 /\ Admin.jersey_number o = num_to_string n)
  /\ clean_edges (Admin.name o) /\ clean_edges (Admin.student_id o)
  /\ clean_edges (Admin.email o)
  /\ optional_ok (Admin.batch o) /\ optional_ok (Admin.transaction_id o)
  /\ optional_ok (Admin.notes o).

(** The primary key: ids are distinct and below the counter. *)
Definition admin_keys_ok (st : Admin.Store) : Prop :=
  NoDup (List.map Admin.id (Admin.orders st))
  /\ Forall (fun o => Admin.id o < Admin.next_id st) (Admin.orders st).

Definition admin_table_ok (st : Admin.Store) : Prop :=
  admin_keys_ok st /\ Forall admin_row_ok (Admin.orders st).

Lemma or_null_ok s : optional_ok (or_null (trim s)).
Proof.
  unfold optional_ok, or_null. intros x.
  destruct (String.eqb (trim s) "") eqn:E; [discriminate |].
  intros [= <-]. split; [now apply String.eqb_neq | apply trim_clean_edges].
Qed.

Lemma none_ok : optional_ok None.
Proof. intros s H. discriminate. Qed.

(** The insert of the admin server, by its outcome: it throws and leaves
    the store, or it appends the row built from the trimmed fields. *)
Lemma insert_new_cases rejects b jerseyNum st :
  let r := Admin.insert_new rejects b jerseyNum st in
  trace r = []
  /\ ((exists e, result r = Throw e /\ store r = st)
      \/ (exists order,
            result r = Value order
            /\ store r = Admin.mkStore (Admin.orders st ++ [order])
                                       (Admin.next_id st + 1) (Admin.clock st)
            /\ rejects order = None
            /\ Admin.id order = Admin.next_id st
            /\ Admin.status order = "pending"
            /\ Admin.jersey_number order = number_to_string jerseyNum
            /\ Admin.created_at order = Admin.clock st
            /\ Admin.updated_at order = Admin.clock st
            /\ (exists s, field b "name" = VStr s /\ Admin.name order = trim s)
            /\ (exists s, field b "studentId" = VStr s /\ Admin.student_id order = trim s)
            /\ (exists s, field b "email" = VStr s /\ Admin.email order = trim s)
            /\ optional_ok (Admin.batch order)
            /\ optional_ok (Admin.transaction_id order)
            /\ optional_ok (Admin.notes order))).
Proof.
  cbv zeta. unfold Admin.insert_new, bind, call_trim, Admin.opt_trim, query,
    Admin.insert_order, ret, throw.
  destruct (field b "name") as [| | ? | ? | ? | nm]; cbn;
    try (split; [reflexivity | left; eexists; split; reflexivity]).
  destruct (field b "studentId") as [| | ? | ? | ? | sid]; cbn;
    try (split; [reflexivity | left; eexists; split; reflexivity]).
  destruct (field b "batch") as [| | ? | ? | ? | bt]; cbn;
    try (split; [reflexivity | left; eexists; split; reflexivity]).
  all: destruct (field b "email") as [| | ? | ? | ? | em]; cbn;
    try (split; [reflexivity | left; eexists; split; reflexivity]).
  all: destruct (field b "transactionId") as [| | ? | ? | ? | tx]; cbn;
    try (split; [reflexivity | left; eexists; split; reflexivity]).
  all: destruct (field b "notes") as [| | ? | ? | ? | nt]; cbn;
    try (split; [reflexivity | left; eexists; split; reflexivity]).
  all: match goal with
       | |- context [match ?x with Some _ => _ | None => _ end] =>
           destruct x eqn:Hrej
       end; cbn;
    [split; [reflexivity | left; eexists; split; reflexivity] |].
  all: split; [reflexivity | right; eexists; split; [reflexivity |]];
    cbn;
    split; [reflexivity |]; split; [exact Hrej |];
    do 5 (split; [reflexivity |]);
    do 3 (split; [eexists; split; reflexivity |]);
    do 2 (split; [first [apply none_ok | apply or_null_ok] |]);
    first [apply none_ok | apply or_null_ok].
Qed.

Lemma admin_validate_inr b n :
  Admin.validate b = inr n ->
  parseInt (field b "jerseyNumber") = Some n /\ 0 <= n <= 500
  /\ regex_test emailRegex (field b "email") = true
  /\ (forall k, In k Intake.requiredFields -> truthy (field b k) = true).
Proof.
  unfold Admin.validate.
  destruct (negb (truthy (field b "name")) || negb (truthy (field b "studentId"))
            || negb (truthy (field b "jerseyNumber")) || negb (truthy (field b "size"))
            || negb (truthy (field b "collarType")) || negb (truthy (field b "sleeveType"))
            || negb (truthy (field b "email")) || negb (truthy (field b "finalPrice")))
    eqn:Hpres; [discriminate |].
  destruct (regex_test emailRegex (field b "email")) eqn:Hre; cbn [negb]; [| discriminate].
  destruct (parseInt (field b "jerseyNumber")) as [m |]; [| discriminate].
  destruct ((m <? 0) || (m >? 500)) eqn:Hrange; [discriminate |].
  intros [= <-]. split; [reflexivity |]. split; [| split; [reflexivity |]].
  - apply orb_false_iff in Hrange as [H0 H500].
    apply Z.ltb_ge in H0. rewrite Z.gtb_ltb in H500. apply Z.ltb_ge in H500. lia.
  - repeat (apply orb_false_iff in Hpres as [Hpres ?]).
    unfold Intake.requiredFields. cbn [In].
    intros k Hk.
    repeat (destruct Hk as [<- | Hk]; [now apply negb_false_iff |]).
    destruct Hk.
Qed.

Lemma map_id_touch i s st (l : list Admin.Order) :
  List.map Admin.id (List.map (touch i s st) l) = List.map Admin.id l.
Proof.
  induction l as [| o l IH]; [reflexivity |]. cbn. rewrite IH. f_equal.
  unfold touch. destruct (Admin.id o =? i); reflexivity.
Qed.

Lemma NoDup_map_filter {A B} (f : A -> B) (p : A -> bool) (l : list A) :
  NoDup (List.map f l) -> NoDup (List.map f (List.filter p l)).
Proof.
  induction l as [| x l IH]; cbn; [trivial |].
  intros H. inversion H as [| ? ? Hnot Hrest]; subst.
  destruct (p x); [| exact (IH Hrest)].
  cbn. constructor; [| exact (IH Hrest)].
  intros Hin. apply Hnot. apply list_elem_of_In.
  apply list_elem_of_In, in_map_iff in Hin as (y & Hy & Hyin).
  apply in_map_iff. exists y. split; [exact Hy |].
  apply List.filter_In in Hyin. tauto.
Qed.

Lemma Forall_filter_keep {A} (P : A -> Prop) (p : A -> bool) (l : list A) :
  Forall P l -> Forall P (List.filter p l).
Proof.
  intros H. apply List.Forall_forall. intros x Hx.
  apply List.filter_In in Hx as [Hx _]. revert x Hx. now apply List.Forall_forall.
Qed.

Lemma touch_row_ok i s st o :
  s = "pending" \/ s = "done" -> admin_row_ok o -> admin_row_ok (touch i s st o).
Proof.
  intros Hs Ho. unfold touch. destruct (Admin.id o =? i); [| exact Ho].
  unfold admin_row_ok in *. cbn. tauto.
Qed.

Lemma allowed_status_some v s :
  Admin.allowed_status v = Some s -> v = VStr s /\ (s = "pending" \/ s = "done").
Proof.
  destruct v as [| | ? | ? | ? | x]; cbn; try discriminate.
  destruct (String.eqb x "pending") eqn:E1; cbn.
  - intros [= <-]. apply String.eqb_eq in E1. tauto.
  - destruct (String.eqb x "done") eqn:E2; [| discriminate].
    intros [= <-]. apply String.eqb_eq in E2. tauto.
Qed.

(** The store a delete leaves, whatever the id text. *)
Lemma deleteOrder_store int4in idtxt st :
  store (Admin.deleteOrder int4in idtxt st)
  = match int4in idtxt with
    | Some i => without i st
    | None => st
    end.
Proof.
  destruct (int4in idtxt) as [i |] eqn:Hid.
  - rewrite (deleteOrder_run int4in idtxt i Hid). reflexivity.
  - unfold Admin.deleteOrder, try_catch, try_finally, bind, query,
      Admin.delete_by_id, Admin.client_end, ret. rewrite Hid. reflexivity.
Qed.

Lemma getOrder_store int4in decimal_out timestamp_json idtxt st :
  store (Admin.getOrder int4in decimal_out timestamp_json idtxt st) = st.
Proof.
  destruct (int4in idtxt) as [i |] eqn:Hid.
  - rewrite (getOrder_run int4in decimal_out timestamp_json idtxt i Hid). reflexivity.
  - unfold Admin.getOrder, try_catch, try_finally, bind, query,
      Admin.select_by_id, Admin.client_end, ret. rewrite Hid. reflexivity.
Qed.

Lemma appended_keys_ok st order :
  admin_keys_ok st -> Admin.id order = Admin.next_id st ->
  admin_keys_ok (Admin.mkStore (Admin.orders st ++ [order])
                               (Admin.next_id st + 1) (Admin.clock st)).
Proof.
  intros [Hnd Hlt] Hid. unfold admin_keys_ok. cbn [Admin.orders Admin.next_id].
  split.
  - rewrite List.map_app. cbn [List.map].
    apply NoDup_app. split; [exact Hnd |].
    split; [| apply NoDup_singleton].
    intros x Hx Hx'. apply list_elem_of_In in Hx'. destruct Hx' as [<- | []].
    apply list_elem_of_In, in_map_iff in Hx as (o & Ho & Hin).
    rewrite List.Forall_forall in Hlt. specialize (Hlt o Hin). lia.
  - apply Forall_app. split.
    + eapply List.Forall_impl; [| exact Hlt]. cbn. intros o Ho. lia.
    + repeat constructor. cbn. lia.
Qed.

(** X1: the admin server keeps its table well formed.  From a table with
    distinct ids below the counter whose rows have an allowed status, a
    jersey number that is the decimal text of an integer in 0-500,
    trimmed name, student id and email, and optional columns that are
    NULL or non-empty, every request to create, update or delete leaves
    such a table, whatever the request holds and whatever the store and
    the email transport answer. *)
Theorem admin_requests_keep_the_table_ok
  (st : Admin.Store) (Hok : admin_table_ok st) :
  (forall rejects env b, admin_table_ok (store (Admin.postOrders rejects env b st)))
  /\ (forall int4in env idtxt b,
        admin_table_ok (store (Admin.patchStatus int4in env idtxt b st)))
  /\ (forall int4in idtxt, admin_table_ok (store (Admin.deleteOrder int4in idtxt st))).
Proof.
  destruct Hok as [[Hnd Hlt] Hrows]. split; [| split].
  - intros rejects env b.
    destruct (admin_postOrders_outcome rejects env b st) as (_ & -> & _).
    unfold admin_outcome.
    destruct (Admin.validate b) as [r | n] eqn:Ev; [repeat split; assumption |].
    cbv zeta.
    pose proof (insert_new_cases rejects b n st) as Hins. cbv zeta in Hins.
    destruct Hins as [_ [(e & -> & Hst) | (order & -> & Hst & _ & Hid & Hstatus & Hj
                                           & _ & _ & (nm & _ & Hnm) & (sid & _ & Hsid)
                                           & (em & _ & Hem) & Hb & Htx & Hnt)]];
      cbn [snd]; rewrite Hst; [repeat split; assumption |].
    split; [apply appended_keys_ok; [split; assumption | exact Hid] |].
    cbn [Admin.orders]. apply Forall_app. split; [exact Hrows |].
    constructor; [| constructor].
    destruct (admin_validate_inr b n Ev) as (_ & Hrange & _).
    unfold admin_row_ok. rewrite Hstatus, Hj, Hnm, Hsid, Hem.
    split; [left; reflexivity |].
    split; [exists n; split; [exact Hrange | apply number_to_string_small; lia] |].
    repeat (split; [apply trim_clean_edges |]).
    split; [exact Hb |]. split; [exact Htx | exact Hnt].
  - intros int4in env idtxt b.
    destruct (patchStatus_outcome int4in env idtxt b st) as (_ & -> & _).
    unfold patch_outcome.
    destruct (Admin.allowed_status (field b "status")) as [s |] eqn:Hs;
      [| repeat split; assumption].
    destruct (int4in idtxt) as [i |]; [| repeat split; assumption].
    destruct (List.filter (has_id i) (Admin.orders st)) as [| found others];
      [repeat split; assumption |].
    cbn [snd]. unfold admin_table_ok, admin_keys_ok. cbn [Admin.orders Admin.next_id].
    rewrite map_id_touch.
    destruct (allowed_status_some _ _ Hs) as [_ Hall].
    split; [split; [exact Hnd |] |].
    + apply List.Forall_forall. intros o' Ho'. apply in_map_iff in Ho' as (o & <- & Ho).
      rewrite List.Forall_forall in Hlt. specialize (Hlt o Ho).
      unfold touch. destruct (Admin.id o =? i); exact Hlt.
    + apply List.Forall_forall. intros o' Ho'. apply in_map_iff in Ho' as (o & <- & Ho).
      rewrite List.Forall_forall in Hrows. apply touch_row_ok; [exact Hall | exact (Hrows o Ho)].
  - intros int4in idtxt. rewrite deleteOrder_store.
    destruct (int4in idtxt) as [i |]; [| repeat split; assumption].
    unfold without, admin_table_ok, admin_keys_ok. cbn [Admin.orders Admin.next_id].
    split; [split |].
    + apply NoDup_map_filter, Hnd.
    + apply Forall_filter_keep, Hlt.
    + apply Forall_filter_keep, Hrows.
Qed.

Lemma admin_requests_keep_the_table_ok_witness :
  admin_table_ok (store (Admin.postOrders (fun _ => None) quiet alice empty_table))
  /\ Admin.orders (store (Admin.postOrders (fun _ => None) quiet alice empty_table)) <> [].
Proof.
  assert (Hempty : admin_table_ok empty_table) by (repeat split; constructor).
  destruct (admin_requests_keep_the_table_ok empty_table Hempty) as (Hpost & _ & _).
  split; [exact (Hpost (fun _ => None) quiet alice) | vm_compute; discriminate].
Defined.

(* ===================================================================== *)
(** ** What the email pattern accepts                                    *)
(* ===================================================================== *)

(** The strings of a regular expression. *)
Inductive matches : Re -> string -> Prop :=
| MEps : matches ReEps EmptyString
| MChar p c : p c = true -> matches (ReChar p) (String c EmptyString)
| MCat r1 r2 s1 s2 :
    matches r1 s1 -> matches r2 s2 -> matches (ReCat r1 r2) (s1 +:+ s2)
| MAltL r1 r2 s : matches r1 s -> matches (ReAlt r1 r2) s
| MAltR r1 r2 s : matches r2 s -> matches (ReAlt r1 r2) s
| MStarNil r : matches (ReStar r) EmptyString
| MStarApp r s1 s2 :
    matches r s1 -> matches (ReStar r) s2 -> matches (ReStar r) (s1 +:+ s2).

Lemma app_empty s1 s2 : s1 +:+ s2 = EmptyString -> s1 = EmptyString /\ s2 = EmptyString.
Proof. destruct s1; cbn; [tauto | discriminate]. Qed.

Lemma matches_nullable r s : matches r s -> s = EmptyString -> nullable r = true.
Proof.
  induction 1; intros Hs; cbn; try reflexivity; try discriminate.
  - apply app_empty in Hs as [H1 H2]. rewrite IHmatches1, IHmatches2 by assumption.
    reflexivity.
  - rewrite IHmatches by assumption. reflexivity.
  - rewrite IHmatches by assumption. apply orb_true_r.
Qed.

Lemma nullable_matches r : nullable r = true -> matches r EmptyString.
Proof.
  induction r; cbn; intros H; try discriminate.
  - constructor.
  - apply andb_true_iff in H as [H1 H2].
    change EmptyString with (EmptyString +:+ EmptyString). constructor; auto.
  - apply orb_true_iff in H as [H | H]; [apply MAltL | apply MAltR]; auto.
  - constructor.
Qed.

Lemma deriv_sound c r : forall s, matches (deriv c r) s -> matches r (String c s).
Proof.
  induction r; cbn; intros s H.
  - inversion H.
  - inversion H.
  - destruct (p c) eqn:Hp; inversion H; subst. now constructor.
  - destruct (nullable r1) eqn:Hn.
    + inversion H as [| | | ? ? ? H' | ? ? ? H' | |]; subst.
      * inversion H' as [| | ? ? s1 s2 Ha Hb | | | |]; subst.
        change (String c (s1 +:+ s2)) with (String c s1 +:+ s2). constructor; auto.
      * change (String c s) with (EmptyString +:+ String c s).
        constructor; [now apply nullable_matches | auto].
    + inversion H as [| | ? ? s1 s2 Ha Hb | | | |]; subst.
      change (String c (s1 +:+ s2)) with (String c s1 +:+ s2). constructor; auto.
  - inversion H; subst; [apply MAltL | apply MAltR]; auto.
  - inversion H as [| | ? ? s1 s2 Ha Hb | | | |]; subst.
    change (String c (s1 +:+ s2)) with (String c s1 +:+ s2). constructor; auto.
Qed.

Lemma deriv_complete r x :
  matches r x -> forall c s, x = String c s -> matches (deriv c r) s.
Proof.
  induction 1 as [| p c0 Hp | r1 r2 s1 s2 H1 IH1 H2 IH2 | r1 r2 s0 H0 IH0
                  | r1 r2 s0 H0 IH0 | r0 | r0 s1 s2 H1 IH1 H2 IH2];
    intros a t Hx; cbn [deriv]; try discriminate.
  - injection Hx as -> <-. rewrite Hp. constructor.
  - destruct s1 as [| c1 s1'].
    + change (s2 = String a t) in Hx.
      rewrite (matches_nullable _ _ H1 eq_refl). apply MAltR. now apply IH2.
    + change (String c1 (s1' +:+ s2) = String a t) in Hx. injection Hx as -> <-.
      destruct (nullable r1); [apply MAltL |]; constructor; auto.
  - apply MAltL. auto.
  - apply MAltR. auto.
  - destruct s1 as [| c1 s1'].
    + change (s2 = String a t) in Hx. now apply IH2.
    + change (String c1 (s1' +:+ s2) = String a t) in Hx. injection Hx as -> <-.
      constructor; auto.
Qed.

(** Matching by derivatives decides membership. *)
Lemma re_match_matches s : forall r, re_match r s = true <-> matches r s.
Proof.
  induction s as [| c s IH]; intros r; cbn.
  - split; [apply nullable_matches | intros H; exact (matches_nullable _ _ H eq_refl)].
  - rewrite IH. split; [apply deriv_sound | intros H; exact (deriv_complete _ _ H _ _ eq_refl)].
Qed.

Fixpoint all_chars (p : ascii -> bool) (s : string) : bool :=
  match s with
  | EmptyString => true
  | String c r => p c && all_chars p r
  end.

Lemma all_chars_app p s1 s2 :
  all_chars p (s1 +:+ s2) = all_chars p s1 && all_chars p s2.
Proof.
  induction s1 as [| c s1 IH]; simpl; [reflexivity |].
  rewrite IH. apply andb_assoc.
Qed.

Lemma star_class_only r x :
  matches r x -> forall p, r = ReStar (ReChar p) -> all_chars p x = true.
Proof.
  induction 1 as [| p c0 Hp | r1 r2 s1 s2 H1 IH1 H2 IH2 | r1 r2 s0 H0 IH0
                  | r1 r2 s0 H0 IH0 | r0 | r0 s1 s2 H1 IH1 H2 IH2];
    intros q Er; try discriminate; [reflexivity |].
  injection Er as ->. rewrite all_chars_app, (IH2 q eq_refl), andb_true_r.
  inversion H1 as [| ? ? Hq | | | | |]; subst. cbn. rewrite Hq. reflexivity.
Qed.

Lemma star_class p x : matches (ReStar (ReChar p)) x <-> all_chars p x = true.
Proof.
  split.
  - intros H. exact (star_class_only _ _ H p eq_refl).
  - induction x as [| c x IH]; cbn; intros H; [constructor |].
    apply andb_true_iff in H as [Hc Hx].
    change (String c x) with (String c EmptyString +:+ x).
    constructor; [now constructor | auto].
Qed.

(** One or more characters of a class. *)
Definition some_of (p : ascii -> bool) (x : string) : Prop :=
  x <> EmptyString /\ all_chars p x = true.

Lemma plus_class p x : matches (RePlus (ReChar p)) x <-> some_of p x.
Proof.
  unfold RePlus, some_of. split.
  - intros H. inversion H as [| | ? ? s1 s2 Ha Hb | | | |]; subst.
    inversion Ha as [| ? c0 Hc | | | | |]; subst.
    split; [simpl; discriminate |].
    apply star_class in Hb. simpl. apply andb_true_intro. split; [exact Hc | exact Hb].
  - intros [Hne Hall]. destruct x as [| c x]; [congruence |].
    simpl in Hall. apply andb_true_iff in Hall as [Hc Hx].
    change (String c x) with (String c EmptyString +:+ x).
    constructor; [now constructor | now apply star_class].
Qed.

Lemma lit_class a x : matches (ReChar (lit a)) x <-> x = String a EmptyString.
Proof.
  split.
  - intros H. inversion H; subst. unfold lit in *.
    match goal with Hq : Ascii.eqb _ _ = true |- _ => apply Ascii.eqb_eq in Hq; subst end.
    reflexivity.
  - intros ->. constructor. unfold lit. apply Ascii.eqb_refl.
Qed.

(** X2: the pattern both servers test the email with accepts exactly the
    strings local@domain.tail whose three parts are non-empty and free of
    white space and of "@"; the domain and the tail may hold further
    dots. *)
Theorem email_pattern_shape (s : string) :
  re_match emailRegex s = true <->
  exists a b c,
    s = a +:+ "@" +:+ b +:+ "." +:+ c
    /\ some_of not_space_at a /\ some_of not_space_at b /\ some_of not_space_at c.
Proof.
  rewrite re_match_matches. unfold emailRegex. split.
  - intros H.
    inversion H as [| | ? ? a s1 Ha H1 | | | |]; subst.
    inversion H1 as [| | ? ? at' s2 Hat H2 | | | |]; subst.
    inversion H2 as [| | ? ? b s3 Hb H3 | | | |]; subst.
    inversion H3 as [| | ? ? dot c Hdot Hc | | | |]; subst.
    apply lit_class in Hat, Hdot. subst.
    exists a, b, c. split; [reflexivity |].
    split; [apply plus_class; assumption |].
    split; apply plus_class; assumption.
  - intros (a & b & c & -> & Ha & Hb & Hc).
    constructor; [now apply plus_class |].
    change ("@" +:+ b +:+ "." +:+ c) with (String "@" EmptyString +:+ (b +:+ "." +:+ c)).
    constructor; [now apply lit_class |].
    constructor; [now apply plus_class |].
    change ("." +:+ c) with (String "." EmptyString +:+ c).
    constructor; [now apply lit_class | now apply plus_class].
Qed.

Lemma email_pattern_shape_witness : re_match emailRegex "a.b@c.d.e" = true.
Proof.
  apply email_pattern_shape. exists "a.b", "c", "d.e".
  repeat split; try discriminate; reflexivity.
Defined.

Definition no_space (c : ascii) : bool := negb (is_ws c).

Lemma all_chars_weaken (p q : ascii -> bool) s :
  (forall c, p c = true -> q c = true) -> all_chars p s = true -> all_chars q s = true.
Proof.
  intros Hpq. induction s as [| c s IH]; simpl; [trivial |].
  intros H. apply andb_true_iff in H as [Hc Hs].
  rewrite (Hpq c Hc), (IH Hs). reflexivity.
Qed.

Lemma trim_end_fixed s : all_chars no_space s = true -> trim_end s = s.
Proof.
  induction s as [| c s IH]; simpl; [reflexivity |].
  intros H. apply andb_true_iff in H as [Hc Hs]. rewrite (IH Hs).
  unfold no_space in Hc. apply negb_true_iff in Hc.
  destruct s; [rewrite Hc |]; reflexivity.
Qed.

Lemma trim_fixed s : all_chars no_space s = true -> trim s = s.
Proof.
  intros H. unfold trim. rewrite trim_start_fixed.
  - now apply trim_end_fixed.
  - destruct s as [| a r]; simpl; [discriminate |].
    intros c [= <-]. simpl in H. apply andb_true_iff in H as [Ha _].
    now apply negb_true_iff in Ha.
Qed.

(** An email the pattern accepts holds no white space, so trimming it
    changes nothing. *)
Lemma accepted_email_is_trimmed e : re_match emailRegex e = true -> trim e = e.
Proof.
  intros H. apply email_pattern_shape in H as (a & b & c & -> & [_ Ha] & [_ Hb] & [_ Hc]).
  apply trim_fixed.
  assert (Hw : forall x, all_chars not_space_at x = true -> all_chars no_space x = true).
  { intros x. apply all_chars_weaken. intros ch Hch. unfold not_space_at in Hch.
    apply andb_true_iff in Hch as [Hch _]. exact Hch. }
  rewrite !all_chars_app, (Hw a Ha), (Hw b Hb), (Hw c Hc). reflexivity.
Qed.

(* ===================================================================== *)
(** ** Creating an order, admin server                                   *)
(* ===================================================================== *)

Definition admin_confirmation (order : Admin.Order) : Mail :=
  mkMail (Admin.email order) "ICE Jersey Order Confirmation - Order Received" OrderReceived.

(** A 201 of the admin server comes from an insert that returned. *)
Lemma admin_201_inserted rejects env b st resp :
  response_of (trace (Admin.postOrders rejects env b st)) = Some resp ->
  code resp = 201 ->
  exists n order,
    Admin.validate b = inr n
    /\ result (Admin.insert_new rejects b n st) = Value order
    /\ resp = mkResponse 201 (Admin.created order).
Proof.
  intros Hr H201.
  destruct (admin_postOrders_outcome rejects env b st) as (R & _ & _).
  rewrite R in Hr. injection Hr as <-. unfold admin_outcome in *.
  destruct (Admin.validate b) as [r0 | n] eqn:Ev.
  - cbn in H201. rewrite (admin_rejection_code b r0 Ev) in H201. discriminate.
  - cbv zeta in *.
    destruct (result (Admin.insert_new rejects b n st)) as [order | e] eqn:Hins.
    + exists n, order. split; [reflexivity | split; [exact Hins | reflexivity]].
    + cbn in H201. discriminate.
Qed.

(** X3: the admin server hands a message over only for an order it has
    stored.  When it answers anything but 201, no message is handed over
    and the store is as before; when it answers 201, exactly one row was
    appended, the confirmation goes to the address stored in that row,
    and the alert for the staff follows exactly when ADMIN_EMAIL is
    set. *)
Theorem admin_mail_only_for_a_stored_order
  (rejects : Admin.Order -> option Exn) (env : Env) (b : Body) (st : Admin.Store)
  (resp : Response)
  (Hresp : response_of (trace (Admin.postOrders rejects env b st)) = Some resp) :
  (code resp <> 201 ->
     mails_of (trace (Admin.postOrders rejects env b st)) = []
     /\ store (Admin.postOrders rejects env b st) = st)
  /\ (code resp = 201 ->
      exists order,
        Admin.orders (store (Admin.postOrders rejects env b st))
        = Admin.orders st ++ [order]
        /\ payload resp = Admin.created order
        /\ Admin.status order = "pending"
        /\ mails_of (trace (Admin.postOrders rejects env b st))
           = admin_confirmation order
             :: (if env_truthy (ADMIN_EMAIL env) then [Admin.admin_mail env order] else [])).
Proof.
  split.
  - intros Hcode. rewrite admin_postOrders_run in Hresp |- *.
    destruct (Admin.validate b) as [r0 | n] eqn:Ev; [split; reflexivity |].
    cbv zeta in *.
    pose proof (insert_new_cases rejects b n st) as Hins. cbv zeta in Hins.
    destruct Hins as [Ht [(e & He & Hst) | (order & Ho & _)]].
    + rewrite He. cbn [trace store]. rewrite Ht, Hst. split; reflexivity.
    + rewrite Ho in Hresp. cbn [trace] in Hresp. rewrite Ht in Hresp. cbn [app] in Hresp.
      rewrite response_after_quiet in Hresp by apply notify_events_no_response.
      injection Hresp as <-. cbn in Hcode. congruence.
  - intros H201.
    destruct (admin_201_inserted rejects env b st resp Hresp H201) as (n & order & Ev & Ho & ->).
    exists order.
    rewrite admin_postOrders_run, Ev. cbv zeta. rewrite Ho.
    pose proof (insert_new_cases rejects b n st) as Hins. cbv zeta in Hins.
    destruct Hins as [Ht [(e & He & _) | (order' & Ho' & Hst & _ & _ & Hstatus & _ & _ & _
                                          & _ & _ & (em & Hem & Hemail) & _)]];
      [rewrite He in Ho; discriminate |].
    rewrite Ho in Ho'. injection Ho' as <-.
    cbn [store trace]. rewrite Hst, Ht. cbn [Admin.orders app].
    split; [reflexivity |]. split; [reflexivity |]. split; [exact Hstatus |].
    rewrite mails_of_app. unfold notify_events. rewrite mails_of_app, sendEmail_mails.
    assert (Hto : Admin.confirmation_mail b = admin_confirmation order).
    { unfold Admin.confirmation_mail, admin_confirmation. rewrite Hemail, Hem. cbn [to_string].
      destruct (admin_validate_inr b n Ev) as (_ & _ & Hre & _).
      unfold regex_test in Hre. rewrite Hem in Hre. cbn [to_string] in Hre.
      rewrite (accepted_email_is_trimmed em Hre). reflexivity. }
    rewrite Hto. cbn [app].
    destruct (env_truthy (ADMIN_EMAIL env));
      [rewrite sendEmail_mails |]; reflexivity.
Qed.

Lemma admin_mail_only_for_a_stored_order_witness :
  mails_of (trace (Admin.postOrders (fun _ => None) quiet (delete "name" alice) empty_table))
  = []
  /\ exists order,
       Admin.orders (store (Admin.postOrders (fun _ => None) online alice empty_table))
       = [order]
       /\ mails_of (trace (Admin.postOrders (fun _ => None) online alice empty_table))
          = [admin_confirmation order; Admin.admin_mail online order].
Proof.
  split.
  - apply (admin_mail_only_for_a_stored_order (fun _ => None) quiet (delete "name" alice)
             empty_table missing_required).
    + vm_compute; reflexivity.
    + discriminate.
  - destruct (admin_mail_only_for_a_stored_order (fun _ => None) online alice empty_table
                (mkResponse 201 (Admin.created
                   (Admin.mkOrder 1 "Alice" "ICE-21-007" "7" None "M" "round" "short"
                      "alice@example.com" None None "450" "pending" 0 0))))
      as [_ H]; [vm_compute; reflexivity |].
    destruct (H eq_refl) as (order & Horders & _ & _ & Hmails).
    exists order. split; [exact Horders | exact Hmails].
Defined.

Lemma filter_none_below (st : Admin.Store) :
  Forall (fun o => Admin.id o < Admin.next_id st) (Admin.orders st) ->
  List.filter (has_id (Admin.next_id st)) (Admin.orders st) = [].
Proof.
  induction (Admin.orders st) as [| o l IH]; [reflexivity |].
  intros H. inversion H as [| ? ? Ho Hl]; subst. cbn.
  unfold has_id at 1. replace (Admin.id o =? Admin.next_id st) with false
    by (symmetry; apply Z.eqb_neq; lia).
  exact (IH Hl).
Qed.

(** The price column of an inserted row holds the text of [finalPrice]
    as it was bound. *)
Lemma insert_new_price rejects b jerseyNum st order :
  result (Admin.insert_new rejects b jerseyNum st) = Value order ->
  Admin.final_price order = to_string (field b "finalPrice").
Proof.
  unfold Admin.insert_new, bind, call_trim, Admin.opt_trim, query,
    Admin.insert_order, ret, throw.
  destruct (field b "name") as [| | ? | ? | ? | nm]; cbn [result]; try discriminate.
  destruct (field b "studentId") as [| | ? | ? | ? | sid]; cbn [result]; try discriminate.
  destruct (field b "batch") as [| | ? | ? | ? | bt]; cbn [result]; try discriminate.
  all: destruct (field b "email") as [| | ? | ? | ? | em]; cbn [result]; try discriminate.
  all: destruct (field b "transactionId") as [| | ? | ? | ? | tx]; cbn [result];
    try discriminate.
  all: destruct (field b "notes") as [| | ? | ? | ? | nt]; cbn [result]; try discriminate.
  all: cbv zeta;
    match goal with
    | |- context [match ?x with Some _ => _ | None => _ end] => destruct x
    end; cbn [result]; try discriminate.
  all: intros [= <-]; reflexivity.
Qed.

(** X4: an order the admin server has just created can be read back.
    From a table whose ids are distinct and below the counter, when the
    create answers 201 the row has the counter's value as id, status
    pending and the trimmed name, the response carries that id as
    ICE-nnn, and a read of the id answers 200 with that row as the store
    gives it back: the price is the DECIMAL(10, 2) text of what was bound
    for [finalPrice], and both timestamps are the ISO string of the
    store's time at the insert. *)
Theorem admin_created_order_is_readable
  (int4in : string -> option Z)
  (decimal_out : string -> string) (timestamp_json : Z -> string)
  (rejects : Admin.Order -> option Exn) (env : Env)
  (b : Body) (st : Admin.Store) (resp : Response)
  (Hkeys : admin_keys_ok st)
  (Hresp : response_of (trace (Admin.postOrders rejects env b st)) = Some resp)
  (H201 : code resp = 201)
  (Hread : int4in (num_to_string (Admin.next_id st)) = Some (Admin.next_id st)) :
  exists order,
    response_of (trace (Admin.getOrder int4in decimal_out timestamp_json
                          (num_to_string (Admin.next_id st))
                          (store (Admin.postOrders rejects env b st))))
    = Some (mkResponse 200
              (JObj [("success", JBool true);
                     ("order", Admin.json_of_order decimal_out timestamp_json order)]))
    /\ Admin.id order = Admin.next_id st
    /\ Admin.status order = "pending"
    /\ (exists s, field b "name" = VStr s /\ Admin.name order = trim s)
    /\ json_get "final_price" (Admin.json_of_order decimal_out timestamp_json order)
       = Some (JStr (decimal_out (to_string (field b "finalPrice"))))
    /\ json_get "created_at" (Admin.json_of_order decimal_out timestamp_json order)
       = Some (JStr (timestamp_json (Admin.clock st)))
    /\ json_get "updated_at" (Admin.json_of_order decimal_out timestamp_json order)
       = Some (JStr (timestamp_json (Admin.clock st)))
    /\ json_get "orderId" (payload resp)
       = Some (JStr ("ICE-" +:+ padStart0 3 (num_to_string (Admin.next_id st)))).
Proof.
  destruct (admin_201_inserted rejects env b st resp Hresp H201) as (n & order & Ev & Ho & ->).
  exists order.
  pose proof (insert_new_price rejects b n st order Ho) as Hprice.
  pose proof (insert_new_cases rejects b n st) as Hins. cbv zeta in Hins.
  destruct Hins as [Ht [(e & He & _) | (order' & Ho' & Hst & _ & Hid & Hstatus & _ & Hc & Hu
                                        & Hname & _)]];
    [rewrite He in Ho; discriminate |].
  rewrite Ho in Ho'. injection Ho' as <-.
  destruct (admin_postOrders_outcome rejects env b st) as (_ & S & _).
  rewrite S. unfold admin_outcome. rewrite Ev. cbv zeta. rewrite Ho. cbn [snd].
  rewrite Hst.
  rewrite (getOrder_run int4in decimal_out timestamp_json _ (Admin.next_id st) Hread).
  cbn [trace Admin.orders].
  rewrite List.filter_app, (filter_none_below st (proj2 Hkeys)). cbn [List.filter app].
  unfold has_id at 1.
  replace (Admin.id order =? Admin.next_id st) with true
    by (symmetry; apply Z.eqb_eq; exact Hid).
  split; [reflexivity |]. split; [exact Hid |]. split; [exact Hstatus |].
  split; [exact Hname |].
  split; [cbn; rewrite Hprice; reflexivity |].
  split; [cbn; rewrite Hc; reflexivity |].
  split; [cbn; rewrite Hu; reflexivity |].
  cbn. unfold Admin.orderId. rewrite Hid. reflexivity.
Qed.

(** Renderings for the examples: two decimals appended to a whole
    number, and one fixed instant. *)
Definition two_places (s : string) : string := s +:+ ".00".

Definition one_instant (t : Z) : string := "2025-03-01T10:00:00.000Z".

Lemma admin_created_order_is_readable_witness :
  exists order,
    response_of (trace (Admin.getOrder int4in_plain two_places one_instant "1"
                          (store (Admin.postOrders (fun _ => None) quiet alice empty_table))))
    = Some (mkResponse 200
              (JObj [("success", JBool true);
                     ("order", Admin.json_of_order two_places one_instant order)]))
    /\ Admin.name order = "Alice"
    /\ json_get "final_price" (Admin.json_of_order two_places one_instant order)
       = Some (JStr "450.00")
    /\ json_get "created_at" (Admin.json_of_order two_places one_instant order)
       = Some (JStr "2025-03-01T10:00:00.000Z").
Proof.
  destruct (admin_created_order_is_readable int4in_plain two_places one_instant
              (fun _ => None) quiet alice empty_table
              (mkResponse 201 (Admin.created
                 (Admin.mkOrder 1 "Alice" "ICE-21-007" "7" None "M" "round" "short"
                    "alice@example.com" None None "450" "pending" 0 0))))
    as (order & Hget & _ & _ & (s & Hs & Hname) & Hprice & Hcreated & _).
  - repeat split; constructor.
  - vm_compute; reflexivity.
  - reflexivity.
  - reflexivity.
  - exists order. split; [exact Hget |].
    split; [rewrite Hname; vm_compute in Hs; injection Hs as <-; reflexivity |].
    split; [exact Hprice | exact Hcreated].
Defined.

(** *** Decimal text, padded *)

Fixpoint zeros (m : nat) : string :=
  match m with
  | O => EmptyString
  | S k => String "0" (zeros k)
  end.

Lemma concat_zeros m : String.concat "" (repeat "0" m) = zeros m.
Proof.
  induction m as [| [| k] IH]; [reflexivity | reflexivity |].
  change (repeat "0" (S (S k))) with ("0" :: repeat "0" (S k)).
  change (String.concat "" ("0" :: repeat "0" (S k)))
    with ("0" +:+ "" +:+ String.concat "" (repeat "0" (S k))).
  rewrite IH. reflexivity.
Qed.

Lemma read_digits_zeros m s :
  read_digits 10 (zeros m +:+ s) (Some 0) = read_digits 10 s (Some 0).
Proof. induction m as [| k IH]; [reflexivity | exact IH]. Qed.

Lemma read_digits_decimal d :
  read_digits 10 (NilZero.string_of_uint d) (Some 0) = Some (Z.of_uint d).
Proof.
  rewrite <- uint_value_zero.
  destruct d; [reflexivity | ..];
    match goal with
    | |- read_digits 10 (NilZero.string_of_uint ?d') _ = _ =>
        exact (read_digits_uint d' 0)
    end.
Qed.

(** After a leading 0 that is not the 0 of 0x, [parseInt] reads on in
    decimal. *)
Lemma parseInt_leading_zero t :
  first_char t <> Some "x"%char -> first_char t <> Some "X"%char ->
  parseInt_string (String "0" t)
  = match read_digits 10 t (Some 0) with Some n => Some n | None => None end.
Proof.
  destruct t as [| c r]; [reflexivity |]. cbn [first_char]. intros Hx HX.
  destruct c as [[|] [|] [|] [|] [|] [|] [|] [|]];
    first [reflexivity | exfalso; apply Hx; reflexivity | exfalso; apply HX; reflexivity].
Qed.

Lemma decimal_first_char d c :
  first_char (NilZero.string_of_uint d) = Some c ->
  c <> "x"%char /\ c <> "X"%char.
Proof.
  destruct d; cbn; intros [= <-]; split; discriminate.
Qed.

Lemma parseInt_padded m d :
  parseInt_string (zeros m +:+ NilZero.string_of_uint d) = Some (Z.of_uint d).
Proof.
  destruct m as [| k]; [apply parseInt_decimal |].
  change (zeros (S k) +:+ NilZero.string_of_uint d)
    with (String "0" (zeros k +:+ NilZero.string_of_uint d)).
  rewrite parseInt_leading_zero.
  - rewrite read_digits_zeros, read_digits_decimal. reflexivity.
  - destruct k; [| discriminate]. intros H.
    apply decimal_first_char in H. tauto.
  - destruct k; [| discriminate]. intros H.
    apply decimal_first_char in H. tauto.
Qed.

Lemma padded_number_reads_back k n :
  0 <= n -> parseInt_string (padStart0 k (num_to_string n)) = Some n.
Proof.
  intros Hn. unfold padStart0, num_to_string. rewrite concat_zeros.
  pose proof (DecimalZ.of_to n) as Hof.
  destruct (Z.to_int n) as [d | d] eqn:E.
  - cbn [Z.of_int] in Hof. rewrite <- Hof. cbn [NilZero.string_of_int].
    apply parseInt_padded.
  - destruct n; cbn in E; try discriminate. lia.
Qed.

(** X5: the order id shown to the customer determines the order.  For
    rows with non-negative ids, the text after ICE- is read back by
    parseInt as the id, so two rows with the same order id have the same
    id; the intake server's six-digit form behaves the same for the ids
    it formats, which are not 0. *)
Theorem order_id_reads_back :
  (forall o, 0 <= Admin.id o ->
     exists t, Admin.orderId o = "ICE-" +:+ t /\ parseInt_string t = Some (Admin.id o))
  /\ (forall o1 o2, 0 <= Admin.id o1 -> 0 <= Admin.id o2 ->
        Admin.orderId o1 = Admin.orderId o2 -> Admin.id o1 = Admin.id o2)
  /\ (forall now o1 o2, 0 < Intake.id o1 -> 0 < Intake.id o2 ->
        Intake.orderIdFormatted now o1 = Intake.orderIdFormatted now o2 ->
        Intake.id o1 = Intake.id o2).
Proof.
  split; [| split].
  - intros o Ho. eexists. split; [reflexivity |]. now apply padded_number_reads_back.
  - intros o1 o2 H1 H2 He. unfold Admin.orderId in He.
    injection He as He.
    change (padStart0 3 (num_to_string (Admin.id o1))
            = padStart0 3 (num_to_string (Admin.id o2))) in He.
    pose proof (padded_number_reads_back 3 _ H1) as P1.
    pose proof (padded_number_reads_back 3 _ H2) as P2.
    rewrite He in P1. congruence.
  - intros now o1 o2 H1 H2 He. unfold Intake.orderIdFormatted in He.
    replace (Intake.id o1 =? 0) with false in He by (symmetry; apply Z.eqb_neq; lia).
    replace (Intake.id o2 =? 0) with false in He by (symmetry; apply Z.eqb_neq; lia).
    injection He as He.
    change (padStart0 6 (num_to_string (Intake.id o1))
            = padStart0 6 (num_to_string (Intake.id o2))) in He.
    pose proof (padded_number_reads_back 6 (Intake.id o1) ltac:(lia)) as P1.
    pose proof (padded_number_reads_back 6 (Intake.id o2) ltac:(lia)) as P2.
    rewrite He in P1. congruence.
Qed.

Lemma order_id_reads_back_witness :
  exists t, Admin.orderId (order_of_bob "pending") = "ICE-" +:+ t
            /\ parseInt_string t = Some 1.
Proof.
  apply (proj1 order_id_reads_back (order_of_bob "pending")). cbn. lia.
Defined.



Section NumberField.

Variable b : Body.
Variable e : string.

Hypothesis Hothers :
  forall k, In k Intake.requiredFields -> k <> "jerseyNumber" ->
            Intake.is_missing b k = false.
Hypothesis He : field b "email" = VStr e.
Hypothesis Hre : re_match emailRegex e = true.




End NumberField.




(* ===================================================================== *)
(** ** Creating an order, intake server                                  *)
(* ===================================================================== *)

Lemma call_trim_cases {S} what v (s : S) :
  (exists e, call_trim what v s = mkRun [] s (Throw e))
  \/ (exists t, v = VStr t /\ call_trim what v s = mkRun [] s (Value (trim t))).
Proof.
  destruct v; cbn; try (left; eexists; reflexivity).
  right. eexists. split; reflexivity.
Qed.

Lemma clean_cases what v s :
  (exists e, Intake.clean what v s = mkRun [] s (Throw e))
  \/ (exists x, Intake.clean what v s = mkRun [] s (Value x) /\ optional_ok x).
Proof.
  unfold Intake.clean. destruct (truthy v).
  - unfold bind. destruct (call_trim_cases what v s) as [[e ->] | (t & _ & ->)].
    + left. eexists. reflexivity.
    + right. eexists. split; [reflexivity | apply or_null_ok].
  - right. exists None. split; [reflexivity | apply none_ok].
Qed.

(** The validation never touches the store and logs nothing; it accepts
    only a number that reads inside 1..99. *)
Lemma intake_validate_cases b st :
  (exists r, Intake.validate b st = mkRun [] st (Value (Intake.Rejected r)))
  \/ (exists e, Intake.validate b st = mkRun [] st (Throw e))
  \/ (Intake.validate b st = mkRun [] st (Value Intake.Accepted)
      /\ Intake.missingFields b = []
      /\ (exists j, parseInt (field b "jerseyNumber") = Some j /\ 1 <= j <= 99)
      /\ exists e, field b "email" = VStr e /\ re_match emailRegex (trim e) = true).
Proof.
  unfold Intake.validate.
  destruct (Intake.missingFields b); [| left; eexists; reflexivity].
  destruct (parseInt (field b "jerseyNumber")) as [j |]; [| left; eexists; reflexivity].
  destruct ((j <? 1) || (j >? 99)) eqn:Er; [left; eexists; reflexivity |].
  unfold bind. destruct (call_trim_cases "email" (field b "email") st)
    as [[e ->] | (em & Hem & ->)]; [right; left; eexists; reflexivity |].
  destruct (re_match emailRegex (trim em)) eqn:Hre; cbn;
    [| left; eexists; reflexivity].
  right. right. split; [reflexivity |]. split; [reflexivity |]. split.
  - exists j. split; [reflexivity |].
    apply orb_false_iff in Er as [E1 E2].
    apply Z.ltb_ge in E1. rewrite Z.gtb_ltb in E2. apply Z.ltb_ge in E2. lia.
  - exists em. split; [exact Hem | exact Hre].
Qed.

Section IntakeAdmission.

Variable int4in : string -> option Z.
Variable rejects : Intake.Order -> option Exn.
Variable Date_parse : Val -> option Z.
Variable toISOString : Z -> string.

(** A row built by [insertParams]. *)
Definition intake_row_ok (b : Body) (o : Intake.Order) : Prop :=
  Intake.status o = "pending"
  /\ (exists s, field b "name" = VStr s /\ Intake.name o = trim s)
  /\ (exists s, field b "studentId" = VStr s /\ Intake.student_id o = trim s)
  /\ (exists s, field b "email" = VStr s /\ Intake.email o = trim s)
  /\ optional_ok (Intake.batch o) /\ optional_ok (Intake.transaction_id o)
  /\ optional_ok (Intake.notes o).

(** The parameters evaluate without touching the store; when they do
    not throw, the row they give takes id, number and time from the
    store. *)
Lemma insertParams_cases now b s :
  (exists e, Intake.insertParams Date_parse toISOString now b s = mkRun [] s (Throw e))
  \/ (exists row,
        Intake.insertParams Date_parse toISOString now b s = mkRun [] s (Value row)
        /\ forall i n t,
             Intake.id (row i n t) = i /\ Intake.jersey_number (row i n t) = n
             /\ Intake.created_at (row i n t) = t
             /\ intake_row_ok b (row i n t)).
Proof.
  unfold Intake.insertParams, bind.
  destruct (clean_cases "batch" (field b "batch") s) as [[e ->] | (bt & -> & Hbt)];
    [left; eexists; reflexivity |].
  destruct (clean_cases "transactionId" (field b "transactionId") s)
    as [[e ->] | (tx & -> & Htx)]; [left; eexists; reflexivity |].
  destruct (clean_cases "notes" (field b "notes") s) as [[e ->] | (nt & -> & Hnt)];
    [left; eexists; reflexivity |].
  destruct (call_trim_cases "name" (field b "name") s) as [[e ->] | (nm & Hnm & ->)];
    [left; eexists; reflexivity |].
  destruct (call_trim_cases "studentId" (field b "studentId") s)
    as [[e ->] | (sid & Hsid & ->)]; [left; eexists; reflexivity |].
  destruct (call_trim_cases "email" (field b "email") s) as [[e ->] | (em & Hem & ->)];
    [left; eexists; reflexivity |].
  unfold Intake.formatDateForSQL.
  destruct (if truthy (field b "orderDate") then Date_parse (field b "orderDate")
            else Some now) as [t0 |]; cbn;
    [| left; eexists; reflexivity].
  right. eexists. split; [reflexivity |].
  intros i n t. unfold intake_row_ok. cbn.
  repeat (split; [first [reflexivity | eexists; split; [eassumption | reflexivity]
                        | assumption] |]).
  assumption.
Qed.

(** The table of the intake server: the primary key and the unique
    index on the jersey number. *)
Definition intake_table_ok (st : Intake.Store) : Prop :=
  NoDup (List.map Intake.id (Intake.orders st))
  /\ Forall (fun o => Intake.id o < Intake.next_id st) (Intake.orders st)
  /\ NoDup (List.map Intake.jersey_number (Intake.orders st)).

(** How [admission] ends, and what it leaves in the store. *)
Lemma admission_cases now between b st :
  let run := Intake.admission int4in rejects Date_parse toISOString now between b st in
  (exists resp, run = mkRun [] st (Value (inl resp)))
  \/ (exists t e s', run = mkRun t s' (Throw e) /\ (s' = st \/ s' = between st))
  \/ (exists order n,
        run = mkRun [] (Intake.mkStore (Intake.orders (between st) ++ [order])
                                       (Intake.next_id (between st) + 1)
                                       (Intake.clock (between st)))
                    (Value (inr order))
        /\ int4in (to_string (field b "jerseyNumber")) = Some n
        /\ Intake.jersey_number order = n
        /\ Intake.id order = Intake.next_id (between st)
        /\ Intake.created_at order = Intake.clock (between st)
        /\ intake_row_ok b order
        /\ rejects order = None
        /\ List.filter (wears n) (Intake.orders st) = []
        /\ existsb (wears n) (Intake.orders (between st)) = false
        /\ exists jerseyNum, parseInt (field b "jerseyNumber") = Some jerseyNum
                             /\ 1 <= jerseyNum <= 99).
Proof.
  cbv zeta. unfold Intake.admission, bind.
  destruct (intake_validate_cases b st) as [[r ->] | [[e ->] | (-> & _ & Hj & _)]].
  - left. exists r. reflexivity.
  - right. left. exists [], e, st. split; [reflexivity | left; reflexivity].
  - unfold Intake.executeQuery, try_catch, query, Intake.select_by_jersey.
    destruct (int4in (to_string (field b "jerseyNumber"))) as [n |] eqn:Hn; cbn;
      [| right; left; do 3 eexists; split; [reflexivity | left; reflexivity]].
    fold (wears n).
    destruct (List.filter (wears n) (Intake.orders st))
      as [| holder rest] eqn:Hfree; cbn;
      [| left; eexists; reflexivity].
    destruct (insertParams_cases now b (between st)) as [[e ->] | (row & -> & Hrow)]; cbn;
      [right; left; do 3 eexists; split; [reflexivity | right; reflexivity] |].
    unfold Intake.executeQuery, try_catch, query, Intake.insert_order.
    rewrite Hn. cbv zeta. fold (wears n).
    destruct (rejects (row (Intake.next_id (between st)) n (Intake.clock (between st))))
      eqn:Hrej; cbn;
      [right; left; do 3 eexists; split; [reflexivity | right; reflexivity] |].
    destruct (existsb (wears n) (Intake.orders (between st)))
      eqn:Hdup; cbn;
      [right; left; do 3 eexists; split; [reflexivity | right; reflexivity] |].
    right. right. eexists. exists n.
    destruct (Hrow (Intake.next_id (between st)) n (Intake.clock (between st)))
      as (Hid & Hjn & Hct & Hok).
    split; [reflexivity |].
    split; [reflexivity |]. split; [exact Hjn |]. split; [exact Hid |].
    split; [exact Hct |]. split; [exact Hok |]. split; [exact Hrej |].
    split; [exact Hfree |]. split; [exact Hdup | exact Hj].
Qed.

End IntakeAdmission.

Lemma intake_appended_ok st order :
  intake_table_ok st ->
  Intake.id order = Intake.next_id st ->
  existsb (wears (Intake.jersey_number order)) (Intake.orders st) = false ->
  intake_table_ok (Intake.mkStore (Intake.orders st ++ [order])
                                  (Intake.next_id st + 1) (Intake.clock st)).
Proof.
  intros (Hnd & Hlt & Hnum) Hid Hfree. unfold intake_table_ok.
  cbn [Intake.orders Intake.next_id]. split; [| split].
  - rewrite List.map_app. cbn [List.map].
    apply NoDup_app. split; [exact Hnd |].
    split; [| apply NoDup_singleton].
    intros x Hx Hx'. apply list_elem_of_In in Hx'. destruct Hx' as [<- | []].
    apply list_elem_of_In, in_map_iff in Hx as (o & Ho & Hin).
    rewrite List.Forall_forall in Hlt. specialize (Hlt o Hin). lia.
  - apply Forall_app. split.
    + eapply List.Forall_impl; [| exact Hlt]. cbn. intros o Ho. lia.
    + constructor; [lia | constructor].
  - rewrite List.map_app. cbn [List.map].
    apply NoDup_app. split; [exact Hnum |].
    split; [| apply NoDup_singleton].
    intros x Hx Hx'. apply list_elem_of_In in Hx'. destruct Hx' as [<- | []].
    apply list_elem_of_In, in_map_iff in Hx as (o & Ho & Hin).
    assert (existsb (wears (Intake.jersey_number order)) (Intake.orders st) = true)
      as Hhit; [| congruence].
    apply existsb_exists. exists o. split; [exact Hin |].
    unfold wears. apply Z.eqb_eq. exact Ho.
Qed.

(** X7: the table of the intake server keeps its primary key and its
    unique jersey numbers through [POST /api/orders], whatever other
    requests do between the duplicate check and the insert, as long as
    they keep them too. *)
Theorem intake_table_keeps_numbers_distinct
  (int4in : string -> option Z) (rejects : Intake.Order -> option Exn)
  (Date_parse : Val -> option Z) (toISOString : Z -> string)
  (env : Env) (between : Intake.Store -> Intake.Store) (b : Body) (st : Intake.Store) :
  intake_table_ok st ->
  intake_table_ok (between st) ->
  intake_table_ok
    (store (Intake.postOrders int4in rejects Date_parse toISOString env between b st)).
Proof.
  intros Hst Hbetween.
  pose proof (intake_response int4in rejects Date_parse toISOString env between b st)
    as Hr. cbv zeta in Hr. destruct Hr as [_ ->].
  pose proof (admission_cases int4in rejects Date_parse toISOString
                (Date_now env) between b st) as Hc. cbv zeta in Hc.
  destruct Hc as [[resp ->] | [(t & e & s' & -> & [-> | ->])
                              | (order & n & -> & _ & Hn & Hid & _ & _ & _ & _ & Hfree & _)]];
    cbn [store]; try assumption.
  apply intake_appended_ok; [exact Hbetween | exact Hid | rewrite Hn; exact Hfree].
Qed.

Definition bob_wears_eight : Body := <["jerseyNumber" := VStr "8"]> alice.

Lemma intake_table_keeps_numbers_distinct_witness :
  intake_table_ok alice_admitted
  /\ List.map Intake.jersey_number
       (Intake.orders
          (store (Intake.postOrders int4in_plain (fun _ => None) (fun _ => None) iso_sample
                                    quiet (fun s => s) bob_wears_eight alice_admitted)))
     = [7; 8]
  /\ intake_table_ok
       (store (Intake.postOrders int4in_plain (fun _ => None) (fun _ => None) iso_sample
                                 quiet (fun s => s) bob_wears_eight alice_admitted)).
Proof.
  assert (intake_table_ok alice_admitted) as H.
  { unfold intake_table_ok. cbn. repeat split.
    - apply NoDup_singleton.
    - constructor; [reflexivity | constructor].
    - apply NoDup_singleton. }
  split; [exact H |]. split; [vm_compute; reflexivity |].
  apply (intake_table_keeps_numbers_distinct int4in_plain (fun _ => None) (fun _ => None)
           iso_sample quiet (fun s => s) bob_wears_eight alice_admitted); exact H.
Defined.

(** Every response written on a trace, in order. *)
Fixpoint responses_of (t : list Event) : list Response :=
  match t with
  | [] => []
  | EvRespond r :: t' => r :: responses_of t'
  | _ :: t' => responses_of t'
  end.

Lemma responses_of_app t1 t2 :
  responses_of (t1 ++ t2) = responses_of t1 ++ responses_of t2.
Proof.
  induction t1 as [| e t1 IH]; [reflexivity |].
  destruct e; cbn; rewrite IH; reflexivity.
Qed.

Lemma no_response_written t :
  forallb (fun e => negb (is_respond e)) t = true -> responses_of t = [].
Proof.
  induction t as [| e t IH]; [reflexivity |]. cbn.
  intros H. apply andb_true_iff in H as [He Ht].
  destruct e; cbn in *; try discriminate; exact (IH Ht).
Qed.

Lemma merge_no_response sched : forall l1 l2,
  responses_of l1 = [] -> responses_of l2 = [] ->
  responses_of (Intake.merge sched l1 l2) = [].
Proof.
  induction sched as [| [|] sched IH]; intros l1 l2 H1 H2; cbn.
  - rewrite responses_of_app, H1, H2. reflexivity.
  - destruct l1 as [| y l1]; [exact H2 |].
    destruct y; cbn in *; try discriminate; apply IH; assumption.
  - destruct l2 as [| y l2]; [exact H1 |].
    destruct y; cbn in *; try discriminate; apply IH; assumption.
Qed.

Lemma deferred_no_response env (failed crashed : string) m :
  responses_of (Intake.deferred (Intake.await_and_report failed crashed
                                   (Intake.sendEmailViaBrevo env m))) = [].
Proof.
  destruct (report_deferred failed crashed (Intake.sendEmailViaBrevo env m))
    as (logs & -> & Hlogs).
  rewrite responses_of_app, (no_response_written logs (logs_no_response _ Hlogs)),
    app_nil_r.
  unfold Intake.sendEmailViaBrevo.
  destruct (env_truthy (BREVO_API_KEY env)); cbn; [| reflexivity].
  destruct (fetch env m) as [reason | [|] [body |]]; reflexivity.
Qed.

(** X8: the intake server answers every order request exactly once, in
    the background work included, and only a 201 goes with messages.
    On 400, 409 and 500 no message is handed over, in the background
    either, and the rows of the table are those the request found or
    those the other requests left; a 400 leaves the store untouched.  On
    201 one row is appended to the table as the other requests left it,
    with the next id, status 'pending', the trimmed name, student id and
    address of the body, a number that [parseInt] reads inside 1..99,
    and the two messages are the confirmation and the alert, in this
    order. *)
Theorem intake_mail_only_for_a_stored_order
  (int4in : string -> option Z) (rejects : Intake.Order -> option Exn)
  (Date_parse : Val -> option Z) (toISOString : Z -> string)
  (env : Env) (between : Intake.Store -> Intake.Store) (sched : list bool)
  (b : Body) (st : Intake.Store) :
  let run := Intake.postOrders int4in rejects Date_parse toISOString env between b st in
  let all := Intake.postOrders_trace int4in rejects Date_parse toISOString
               env between sched b st in
  exists r,
    responses_of all = [r]
    /\ ((In (code r) [400; 409; 500]
         /\ mails_of all = [] /\ fetches_of all = []
         /\ (Intake.orders (store run) = Intake.orders st
             \/ Intake.orders (store run) = Intake.orders (between st))
         /\ (code r = 400 -> store run = st))
        \/ (exists order jerseyNum,
              r = mkResponse 201 (Intake.created (Date_now env) b order)
              /\ store run = Intake.mkStore (Intake.orders (between st) ++ [order])
                                            (Intake.next_id (between st) + 1)
                                            (Intake.clock (between st))
              /\ Intake.id order = Intake.next_id (between st)
              /\ intake_row_ok b order
              /\ parseInt (field b "jerseyNumber") = Some jerseyNum
              /\ 1 <= jerseyNum <= 99
              /\ int4in (to_string (field b "jerseyNumber"))
                 = Some (Intake.jersey_number order)
              /\ mails_of all = [intake_confirmation b; intake_alert env b])).
Proof.
  cbv zeta.
  pose proof (intake_response int4in rejects Date_parse toISOString env between b st)
    as Hr. cbv zeta in Hr. destruct Hr as [_ ->].
  rewrite postOrders_trace_run. cbv zeta.
  pose proof (logs_only_admission int4in rejects Date_parse toISOString
                (Date_now env) between b st) as Hlogs.
  pose proof (early_return_code int4in rejects Date_parse toISOString
                (Date_now env) between b st) as Hearly.
  pose proof (admission_cases int4in rejects Date_parse toISOString
                (Date_now env) between b st) as Hc. cbv zeta in Hc.
  destruct Hc as [[resp Ha] | [(t & e & s' & Ha & Hs')
                              | (order & n & Ha & Hn & Hjn & Hid & _ & Hok & _ & _ & _
                                 & j & Hj & Hrange)]];
    rewrite Ha in Hlogs, Hearly |- *; cbn [result trace store answer] in *.
  - exists resp. split; [reflexivity |]. left.
    specialize (Hearly resp eq_refl).
    split; [destruct Hearly as [-> | ->]; cbn; tauto |].
    split; [reflexivity |]. split; [reflexivity |]. split; [left; reflexivity |].
    reflexivity.
  - exists (failure e).
    destruct (logs_no_mail _ Hlogs) as [Hm Hf].
    split.
    { rewrite !responses_of_app,
        (no_response_written t (logs_no_response _ Hlogs)). reflexivity. }
    left.
    split; [destruct (failure_code e) as [-> | ->]; cbn; tauto |].
    rewrite mails_of_app, fetches_of_app, mails_of_app, fetches_of_app, Hm, Hf.
    split; [reflexivity |]. split; [reflexivity |].
    split; [destruct Hs' as [-> | ->]; [left | right]; reflexivity |].
    destruct (failure_code e) as [-> | ->]; discriminate.
  - pose proof (dispatch_sync env b) as Hsync. cbv zeta in Hsync.
    destruct Hsync as (Hmails & _ & Hquiet).
    eexists. split.
    { cbn [app]. rewrite responses_of_app, (no_response_written _ Hquiet). cbn.
      rewrite merge_no_response; [reflexivity | |];
        unfold Intake.sendConfirmationEmail, Intake.sendAdminNotification;
        apply deferred_no_response. }
    right. exists order, j.
    split; [reflexivity |]. split; [reflexivity |]. split; [exact Hid |].
    split; [exact Hok |]. split; [exact Hj |]. split; [exact Hrange |].
    split; [rewrite Hjn; exact Hn |].
    cbn [app]. rewrite mails_of_app, Hmails. cbn [mails_of].
    rewrite merge_mails; [reflexivity | |];
      unfold Intake.sendConfirmationEmail, Intake.sendAdminNotification;
      apply deferred_mails.
Qed.

Lemma intake_mail_only_for_a_stored_order_witness :
  mails_of (Intake.postOrders_trace int4in_plain (fun _ => None) (fun _ => None) iso_sample
              online (fun s => s) [true; false] bob_wears_eight alice_admitted)
  = [intake_confirmation bob_wears_eight; intake_alert online bob_wears_eight]
  /\ mails_of (Intake.postOrders_trace int4in_plain (fun _ => None) (fun _ => None)
                 iso_sample online (fun s => s) [true; false] alice alice_admitted)
     = [].
Proof.
  pose proof (intake_mail_only_for_a_stored_order int4in_plain (fun _ => None)
                (fun _ => None) iso_sample online (fun s => s) [true; false]
                bob_wears_eight alice_admitted) as H1.
  pose proof (intake_mail_only_for_a_stored_order int4in_plain (fun _ => None)
                (fun _ => None) iso_sample online (fun s => s) [true; false]
                alice alice_admitted) as H2.
  cbv zeta in H1, H2.
  destruct H1 as (r1 & Hr1 & [(Hcode & _) | (order & j & _ & _ & _ & _ & _ & _ & _ & Hm)]).
  - vm_compute in Hr1. injection Hr1 as <-. cbn in Hcode.
    destruct Hcode as [H | [H | [H | []]]]; discriminate H.
  - split; [exact Hm |].
    destruct H2 as (r2 & Hr2 & [(_ & Hm2 & _) | (order2 & j2 & Hresp & _)]).
    + exact Hm2.
    + vm_compute in Hr2. injection Hr2 as <-. discriminate Hresp.
Defined.

(* ===================================================================== *)
(** ** The public checks                                                 *)
(* ===================================================================== *)

(** The rows a jersey check of the admin server reads. *)
Definition admin_holders (number : string) (st : Admin.Store) : list Admin.Order :=
  List.filter (fun o => String.eqb (Admin.jersey_number o) (jersey_param number))
              (Admin.orders st).

Definition admin_jersey_answer (number : string) (rows : list Admin.Order) : Response :=
  mkResponse 200
    (JObj [("available", JBool (match rows with [] => true | _ => false end));
           ("message",
            JStr (match rows with
                  | holder :: _ =>
                      "Jersey #" +:+ number +:+ " is taken by " +:+ Admin.name holder
                  | [] => "Jersey #" +:+ number +:+ " is available"
                  end))]).

Lemma admin_checkJersey_run number st :
  number <> "" ->
  Admin.checkJersey (Some number) st
  = mkRun [EvRespond (admin_jersey_answer number (admin_holders number st))] st (Value tt).
Proof.
  intros Hq. unfold Admin.checkJersey, present.
  apply String.eqb_neq in Hq. rewrite Hq. cbn [negb].
  unfold try_catch, try_finally, bind, query, Admin.select_by_jersey, Admin.client_end,
    ret, respond, emit, admin_holders, admin_jersey_answer.
  cbn [default]. reflexivity.
Qed.

Lemma num_to_string_inj n m : num_to_string n = num_to_string m -> n = m.
Proof.
  intros H. pose proof (parseInt_num_to_string n) as Hn.
  pose proof (parseInt_num_to_string m) as Hm.
  rewrite H in Hn. congruence.
Qed.

Lemma num_to_string_not_NaN n : num_to_string n <> "NaN".
Proof.
  unfold num_to_string. destruct (Z.to_int n) as [d | d]; cbn; [| discriminate].
  destruct d; discriminate.
Qed.

(** *** The text of a Number from 2^53 on is no small decimal text *)

Definition is_decimal_digit (c : ascii) : bool :=
  ((48 <=? N_of_ascii c) && (N_of_ascii c <=? 57))%N.

Lemma decimal_all_digits d :
  all_chars is_decimal_digit (NilEmpty.string_of_uint d) = true.
Proof. induction d; simpl; [reflexivity | ..]; exact IHd. Qed.

Lemma num_to_string_digits m :
  0 <= m -> all_chars is_decimal_digit (num_to_string m) = true.
Proof.
  intros Hm. unfold num_to_string.
  destruct (Z.to_int m) as [d | d] eqn:E.
  - cbn [NilZero.string_of_int]. destruct d; try reflexivity; apply decimal_all_digits.
  - destruct m; cbn in E; try discriminate. lia.
Qed.

Lemma nearest_double_sign c x :
  nearest_double c = Some x -> 9007199254740992 <= x -> 9007199254740992 <= c.
Proof.
  unfold nearest_double. cbv zeta.
  destruct (Z.abs c <? 9007199254740992) eqn:Es; [intros [= <-]; trivial |].
  apply Z.ltb_ge in Es.
  destruct (2 ^ 1024 <=? _); [discriminate |]. intros [= <-] Hx.
  set (e := Z.log2 (Z.abs c) - 52) in *.
  assert (Hpow : 0 <= 2 ^ e) by (apply Z.pow_nonneg; lia).
  assert (Hq : 0 <= Z.abs c / 2 ^ e) by (apply Z_div_nonneg_nonneg; lia).
  assert (Hmod : 0 <= (Z.abs c / 2 ^ e) mod 2) by (apply Z.mod_pos_bound; lia).
  set (q' := if 2 * (Z.abs c mod 2 ^ e) <? 2 ^ e then Z.abs c / 2 ^ e
             else if 2 ^ e <? 2 * (Z.abs c mod 2 ^ e) then Z.abs c / 2 ^ e + 1
                  else Z.abs c / 2 ^ e + (Z.abs c / 2 ^ e) mod 2) in *.
  assert (Hq' : 0 <= q').
  { unfold q'. destruct (2 * (Z.abs c mod 2 ^ e) <? 2 ^ e); [lia |].
    destruct (2 ^ e <? 2 * (Z.abs c mod 2 ^ e)); lia. }
  assert (Hprod : 0 <= q' * 2 ^ e) by nia.
  destruct (Z.sgn_spec c) as [[Hc Hs] | [[Hc Hs] | [Hc Hs]]]; rewrite Hs in Hx; lia.
Qed.

Lemma nearest_double_big n x :
  nearest_double n = Some x -> 9007199254740992 <= Z.abs n ->
  9007199254740992 <= Z.abs x.
Proof.
  unfold nearest_double. cbv zeta. intros H Hn.
  destruct (Z.abs n <? 9007199254740992) eqn:Es; [apply Z.ltb_lt in Es; lia |].
  destruct (2 ^ 1024 <=? _); [discriminate |]. injection H as <-.
  set (a := Z.abs n) in *.
  set (e := Z.log2 a - 52).
  assert (Hlog : 53 <= Z.log2 a).
  { change 53 with (Z.log2 (2 ^ 53)). apply Z.log2_le_mono.
    change (2 ^ 53) with 9007199254740992. exact Hn. }
  assert (He : 1 <= e) by (unfold e; lia).
  assert (Hpow : 2 <= 2 ^ e).
  { change 2 with (2 ^ 1) at 1. apply Z.pow_le_mono_r; lia. }
  assert (Hq : 4503599627370496 <= a / 2 ^ e).
  { apply Z.div_le_lower_bound; [lia |].
    change 4503599627370496 with (2 ^ 52). rewrite <- Z.pow_add_r by lia.
    replace (e + 52) with (Z.log2 a) by (unfold e; lia).
    apply Z.log2_spec. lia. }
  assert (Hmod : 0 <= (a / 2 ^ e) mod 2) by (apply Z.mod_pos_bound; lia).
  set (q' := if 2 * (a mod 2 ^ e) <? 2 ^ e then a / 2 ^ e
             else if 2 ^ e <? 2 * (a mod 2 ^ e) then a / 2 ^ e + 1
                  else a / 2 ^ e + (a / 2 ^ e) mod 2).
  assert (Hq' : 4503599627370496 <= q').
  { unfold q'. destruct (2 * (a mod 2 ^ e) <? 2 ^ e); [lia |].
    destruct (2 ^ e <? 2 * (a mod 2 ^ e)); lia. }
  assert (Hprod : 9007199254740992 <= q' * 2 ^ e) by nia.
  rewrite Z.abs_mul, (Z.abs_eq (q' * 2 ^ e)) by lia.
  assert (Hsgn : Z.abs (Z.sgn n) = 1).
  { destruct (Z.sgn_spec n) as [[Hc Hs] | [[Hc Hs] | [Hc Hs]]]; rewrite Hs;
      [reflexivity | unfold a in Hn; lia | reflexivity]. }
  rewrite Hsgn. lia.
Qed.

Lemma shortest_big fuel : forall x p,
  9007199254740992 <= x -> 9007199254740992 <= shortest fuel x p.
Proof.
  induction fuel as [| fuel IH]; intros x p Hx; [exact Hx |].
  cbn [shortest]. cbv zeta.
  assert (Hreads : forall c,
             match nearest_double c with Some y => y =? x | None => false end = true ->
             9007199254740992 <= c).
  { intros c Hc. destruct (nearest_double c) as [y |] eqn:Ey; [| discriminate].
    apply Z.eqb_eq in Hc. subst y. exact (nearest_double_sign c x Ey Hx). }
  destruct (match nearest_double (x / p * p) with
            | Some y => y =? x | None => false end) eqn:Elo;
    destruct (match nearest_double (x / p * p + p) with
              | Some y => y =? x | None => false end) eqn:Ehi;
    cbn [andb].
  - destruct (x - x / p * p <? x / p * p + p - x); [exact (Hreads _ Elo) |].
    destruct (x / p * p + p - x <? x - x / p * p); [exact (Hreads _ Ehi) |].
    destruct (Z.even (x / p * p / p)); [exact (Hreads _ Elo) | exact (Hreads _ Ehi)].
  - exact (Hreads _ Elo).
  - exact (Hreads _ Ehi).
  - apply IH. exact Hx.
Qed.

Lemma exponent_text_digits c :
  all_chars is_decimal_digit (exponent_text c) = true ->
  exponent_text c = num_to_string c.
Proof.
  unfold exponent_text. cbv zeta.
  destruct (drop_trailing_zeros (num_to_string c)) as [| d [| d' more]];
    [reflexivity | |]; simpl; rewrite ?andb_false_r; discriminate.
Qed.

(** What the driver binds for a Number equals the decimal text of a
    small non-negative integer only when the Number is that integer. *)
Lemma number_text_of_small n m :
  0 <= m < 9007199254740992 -> number_to_string n = num_to_string m -> n = m.
Proof.
  intros Hm H.
  destruct (Z_lt_le_dec (Z.abs n) 9007199254740992) as [Hs | Hb].
  { rewrite (number_to_string_small n Hs) in H. exact (num_to_string_inj n m H). }
  exfalso.
  pose proof (num_to_string_digits m (proj1 Hm)) as Hdigits. rewrite <- H in Hdigits.
  unfold number_to_string in H, Hdigits.
  destruct (nearest_double n) as [x |] eqn:Ex.
  - pose proof (nearest_double_big n x Ex Hb) as Hx.
    assert (Et : (Z.abs x <? 9007199254740992) = false) by (apply Z.ltb_ge; exact Hx).
    rewrite Et in H, Hdigits. cbv zeta in H, Hdigits.
    pose proof (shortest_big (String.length (num_to_string (Z.abs x))) (Z.abs x)
                  (10 ^ (Z.of_nat (String.length (num_to_string (Z.abs x))) - 1)) Hx)
      as Hc.
    set (c := shortest _ _ _) in *.
    destruct (x <? 0); [simpl in Hdigits; discriminate |].
    change ("" +:+ ?t) with t in H, Hdigits.
    destruct (Z.abs x <? 1000000000000000000000).
    + apply num_to_string_inj in H. lia.
    + rewrite (exponent_text_digits c Hdigits) in H.
      apply num_to_string_inj in H. lia.
  - destruct (n <? 0); simpl in Hdigits; discriminate.
Qed.

(** X9: a number the admin server has just stored is reported taken.
    After a submission answered 201, a jersey check for any text that
    parseInt reads as the number of the body answers 200 with
    [available] false, and leaves the table as it is. *)
Theorem admin_created_number_is_reported_taken
  (rejects : Admin.Order -> option Exn) (env : Env) (b : Body) (st : Admin.Store)
  (r : Response) (number : string)
  (Hr : response_of (trace (Admin.postOrders rejects env b st)) = Some r)
  (H201 : code r = 201)
  (Hq : number <> "")
  (Hn : parseInt_string number = parseInt (field b "jerseyNumber")) :
  let st' := store (Admin.postOrders rejects env b st) in
  exists holder rest,
    admin_holders number st' = holder :: rest
    /\ Admin.checkJersey (Some number) st'
       = mkRun [EvRespond (admin_jersey_answer number (holder :: rest))] st' (Value tt)
    /\ json_get "available" (payload (admin_jersey_answer number (holder :: rest)))
       = Some (JBool false).
Proof.
  cbv zeta.
  destruct (admin_201_inserted rejects env b st r Hr H201) as (n & order & Ev & Hins & _).
  destruct (admin_postOrders_outcome rejects env b st) as (_ & -> & _).
  unfold admin_outcome. rewrite Ev. cbv zeta. rewrite Hins. cbn [snd].
  pose proof (insert_new_cases rejects b n st) as Hc. cbv zeta in Hc.
  destruct Hc as [_ [(e & He & _) | (order' & Ho & Hst & _ & _ & _ & Hjn & _)]];
    [rewrite Hins in He; discriminate |].
  rewrite Hins in Ho. injection Ho as <-.
  destruct (admin_validate_inr b n Ev) as (Hp & _).
  assert (Hparam : jersey_param number = number_to_string n).
  { unfold jersey_param. rewrite Hn, Hp. reflexivity. }
  assert (Hin : In order (admin_holders number
                            (store (Admin.insert_new rejects b n st)))).
  { unfold admin_holders. apply List.filter_In. split.
    - rewrite Hst. cbn [Admin.orders]. apply in_or_app. right. left. reflexivity.
    - rewrite Hparam, Hjn. apply String.eqb_refl. }
  destruct (admin_holders number (store (Admin.insert_new rejects b n st)))
    as [| holder rest] eqn:Hh; [destruct Hin |].
  exists holder, rest. split; [reflexivity |].
  split; [| reflexivity].
  rewrite (admin_checkJersey_run number _ Hq), Hh. reflexivity.
Qed.

Lemma admin_created_number_is_reported_taken_witness :
  exists holder rest,
    admin_holders " 007 " (store (Admin.postOrders (fun _ => None) quiet alice empty_table))
    = holder :: rest
    /\ Admin.checkJersey (Some " 007 ")
         (store (Admin.postOrders (fun _ => None) quiet alice empty_table))
       = mkRun [EvRespond (admin_jersey_answer " 007 " (holder :: rest))]
               (store (Admin.postOrders (fun _ => None) quiet alice empty_table))
               (Value tt)
    /\ json_get "available" (payload (admin_jersey_answer " 007 " (holder :: rest)))
       = Some (JBool false).
Proof.
  pose proof (admin_created_number_is_reported_taken (fun _ => None) quiet alice empty_table
                (mkResponse 201
                   (Admin.created
                      (Admin.mkOrder 1 "Alice" "ICE-21-007" "7" None "M" "round" "short"
                                     "alice@example.com" None None "450" "pending" 0 0)))
                " 007 ") as H.
  cbv zeta in H. apply H.
  - vm_compute. reflexivity.
  - reflexivity.
  - discriminate.
  - vm_compute. reflexivity.
Defined.

(** X10: the jersey check of the admin server reports as available
    every number the order form would refuse.  On a table as the server
    writes it, a query text that parseInt does not read, or reads below 0
    or above 500, answers 200 with [available] true; the table is not
    changed. *)
Theorem admin_check_accepts_what_the_form_refuses
  (st : Admin.Store) (number : string)
  (Hst : admin_table_ok st)
  (Hq : number <> "")
  (Hn : forall n, parseInt_string number = Some n -> n < 0 \/ 500 < n) :
  Admin.checkJersey (Some number) st
  = mkRun [EvRespond
             (mkResponse 200
                (JObj [("available", JBool true);
                       ("message", JStr ("Jersey #" +:+ number +:+ " is available"))]))]
          st (Value tt).
Proof.
  rewrite (admin_checkJersey_run number st Hq).
  assert (Hnone : admin_holders number st = []).
  { unfold admin_holders.
    destruct (List.filter _ (Admin.orders st)) as [| o l] eqn:E; [reflexivity |].
    assert (Hin : In o (List.filter
                          (fun o => String.eqb (Admin.jersey_number o) (jersey_param number))
                          (Admin.orders st))) by (rewrite E; left; reflexivity).
    apply List.filter_In in Hin as [Hin Heq]. apply String.eqb_eq in Heq.
    destruct Hst as [_ Hrows]. rewrite List.Forall_forall in Hrows.
    destruct (Hrows o Hin) as (_ & (m & Hm & Hjn) & _).
    rewrite Hjn in Heq. unfold jersey_param in Heq.
    destruct (parseInt_string number) as [n |] eqn:Hp.
    - symmetry in Heq. apply number_text_of_small in Heq; [| lia].
      subst m. specialize (Hn n eq_refl). lia.
    - destruct (num_to_string_not_NaN m Heq). }
  rewrite Hnone. reflexivity.
Qed.

Ltac edges := split; intros ? [= <-]; reflexivity.

Lemma admin_check_accepts_what_the_form_refuses_witness :
  Admin.checkJersey (Some "eleven") (table [order_of_eve])
  = mkRun [EvRespond
             (mkResponse 200
                (JObj [("available", JBool true);
                       ("message", JStr "Jersey #eleven is available")]))]
          (table [order_of_eve]) (Value tt).
Proof.
  apply (admin_check_accepts_what_the_form_refuses (table [order_of_eve]) "eleven").
  - split; [split |].
    + apply NoDup_singleton.
    + constructor; [reflexivity | constructor].
    + constructor; [| constructor].
      unfold admin_row_ok. cbn.
      split; [left; reflexivity |].
      split; [exists 11; split; [lia | reflexivity] |].
      split; [edges |]. split; [edges |]. split; [edges |].
      split; [intros ? [= <-]; split; [discriminate | edges] |].
      split; intros ? [=].
  - discriminate.
  - intros n Hp. vm_compute in Hp. discriminate.
Defined.

Section IntakeChecks.

Variable int4in : string -> option Z.
Variable rejects : Intake.Order -> option Exn.
Variable Date_parse : Val -> option Z.
Variable toISOString : Z -> string.

(** A 201 of the intake server stands for a row appended to the table,
    as [admission_cases] describes it. *)
Lemma intake_201_inserted env between b st r :
  response_of (trace (Intake.postOrders int4in rejects Date_parse toISOString
                        env between b st)) = Some r ->
  code r = 201 ->
  exists order n,
    store (Intake.postOrders int4in rejects Date_parse toISOString env between b st)
    = Intake.mkStore (Intake.orders (between st) ++ [order])
                     (Intake.next_id (between st) + 1) (Intake.clock (between st))
    /\ r = mkResponse 201 (Intake.created (Date_now env) b order)
    /\ int4in (to_string (field b "jerseyNumber")) = Some n
    /\ Intake.jersey_number order = n
    /\ Intake.id order = Intake.next_id (between st)
    /\ intake_row_ok b order
    /\ existsb (wears n) (Intake.orders (between st)) = false.
Proof.
  intros Hr H201.
  pose proof (intake_response int4in rejects Date_parse toISOString env between b st)
    as Hi. cbv zeta in Hi. destruct Hi as [Hresp ->].
  rewrite Hresp in Hr. injection Hr as <-.
  pose proof (early_return_code int4in rejects Date_parse toISOString
                (Date_now env) between b st) as Hearly.
  pose proof (admission_cases int4in rejects Date_parse toISOString
                (Date_now env) between b st) as Hc. cbv zeta in Hc.
  destruct Hc as [[resp Ha] | [(t & e & s' & Ha & _)
                              | (order & n & Ha & Hn & Hjn & Hid & _ & Hok & _ & _ & Hfree
                                 & _)]];
    rewrite Ha in Hearly, H201 |- *; cbn [result store answer] in *.
  - destruct (Hearly resp eq_refl) as [H | H]; rewrite H in H201; discriminate.
  - destruct (failure_code e) as [H | H]; rewrite H in H201; discriminate.
  - exists order, n. repeat (split; [first [reflexivity | assumption] |]). exact Hfree.
Qed.

Definition intake_jersey_answer (number : string) (results : list Intake.Order)
  : Response :=
  mkResponse 200
    (JObj [("available", JBool (match results with [] => true | _ => false end));
           ("conflictingOrders", JNum (Z.of_nat (length results)));
           ("conflictDetails",
            match results with
            | holder :: _ =>
                JObj [("id", JNum (Intake.id holder)); ("name", JStr (Intake.name holder));
                      ("batch", json_of_opt (Intake.batch holder))]
            | [] => JNull
            end);
           ("message",
            JStr (match results with
                  | _ :: _ => "Jersey number " +:+ number +:+ " is already taken"
                  | [] => "Jersey number " +:+ number +:+ " is available"
                  end))]).

Definition check_error (e : Exn) : Response :=
  mkResponse 500 (JObj [("error", JStr "Internal server error");
                        ("details", JStr (exn_message e))]).

(** The jersey check of the intake server, by what the store makes of
    the parameter. *)
Lemma intake_checkJersey_run number st :
  number <> "" ->
  Intake.checkJersey int4in (Some number) st
  = match int4in (jersey_param number) with
    | Some n =>
        mkRun [EvRespond (intake_jersey_answer number
                            (List.filter (wears n) (Intake.orders st)))]
              st (Value tt)
    | None =>
        mkRun [EvLog LError "PostgreSQL Query Error:"; EvLog LError "Query:";
               EvLog LError "Params:";
               EvLog LError "Error checking jersey availability:";
               EvRespond (check_error Intake.bad_integer)]
              st (Value tt)
    end.
Proof.
  intros Hq. unfold Intake.checkJersey, present.
  apply String.eqb_neq in Hq. rewrite Hq. cbn [negb].
  change (default "" (Some number)) with number.
  unfold try_catch, bind, Intake.executeQuery, try_catch, query, Intake.select_by_jersey.
  destruct (int4in (jersey_param number)) as [n |]; reflexivity.
Qed.

Lemma filter_new_only n (rows : list Intake.Order) order :
  existsb (wears n) rows = false -> wears n order = true ->
  List.filter (wears n) (rows ++ [order]) = [order].
Proof.
  intros Hfree Hw. rewrite List.filter_app. cbn. rewrite Hw.
  induction rows as [| o rows IH]; [reflexivity |].
  cbn in Hfree |- *. apply orb_false_iff in Hfree as [-> Hrest].
  apply IH. exact Hrest.
Qed.

End IntakeChecks.

(** X11: a number the intake server has just stored is reported taken,
    by the order that holds it.  After a submission answered 201, a
    jersey check whose parameter the store reads as the number of the
    body answers 200 with [available] false, one conflicting order, and
    the id and name of the row just inserted; the table is as it was. *)
Theorem intake_created_number_is_reported_taken
  (int4in : string -> option Z) (rejects : Intake.Order -> option Exn)
  (Date_parse : Val -> option Z) (toISOString : Z -> string)
  (env : Env) (between : Intake.Store -> Intake.Store) (b : Body) (st : Intake.Store)
  (r : Response) (number : string)
  (Hr : response_of (trace (Intake.postOrders int4in rejects Date_parse toISOString
                              env between b st)) = Some r)
  (H201 : code r = 201)
  (Hq : number <> "")
  (Hn : int4in (jersey_param number) = int4in (to_string (field b "jerseyNumber"))) :
  let st' := store (Intake.postOrders int4in rejects Date_parse toISOString
                      env between b st) in
  exists order s,
    Intake.checkJersey int4in (Some number) st'
    = mkRun [EvRespond (intake_jersey_answer number [order])] st' (Value tt)
    /\ In order (Intake.orders st')
    /\ Intake.id order = Intake.next_id (between st)
    /\ field b "name" = VStr s /\ Intake.name order = trim s
    /\ json_get "available" (payload (intake_jersey_answer number [order]))
       = Some (JBool false)
    /\ json_get "conflictingOrders" (payload (intake_jersey_answer number [order]))
       = Some (JNum 1).
Proof.
  cbv zeta.
  destruct (intake_201_inserted int4in rejects Date_parse toISOString env between b st r
              Hr H201)
    as (order & n & -> & _ & Hint & Hjn & Hid & Hok & Hfree).
  destruct Hok as (_ & (s & Hs & Hname) & _).
  exists order, s.
  rewrite (intake_checkJersey_run int4in number _ Hq), Hn, Hint.
  cbn [Intake.orders].
  rewrite (filter_new_only n _ order Hfree)
    by (unfold wears; apply Z.eqb_eq; exact Hjn).
  split; [reflexivity |].
  split; [apply in_or_app; right; left; reflexivity |].
  split; [exact Hid |]. split; [exact Hs |]. split; [exact Hname |].
  split; reflexivity.
Qed.

Lemma intake_created_number_is_reported_taken_witness :
  exists order s,
    Intake.checkJersey int4in_plain (Some "07")
      (store (Intake.postOrders int4in_plain (fun _ => None) (fun _ => None) iso_sample
                                quiet (fun s => s) alice (Intake.mkStore [] 1 0)))
    = mkRun [EvRespond (intake_jersey_answer "07" [order])]
            (store (Intake.postOrders int4in_plain (fun _ => None) (fun _ => None)
                                      iso_sample quiet (fun s => s) alice
                                      (Intake.mkStore [] 1 0)))
            (Value tt)
    /\ In order
          (Intake.orders
             (store (Intake.postOrders int4in_plain (fun _ => None) (fun _ => None)
                                       iso_sample quiet (fun s => s) alice
                                       (Intake.mkStore [] 1 0))))
    /\ Intake.id order = 1
    /\ field alice "name" = VStr s /\ Intake.name order = trim s
    /\ json_get "available" (payload (intake_jersey_answer "07" [order]))
       = Some (JBool false)
    /\ json_get "conflictingOrders" (payload (intake_jersey_answer "07" [order]))
       = Some (JNum 1).
Proof.
  pose proof (intake_created_number_is_reported_taken int4in_plain (fun _ => None)
                (fun _ => None) iso_sample quiet (fun s => s) alice (Intake.mkStore [] 1 0)
                (mkResponse 201
                   (Intake.created 0 alice
                      (Intake.mkOrder 1 "Alice" "ICE-21-007" 7 None "M" "round" "short"
                         "alice@example.com" None None "450" "2025-03-01 10:00:00" "ICE"
                         "pending" 0 0)))
                "07") as H.
  cbv zeta in H. apply H.
  - vm_compute. reflexivity.
  - reflexivity.
  - discriminate.
  - vm_compute. reflexivity.
Defined.

(** *** The name checks *)

Definition admin_name_answer (name : string) (rows : list Admin.Order) : Response :=
  mkResponse 200
    (JObj [("exists", JBool (match rows with [] => false | _ => true end));
           ("message",
            JStr (match rows with
                  | _ :: _ => "Name " +:+ dquote +:+ name +:+ dquote +:+ " already exists"
                  | [] => "Name " +:+ dquote +:+ name +:+ dquote +:+ " is available"
                  end))]).

Definition intake_name_answer (name : string) (results : list Intake.Order) : Response :=
  mkResponse 200
    (JObj [("exists", JBool (match results with [] => false | _ => true end));
           ("conflictingOrders", JNum (Z.of_nat (length results)));
           ("message",
            JStr (match results with
                  | _ :: _ => "Name " +:+ dquote +:+ name +:+ dquote
                              +:+ " already exists in the database"
                  | [] => "Name " +:+ dquote +:+ name +:+ dquote +:+ " is available"
                  end))]).

Section NameChecks.

Variable lower : string -> string.

(** The rows whose name is the query's, trimmed, under [LOWER]. *)
Definition admin_namesakes (q : string) (st : Admin.Store) : list Admin.Order :=
  List.filter (fun o => String.eqb (lower (Admin.name o)) (lower (trim q)))
              (Admin.orders st).

Definition intake_namesakes (q : string) (st : Intake.Store) : list Intake.Order :=
  List.filter (fun o => String.eqb (lower (Intake.name o)) (lower (trim q)))
              (Intake.orders st).

Lemma admin_checkName_run q st :
  q <> "" ->
  Admin.checkName lower (Some q) st
  = mkRun [EvRespond (admin_name_answer q (admin_namesakes q st))] st (Value tt).
Proof.
  intros Hq. unfold Admin.checkName, present.
  apply String.eqb_neq in Hq. rewrite Hq. cbn [negb].
  change (default "" (Some q)) with q.
  unfold try_catch, try_finally, bind, query, Admin.select_by_name, Admin.client_end,
    ret, respond, emit, admin_namesakes, admin_name_answer.
  reflexivity.
Qed.

Lemma intake_checkName_run q st :
  q <> "" ->
  Intake.checkName lower (Some q) st
  = mkRun [EvRespond (intake_name_answer q (intake_namesakes q st))] st (Value tt).
Proof.
  intros Hq. unfold Intake.checkName, present.
  apply String.eqb_neq in Hq. rewrite Hq. cbn [negb].
  change (default "" (Some q)) with q.
  unfold try_catch, bind, Intake.executeQuery, try_catch, query, Intake.select_by_name,
    respond, emit, intake_namesakes, intake_name_answer.
  reflexivity.
Qed.

End NameChecks.

(** X12: a name the admin server has just stored is reported to exist,
    whatever the case and the surrounding white space of the query.
    After a submission with name [s] answered 201, a name check for a
    non-empty [q] whose trimmed text equals the trimmed [s] under LOWER
    answers 200 with [exists] true. *)
Theorem admin_created_name_is_reported
  (lower : string -> string)
  (rejects : Admin.Order -> option Exn) (env : Env) (b : Body) (st : Admin.Store)
  (r : Response) (s q : string)
  (Hr : response_of (trace (Admin.postOrders rejects env b st)) = Some r)
  (H201 : code r = 201)
  (Hs : field b "name" = VStr s)
  (Hq : q <> "")
  (Hlow : lower (trim q) = lower (trim s)) :
  let st' := store (Admin.postOrders rejects env b st) in
  exists holder rest,
    Admin.checkName lower (Some q) st'
    = mkRun [EvRespond (admin_name_answer q (holder :: rest))] st' (Value tt)
    /\ json_get "exists" (payload (admin_name_answer q (holder :: rest)))
       = Some (JBool true).
Proof.
  cbv zeta.
  destruct (admin_201_inserted rejects env b st r Hr H201) as (n & order & Ev & Hins & _).
  destruct (admin_postOrders_outcome rejects env b st) as (_ & -> & _).
  unfold admin_outcome. rewrite Ev. cbv zeta. rewrite Hins. cbn [snd].
  pose proof (insert_new_cases rejects b n st) as Hc. cbv zeta in Hc.
  destruct Hc as [_ [(e & He & _)
                    | (order' & Ho & Hst & _ & _ & _ & _ & _ & _ & (s' & Hs' & Hname) & _)]];
    [rewrite Hins in He; discriminate |].
  rewrite Hins in Ho. injection Ho as <-.
  rewrite Hs in Hs'. injection Hs' as <-.
  assert (Hin : In order (admin_namesakes lower q
                            (store (Admin.insert_new rejects b n st)))).
  { unfold admin_namesakes. apply List.filter_In. split.
    - rewrite Hst. cbn [Admin.orders]. apply in_or_app. right. left. reflexivity.
    - rewrite Hname, Hlow. apply String.eqb_refl. }
  rewrite (admin_checkName_run lower q _ Hq).
  destruct (admin_namesakes lower q (store (Admin.insert_new rejects b n st)))
    as [| holder rest]; [destruct Hin |].
  exists holder, rest. split; reflexivity.
Qed.

(** ASCII lower case, for the examples. *)
Fixpoint lower_ascii (s : string) : string :=
  match s with
  | EmptyString => EmptyString
  | String c r =>
      String (if (65 <=? Z.of_nat (nat_of_ascii c)) && (Z.of_nat (nat_of_ascii c) <=? 90)
              then ascii_of_nat (nat_of_ascii c + 32) else c)
             (lower_ascii r)
  end.

Lemma admin_created_name_is_reported_witness :
  exists holder rest,
    Admin.checkName lower_ascii (Some "  ALICE")
      (store (Admin.postOrders (fun _ => None) quiet alice empty_table))
    = mkRun [EvRespond (admin_name_answer "  ALICE" (holder :: rest))]
            (store (Admin.postOrders (fun _ => None) quiet alice empty_table)) (Value tt)
    /\ json_get "exists" (payload (admin_name_answer "  ALICE" (holder :: rest)))
       = Some (JBool true).
Proof.
  pose proof (admin_created_name_is_reported lower_ascii (fun _ => None) quiet alice
                empty_table
                (mkResponse 201
                   (Admin.created
                      (Admin.mkOrder 1 "Alice" "ICE-21-007" "7" None "M" "round" "short"
                                     "alice@example.com" None None "450" "pending" 0 0)))
                " Alice " "  ALICE") as H.
  cbv zeta in H. apply H.
  - vm_compute. reflexivity.
  - reflexivity.
  - reflexivity.
  - discriminate.
  - vm_compute. reflexivity.
Defined.

(** X13: the same for the intake server, whose answer also counts the
    rows: after a submission with name [s] answered 201, a name check for
    a non-empty [q] whose trimmed text equals the trimmed [s] under LOWER
    answers 200 with [exists] true and at least one conflicting order. *)
Theorem intake_created_name_is_reported
  (lower : string -> string)
  (int4in : string -> option Z) (rejects : Intake.Order -> option Exn)
  (Date_parse : Val -> option Z) (toISOString : Z -> string)
  (env : Env) (between : Intake.Store -> Intake.Store) (b : Body) (st : Intake.Store)
  (r : Response) (s q : string)
  (Hr : response_of (trace (Intake.postOrders int4in rejects Date_parse toISOString
                              env between b st)) = Some r)
  (H201 : code r = 201)
  (Hs : field b "name" = VStr s)
  (Hq : q <> "")
  (Hlow : lower (trim q) = lower (trim s)) :
  let st' := store (Intake.postOrders int4in rejects Date_parse toISOString
                      env between b st) in
  exists holder rest,
    Intake.checkName lower (Some q) st'
    = mkRun [EvRespond (intake_name_answer q (holder :: rest))] st' (Value tt)
    /\ json_get "exists" (payload (intake_name_answer q (holder :: rest)))
       = Some (JBool true)
    /\ json_get "conflictingOrders" (payload (intake_name_answer q (holder :: rest)))
       = Some (JNum (Z.of_nat (S (length rest)))).
Proof.
  cbv zeta.
  destruct (intake_201_inserted int4in rejects Date_parse toISOString env between b st r
              Hr H201)
    as (order & n & Hst & _ & _ & _ & _ & Hok & _).
  destruct Hok as (_ & (s' & Hs' & Hname) & _).
  rewrite Hs in Hs'. injection Hs' as <-.
  assert (Hin : In order (intake_namesakes lower q
                            (store (Intake.postOrders int4in rejects Date_parse toISOString
                                      env between b st)))).
  { unfold intake_namesakes. apply List.filter_In. split.
    - rewrite Hst. cbn [Intake.orders]. apply in_or_app. right. left. reflexivity.
    - rewrite Hname, Hlow. apply String.eqb_refl. }
  rewrite (intake_checkName_run lower q _ Hq).
  destruct (intake_namesakes lower q _) as [| holder rest]; [destruct Hin |].
  exists holder, rest. split; [reflexivity |]. split; reflexivity.
Qed.

Lemma intake_created_name_is_reported_witness :
  exists holder rest,
    Intake.checkName lower_ascii (Some "alice ")
      (store (Intake.postOrders int4in_plain (fun _ => None) (fun _ => None) iso_sample
                                quiet (fun s => s) bob_wears_eight alice_admitted))
    = mkRun [EvRespond (intake_name_answer "alice " (holder :: rest))]
            (store (Intake.postOrders int4in_plain (fun _ => None) (fun _ => None)
                                      iso_sample quiet (fun s => s) bob_wears_eight
                                      alice_admitted))
            (Value tt)
    /\ json_get "exists" (payload (intake_name_answer "alice " (holder :: rest)))
       = Some (JBool true)
    /\ json_get "conflictingOrders" (payload (intake_name_answer "alice " (holder :: rest)))
       = Some (JNum (Z.of_nat (S (length rest)))).
Proof.
  pose proof (intake_created_name_is_reported lower_ascii int4in_plain (fun _ => None)
                (fun _ => None) iso_sample quiet (fun s => s) bob_wears_eight alice_admitted
                (mkResponse 201
                   (Intake.created 0 bob_wears_eight
                      (Intake.mkOrder 2 "Alice" "ICE-21-007" 8 None "M" "round" "short"
                         "alice@example.com" None None "450" "2025-03-01 10:00:00" "ICE"
                         "pending" 4 4)))
                " Alice " "alice ") as H.
  cbv zeta in H. apply H.
  - vm_compute. reflexivity.
  - reflexivity.
  - reflexivity.
  - discriminate.
  - vm_compute. reflexivity.
Defined.

(* ===================================================================== *)
(** ** The admin session                                                 *)
(* ===================================================================== *)

Definition not_blank (c : ascii) : bool := negb (Ascii.eqb c " ").

Lemma split_space_piece a r :
  all_chars not_blank a = true ->
  Admin.split_space (a +:+ String " " r) = a :: Admin.split_space r.
Proof.
  induction a as [| c a IH]; [reflexivity |].
  simpl. intros H. apply andb_true_iff in H as [Hc Ha].
  unfold not_blank in Hc. apply negb_true_iff in Hc. rewrite Hc, (IH Ha). reflexivity.
Qed.

Lemma split_space_whole a :
  all_chars not_blank a = true -> Admin.split_space a = [a].
Proof.
  induction a as [| c a IH]; [reflexivity |].
  simpl. intros H. apply andb_true_iff in H as [Hc Ha].
  unfold not_blank in Hc. apply negb_true_iff in Hc. rewrite Hc, (IH Ha). reflexivity.
Qed.

Lemma append_empty s : s +:+ EmptyString = s.
Proof.
  induction s as [| c s IH]; [reflexivity |].
  change (String c s +:+ "") with (String c (s +:+ "")). rewrite IH. reflexivity.
Qed.

(** What follows the token in the header: nothing, or a space and
    anything. *)
Definition after_token (tail : option string) : string :=
  match tail with
  | Some t => String " " t
  | None => EmptyString
  end.

Lemma bearer_second_piece scheme tok tail :
  all_chars not_blank scheme = true ->
  all_chars not_blank tok = true ->
  Admin.bearer (Some (scheme +:+ String " " (tok +:+ after_token tail))) = Some tok.
Proof.
  intros Hscheme Htok. unfold Admin.bearer, present.
  assert (Hne : String.eqb (scheme +:+ String " " (tok +:+ after_token tail)) "" = false).
  { apply String.eqb_neq. destruct scheme; discriminate. }
  rewrite Hne. cbn [negb].
  change (default "" (Some ?x)) with x.
  rewrite (split_space_piece scheme _ Hscheme). cbn [nth_error].
  destruct tail as [t |]; cbn [after_token].
  - rewrite (split_space_piece tok t Htok). reflexivity.
  - rewrite append_empty, (split_space_whole tok Htok). reflexivity.
Qed.

Definition invalid_token : Response :=
  mkResponse 403 (JObj [("error", JStr "Invalid token")]).

Definition token_required : Response :=
  mkResponse 401 (JObj [("error", JStr "Access token required")]).

Lemma authenticateToken_run
  (jwt_verify : string -> string -> option Json) (JWT_SECRET : option string)
  (scheme tok : string) (tail : option string)
  (next : Json -> M Admin.Store unit) (st : Admin.Store) :
  all_chars not_blank scheme = true ->
  all_chars not_blank tok = true ->
  tok <> "" ->
  Admin.authenticateToken jwt_verify JWT_SECRET
    (Some (scheme +:+ String " " (tok +:+ after_token tail))) next st
  = match jwt_verify tok (Admin.secret JWT_SECRET) with
    | Some decoded => next decoded st
    | None => mkRun [EvRespond invalid_token] st (Value tt)
    end.
Proof.
  intros Hscheme Htok Hne. unfold Admin.authenticateToken.
  rewrite (bearer_second_piece scheme tok tail Hscheme Htok).
  unfold present at 1. apply String.eqb_neq in Hne. rewrite Hne. cbn [negb].
  change (default "" (Some tok)) with tok.
  destruct (jwt_verify tok _); reflexivity.
Qed.

(** X14: the token check reads the second space-separated piece of the
    Authorization header and nothing else of it.  With a first piece
    [scheme] and a non-empty second piece [tok], whatever the first
    piece is (no 'Bearer' is asked for) and whatever follows the second,
    the handler behind the check runs exactly when [jwt.verify] accepts
    [tok] under the configured secret, with the decoded payload;
    otherwise the answer is 403 and the store is not touched.  Without a
    header the answer is 401 and the handler does not run. *)
Theorem token_is_the_second_piece
  (jwt_verify : string -> string -> option Json) (JWT_SECRET : option string)
  (scheme tok : string) (tail : option string)
  (next : Json -> M Admin.Store unit) (st : Admin.Store)
  (Hscheme : all_chars not_blank scheme = true)
  (Htok : all_chars not_blank tok = true)
  (Hne : tok <> "") :
  Admin.authenticateToken jwt_verify JWT_SECRET
    (Some (scheme +:+ String " " (tok +:+ after_token tail))) next st
  = match jwt_verify tok (if present JWT_SECRET then default "" JWT_SECRET
                          else "fallback-secret") with
    | Some decoded => next decoded st
    | None => mkRun [EvRespond invalid_token] st (Value tt)
    end
  /\ Admin.authenticateToken jwt_verify JWT_SECRET None next st
     = mkRun [EvRespond token_required] st (Value tt)
  /\ Admin.authenticateToken jwt_verify JWT_SECRET (Some scheme) next st
     = mkRun [EvRespond token_required] st (Value tt).
Proof.
  split; [| split].
  - apply authenticateToken_run; assumption.
  - reflexivity.
  - unfold Admin.authenticateToken, Admin.bearer.
    destruct (present (Some scheme)); [| reflexivity].
    change (default "" (Some scheme)) with scheme.
    rewrite (split_space_whole scheme Hscheme). reflexivity.
Qed.

(** A toy signer for the examples: the token names the user. *)
Definition toy_sign (payload : Json) (secret : string) : string :=
  match json_get "username" payload with
  | Some (JStr u) => u +:+ "." +:+ secret
  | _ => "."
  end.

Definition toy_verify (token secret : string) : option Json :=
  if String.eqb token ("noor." +:+ secret)
  then Some (JObj [("id", JNum 3); ("username", JStr "noor"); ("iat", JNum 0)])
  else None.

Lemma token_is_the_second_piece_witness :
  Admin.authenticateToken toy_verify None (Some "Basic noor.fallback-secret trailing")
    (fun decoded => Admin.verify decoded) empty_table
  = mkRun [EvRespond (mkResponse 200
                        (JObj [("success", JBool true);
                               ("admin", JObj [("username", JStr "noor")])]))]
          empty_table (Value tt).
Proof.
  pose proof (token_is_the_second_piece toy_verify None "Basic" "noor.fallback-secret"
                (Some "trailing") (fun decoded => Admin.verify decoded) empty_table)
    as H.
  destruct H as [H _]; [reflexivity | reflexivity | discriminate |].
  exact H.
Defined.

Section LoginRuns.

Variable bcrypt_compare : Val -> string -> Result bool.
Variable jwt_sign : Json -> string -> string.

(** The rows the login reads. *)
Definition named (b : Body) (users : list Admin.AdminUser) : list Admin.AdminUser :=
  List.filter (fun u => String.eqb (Admin.username u) (to_string (field b "username")))
              users.

Definition credentials_required : Response :=
  mkResponse 400 (JObj [("error", JStr "Username and password required")]).

Definition login_refused : Response := mkResponse 401 Admin.invalid_credentials.

Definition login_failed : Response :=
  mkResponse 500 (JObj [("error", JStr "Login failed")]).

Definition logged_in (JWT_SECRET : option string) (user : Admin.AdminUser) : Response :=
  mkResponse 200
    (JObj [("success", JBool true);
           ("token",
            JStr (jwt_sign (JObj [("id", JNum (Admin.user_id user));
                                  ("username", JStr (Admin.username user))])
                           (Admin.secret JWT_SECRET)));
           ("admin", JObj [("username", JStr (Admin.username user))])]).

(** The login, by cases. *)
Lemma login_run JWT_SECRET b users :
  Admin.login bcrypt_compare jwt_sign JWT_SECRET b users
  = if negb (truthy (field b "username")) || negb (truthy (field b "password"))
    then mkRun [EvRespond credentials_required] users (Value tt)
    else match named b users with
         | [] => mkRun [EvRespond login_refused] users (Value tt)
         | user :: _ =>
             match bcrypt_compare (field b "password") (Admin.password_hash user) with
             | Value true => mkRun [EvRespond (logged_in JWT_SECRET user)] users (Value tt)
             | Value false => mkRun [EvRespond login_refused] users (Value tt)
             | Throw _ =>
                 mkRun [EvLog LError "Login error:"; EvRespond login_failed] users
                       (Value tt)
             end
         end.
Proof.
  unfold Admin.login. cbv zeta.
  destruct (negb (truthy (field b "username")) || negb (truthy (field b "password")));
    [reflexivity |].
  unfold try_catch, try_finally, bind, query, Admin.select_user, named.
  destruct (List.filter _ users) as [| user rest]; [reflexivity |].
  destruct (bcrypt_compare (field b "password") (Admin.password_hash user)) as [[|] | e];
    reflexivity.
Qed.

End LoginRuns.

(** X15: the login answers 200 only to a stored user whose password
    compares, and a refusal does not tell why.  The table of users is
    never changed.  The answer is 200 exactly when both fields are
    truthy, a row has the user name and [bcrypt.compare] resolves to true
    on the first such row; when no row has the name, and when the
    comparison resolves to false, the request leaves the same trace: the
    one 401 'Invalid credentials'. *)
Theorem login_refusals_look_alike
  (bcrypt_compare : Val -> string -> Result bool) (jwt_sign : Json -> string -> string)
  (JWT_SECRET : option string) (b : Body) (users : list Admin.AdminUser) :
  let run := Admin.login bcrypt_compare jwt_sign JWT_SECRET b users in
  store run = users
  /\ result run = Value tt
  /\ (exists r, response_of (trace run) = Some r /\ In (code r) [200; 400; 401; 500])
  /\ (option_map code (response_of (trace run)) = Some 200 <->
      truthy (field b "username") = true /\ truthy (field b "password") = true
      /\ exists user rest,
           named b users = user :: rest
           /\ bcrypt_compare (field b "password") (Admin.password_hash user) = Value true)
  /\ (truthy (field b "username") = true -> truthy (field b "password") = true ->
      named b users = []
      \/ (exists user rest,
            named b users = user :: rest
            /\ bcrypt_compare (field b "password") (Admin.password_hash user)
               = Value false) ->
      trace run = [EvRespond login_refused]).
Proof.
  cbv zeta. rewrite login_run.
  destruct (truthy (field b "username")) eqn:Hu; cbn [negb orb].
  2: { split; [reflexivity |]. split; [reflexivity |].
       split; [eexists; split; [reflexivity | cbn; tauto] |].
       split; [split; [intros H; discriminate H | intros (H & _); discriminate H] |].
       intros H; discriminate H. }
  destruct (truthy (field b "password")) eqn:Hp; cbn [negb].
  2: { split; [reflexivity |]. split; [reflexivity |].
       split; [eexists; split; [reflexivity | cbn; tauto] |].
       split; [split; [intros H; discriminate H | intros (_ & H & _); discriminate H] |].
       intros _ H; discriminate H. }
  destruct (named b users) as [| user rest] eqn:Hrows.
  { split; [reflexivity |]. split; [reflexivity |].
    split; [eexists; split; [reflexivity | cbn; tauto] |].
    split; [split; [intros H; discriminate H
                   | intros (_ & _ & u & l & H & _); discriminate H] |].
    reflexivity. }
  destruct (bcrypt_compare (field b "password") (Admin.password_hash user))
    as [[|] | e] eqn:Hcmp.
  - split; [reflexivity |]. split; [reflexivity |].
    split; [eexists; split; [reflexivity | cbn; tauto] |].
    split.
    + split; [intros _ | reflexivity].
      split; [reflexivity |]. split; [reflexivity |].
      exists user, rest. split; [reflexivity | exact Hcmp].
    + intros _ _ [H | (u & l & H & Hc)]; [discriminate H |].
      injection H as <- <-. rewrite Hcmp in Hc. discriminate Hc.
  - split; [reflexivity |]. split; [reflexivity |].
    split; [eexists; split; [reflexivity | cbn; tauto] |].
    split; [| reflexivity].
    split; [intros H; discriminate H |].
    intros (_ & _ & u & l & H & Hc). injection H as <- <-.
    rewrite Hcmp in Hc. discriminate Hc.
  - split; [reflexivity |]. split; [reflexivity |].
    split; [eexists; split; [reflexivity | cbn; tauto] |].
    split.
    + split; [intros H; discriminate H |].
      intros (_ & _ & u & l & H & Hc). injection H as <- <-.
      rewrite Hcmp in Hc. discriminate Hc.
    + intros _ _ [H | (u & l & H & Hc)]; [discriminate H |].
      injection H as <- <-. rewrite Hcmp in Hc. discriminate Hc.
Qed.

(** A toy comparison for the examples: the hash is the password after a
    prefix; anything but a string is refused. *)
Definition toy_compare (password : Val) (hash : string) : Result bool :=
  match password with
  | VStr s => Value (String.eqb ("hash:" +:+ s) hash)
  | _ => Throw (JsError "Error" "Illegal arguments")
  end.

Definition noor : Admin.AdminUser := Admin.mkAdminUser 3 "noor" "hash:noorabdullah".

Definition credentials (username password : string) : Body :=
  list_to_map [("username", VStr username); ("password", VStr password)].

Lemma login_refusals_look_alike_witness :
  trace (Admin.login toy_compare toy_sign None (credentials "nobody" "noorabdullah") [noor])
  = [EvRespond login_refused]
  /\ trace (Admin.login toy_compare toy_sign None (credentials "noor" "guess") [noor])
     = [EvRespond login_refused]
  /\ option_map code
       (response_of
          (trace (Admin.login toy_compare toy_sign None (credentials "noor" "noorabdullah")
                    [noor])))
     = Some 200.
Proof.
  pose proof (login_refusals_look_alike toy_compare toy_sign None
                (credentials "nobody" "noorabdullah") [noor]) as H1.
  pose proof (login_refusals_look_alike toy_compare toy_sign None
                (credentials "noor" "guess") [noor]) as H2.
  pose proof (login_refusals_look_alike toy_compare toy_sign None
                (credentials "noor" "noorabdullah") [noor]) as H3.
  cbv zeta in H1, H2, H3.
  destruct H1 as (_ & _ & _ & _ & H1). destruct H2 as (_ & _ & _ & _ & H2).
  destruct H3 as (_ & _ & _ & H3 & _).
  split; [| split].
  - apply H1; [reflexivity | reflexivity | left; reflexivity].
  - apply H2; [reflexivity | reflexivity |].
    right. exists noor, []. split; reflexivity.
  - apply H3. split; [reflexivity |]. split; [reflexivity |].
    exists noor, []. split; reflexivity.
Defined.

(** The token the login makes for a user. *)
Definition session_token (jwt_sign : Json -> string -> string)
    (JWT_SECRET : option string) (user : Admin.AdminUser) : string :=
  jwt_sign (JObj [("id", JNum (Admin.user_id user));
                  ("username", JStr (Admin.username user))])
           (Admin.secret JWT_SECRET).

(** X16: a token the login hands out opens the session it names.  When
    [jwt.verify] accepts, under the same secret, what [jwt.sign] made and
    gives back the payload's [username], and a token is one piece
    without a space, then after a login answered 200 the request
    [GET /api/admin/verify] with [Bearer] and the token of the answer is
    answered 200 with the user name of a stored user, the one the login
    was asked for, whose password compared.  The assumptions on the
    library are asked of the tokens of stored users only. *)
Theorem login_token_opens_the_session
  (bcrypt_compare : Val -> string -> Result bool) (jwt_sign : Json -> string -> string)
  (jwt_verify : string -> string -> option Json)
  (JWT_SECRET : option string) (b : Body) (users : list Admin.AdminUser)
  (r : Response) (st : Admin.Store)
  (Hverify : forall user, In user users ->
      exists decoded,
        jwt_verify (session_token jwt_sign JWT_SECRET user) (Admin.secret JWT_SECRET)
        = Some decoded
        /\ json_get "username" decoded = Some (JStr (Admin.username user)))
  (Htoken : forall user, In user users ->
      all_chars not_blank (session_token jwt_sign JWT_SECRET user) = true
      /\ session_token jwt_sign JWT_SECRET user <> "")
  (Hr : response_of (trace (Admin.login bcrypt_compare jwt_sign JWT_SECRET b users))
        = Some r)
  (H200 : code r = 200) :
  exists token user,
    json_get "token" (payload r) = Some (JStr token)
    /\ In user users
    /\ Admin.username user = to_string (field b "username")
    /\ bcrypt_compare (field b "password") (Admin.password_hash user) = Value true
    /\ Admin.authenticateToken jwt_verify JWT_SECRET (Some ("Bearer " +:+ token))
         (fun decoded => Admin.verify decoded) st
       = mkRun [EvRespond
                  (mkResponse 200
                     (JObj [("success", JBool true);
                            ("admin", JObj [("username", JStr (Admin.username user))])]))]
               st (Value tt).
Proof.
  rewrite login_run in Hr.
  destruct (negb (truthy (field b "username")) || negb (truthy (field b "password")));
    [injection Hr as <-; discriminate H200 |].
  destruct (named b users) as [| user rest] eqn:Hrows;
    [injection Hr as <-; discriminate H200 |].
  destruct (bcrypt_compare (field b "password") (Admin.password_hash user))
    as [[|] | e] eqn:Hcmp;
    [| injection Hr as <-; discriminate H200 | injection Hr as <-; discriminate H200].
  injection Hr as <-.
  assert (Hin : In user (named b users)) by (rewrite Hrows; left; reflexivity).
  apply List.filter_In in Hin as [Hin Hname]. apply String.eqb_eq in Hname.
  exists (session_token jwt_sign JWT_SECRET user), user.
  split; [reflexivity |]. split; [exact Hin |]. split; [exact Hname |].
  split; [exact Hcmp |].
  destruct (Htoken user Hin) as [Hpiece Hne].
  destruct (Hverify user Hin) as (decoded & Hdec & Huser).
  pose proof (authenticateToken_run jwt_verify JWT_SECRET "Bearer"
                (session_token jwt_sign JWT_SECRET user) None
                (fun decoded => Admin.verify decoded) st eq_refl Hpiece Hne) as Hauth.
  cbn [after_token] in Hauth. rewrite append_empty in Hauth.
  change ("Bearer" +:+ String " " ?t) with ("Bearer " +:+ t) in Hauth.
  rewrite Hauth, Hdec.
  unfold Admin.verify, respond, emit. rewrite Huser. reflexivity.
Qed.

Lemma login_token_opens_the_session_witness :
  exists token user,
    json_get "token" (payload (logged_in toy_sign None noor)) = Some (JStr token)
    /\ In user [noor]
    /\ Admin.username user = "noor"
    /\ toy_compare (VStr "noorabdullah") (Admin.password_hash user) = Value true
    /\ Admin.authenticateToken toy_verify None (Some ("Bearer " +:+ token))
         (fun decoded => Admin.verify decoded) empty_table
       = mkRun [EvRespond
                  (mkResponse 200
                     (JObj [("success", JBool true);
                            ("admin", JObj [("username", JStr (Admin.username user))])]))]
               empty_table (Value tt).
Proof.
  apply (login_token_opens_the_session toy_compare toy_sign toy_verify None
           (credentials "noor" "noorabdullah") [noor]
           (logged_in toy_sign None noor) empty_table).
  - intros user [<- | []]. eexists. split; reflexivity.
  - intros user [<- | []]. split; [reflexivity | discriminate].
  - reflexivity.
  - reflexivity.
Defined.

(* ===================================================================== *)
(** ** The statistics                                                    *)
(* ===================================================================== *)

Section StatisticsFacts.

Variable sum_decimal : list string -> string.
Variable parseFloat : string -> Json.

Definition stats_answer (total pending done : Z) (revenue : Json) : Response :=
  mkResponse 200
    (JObj [("success", JBool true);
           ("stats",
            JObj [("totalOrders", JNum total);
                  ("ordersByStatus",
                   JObj [("pending", JNum pending); ("done", JNum done)]);
                  ("totalRevenue", revenue)])]).

Lemma getStats_run st :
  Admin.getStats sum_decimal parseFloat st
  = mkRun [EvRespond (stats_answer (Z.of_nat (length (Admin.orders st)))
                                   (Admin.count "pending" st) (Admin.count "done" st)
                                   (Admin.totalRevenue sum_decimal parseFloat st))]
          st (Value tt).
Proof. reflexivity. Qed.

Lemma count_by_status (rows : list Admin.Order) :
  Forall (fun o => Admin.status o = "pending" \/ Admin.status o = "done") rows ->
  Z.of_nat (length rows)
  = Z.of_nat (length (List.filter (fun o => String.eqb (Admin.status o) "pending") rows))
    + Z.of_nat (length (List.filter (fun o => String.eqb (Admin.status o) "done") rows)).
Proof.
  induction 1 as [| o rows Ho _ IH]; [reflexivity |].
  cbn [List.filter length].
  destruct Ho as [-> | ->]; cbn [String.eqb Ascii.eqb Bool.eqb length];
    cbn [length]; lia.
Qed.

End StatisticsFacts.

(** X17: the statistics count every order once.  On a table as the admin
    server writes it, [totalOrders] is the sum of the two counts by
    status, and with no order 'done' the revenue is 0.  A submission
    answered 201 adds one to [totalOrders] and to [pending] and leaves
    [done] and the revenue as they were. *)
Theorem stats_count_every_order
  (sum_decimal : list string -> string) (parseFloat : string -> Json)
  (st : Admin.Store) (Hok : admin_table_ok st) :
  let total s := Z.of_nat (length (Admin.orders s)) in
  let revenue := Admin.totalRevenue sum_decimal parseFloat in
  Admin.getStats sum_decimal parseFloat st
  = mkRun [EvRespond (stats_answer (Admin.count "pending" st + Admin.count "done" st)
                                   (Admin.count "pending" st) (Admin.count "done" st)
                                   (revenue st))]
          st (Value tt)
  /\ (Admin.count "done" st = 0 -> revenue st = JNum 0)
  /\ (forall rejects env b r,
        response_of (trace (Admin.postOrders rejects env b st)) = Some r ->
        code r = 201 ->
        let st' := store (Admin.postOrders rejects env b st) in
        total st' = total st + 1
        /\ Admin.count "pending" st' = Admin.count "pending" st + 1
        /\ Admin.count "done" st' = Admin.count "done" st
        /\ revenue st' = revenue st).
Proof.
  cbv zeta. split; [| split].
  - rewrite getStats_run. unfold Admin.count.
    rewrite <- (count_by_status (Admin.orders st)); [reflexivity |].
    destruct Hok as [_ Hrows]. eapply List.Forall_impl; [| exact Hrows].
    intros o (Hs & _). exact Hs.
  - unfold Admin.count, Admin.totalRevenue. intros Hnone.
    destruct (List.filter _ (Admin.orders st)); [reflexivity | cbn in Hnone; lia].
  - intros rejects env b r Hr H201.
    destruct (admin_201_inserted rejects env b st r Hr H201) as (n & order & Ev & Hins & _).
    destruct (admin_postOrders_outcome rejects env b st) as (_ & -> & _).
    unfold admin_outcome. rewrite Ev. cbv zeta. rewrite Hins. cbn [snd].
    pose proof (insert_new_cases rejects b n st) as Hc. cbv zeta in Hc.
    destruct Hc as [_ [(e & He & _) | (order' & Ho & -> & _ & _ & Hstatus & _)]];
      [rewrite Hins in He; discriminate |].
    unfold Admin.count, Admin.totalRevenue. cbn [Admin.orders].
    rewrite !List.filter_app, !List.length_app. cbn [List.filter].
    rewrite Hstatus. cbn [String.eqb Ascii.eqb Bool.eqb length].
    rewrite !app_nil_r. cbn [length].
    split; [lia |]. split; [lia |]. split; [lia | reflexivity].
Qed.

Lemma stats_count_every_order_witness :
  Admin.getStats (fun _ => "450.00") (fun _ => JNum 450) (table [order_of_eve])
  = mkRun [EvRespond (stats_answer 1 1 0 (JNum 0))] (table [order_of_eve]) (Value tt)
  /\ Admin.count "pending"
       (store (Admin.postOrders (fun _ => None) quiet alice (table [order_of_eve]))) = 2.
Proof.
  assert (Hok : admin_table_ok (table [order_of_eve])).
  { split; [split |].
    - apply NoDup_singleton.
    - constructor; [reflexivity | constructor].
    - constructor; [| constructor].
      unfold admin_row_ok. cbn.
      split; [left; reflexivity |].
      split; [exists 11; split; [lia | reflexivity] |].
      split; [edges |]. split; [edges |]. split; [edges |].
      split; [intros ? [= <-]; split; [discriminate | edges] |].
      split; intros ? [=]. }
  pose proof (stats_count_every_order (fun _ => "450.00") (fun _ => JNum 450)
                (table [order_of_eve]) Hok) as H.
  cbv zeta in H. destruct H as (Hstats & Hzero & Hnew).
  split.
  - rewrite Hstats, (Hzero eq_refl). reflexivity.
  - destruct (Hnew (fun _ => None) quiet alice
                (mkResponse 201
                   (Admin.created
                      (Admin.mkOrder 2 "Alice" "ICE-21-007" "7" None "M" "round" "short"
                                     "alice@example.com" None None "450" "pending" 9 9))))
      as (_ & Hp & _); [vm_compute; reflexivity | reflexivity |].
    rewrite Hp. reflexivity.
Defined.

(** *** The checks only read *)

(** A handler run whose trace holds one response, [r], and no message
    handed over, and which leaves the store [st]. *)
Definition only_answers {S} (run : Run S unit) (st : S) (r : Response) : Prop :=
  store run = st
  /\ result run = Value tt
  /\ responses_of (trace run) = [r]
  /\ mails_of (trace run) = []
  /\ fetches_of (trace run) = [].

Lemma absent_query (q : option string) :
  present q = false -> q = None \/ q = Some "".
Proof.
  destruct q as [s |]; [| left; reflexivity].
  cbn. intros H. apply negb_false_iff, String.eqb_eq in H. right. congruence.
Qed.

Lemma present_query (q : option string) :
  present q = true -> exists s, q = Some s /\ s <> "".
Proof.
  destruct q as [s |]; [| discriminate].
  cbn. intros H. apply negb_true_iff, String.eqb_neq in H. exists s. split; [reflexivity | exact H].
Qed.

(** X18: the four public checks only read.  Whatever the query and the
    table, each of them answers exactly once, leaves the table as it is,
    and hands no message to the email transport; the answer is 400
    exactly when the query parameter is absent or empty. *)
Theorem public_checks_only_read
  (lower : string -> string) (int4in : string -> option Z)
  (q : option string) (ast : Admin.Store) (ist : Intake.Store) :
  (exists r, only_answers (Admin.checkJersey q ast) ast r
             /\ (code r = 400 <-> present q = false))
  /\ (exists r, only_answers (Admin.checkName lower q ast) ast r
                /\ (code r = 400 <-> present q = false))
  /\ (exists r, only_answers (Intake.checkJersey int4in q ist) ist r
                /\ (code r = 400 <-> present q = false))
  /\ (exists r, only_answers (Intake.checkName lower q ist) ist r
                /\ (code r = 400 <-> present q = false)).
Proof.
  destruct (present q) eqn:Hq.
  - destruct (present_query q Hq) as (s & -> & Hs).
    split; [| split; [| split]].
    + rewrite (admin_checkJersey_run s ast Hs). eexists. split.
      * repeat split.
      * cbn. split; intros H; discriminate H.
    + rewrite (admin_checkName_run lower s ast Hs). eexists. split.
      * repeat split.
      * cbn. split; intros H; discriminate H.
    + rewrite (intake_checkJersey_run int4in s ist Hs).
      destruct (int4in (jersey_param s)); eexists; (split; [repeat split |]);
        cbn; split; intros H; discriminate H.
    + rewrite (intake_checkName_run lower s ist Hs). eexists. split.
      * repeat split.
      * cbn. split; intros H; discriminate H.
  - destruct (absent_query q Hq) as [-> | ->];
      (split; [| split; [| split]]); eexists;
      (split; [repeat split | cbn; split; reflexivity]).
Qed.
